(** * AgroSanga: session container, form pages and upload pages

    A shallow embedding of the TypeScript sources of the application:
    - [contexts/AuthContext.tsx]  the session state container
      ([AuthProvider]: [onAuthStateChange], [signUp], [signIn], [signOut]);
    - [pages/Register.tsx], [pages/Login.tsx]  the two validated forms;
    - [pages/RecommendCrop.tsx], [pages/PredictYield.tsx]  the two upload
      pages ([handleFileSelect], [handleAnalysis]).

    JavaScript strings are sequences of UTF-16 code units, React state is
    threaded explicitly, and everything a handler does to the outside
    world (toasts, console output, SDK calls, navigation, timers) is
    recorded in a trace of events.  The answers of the hosted backend are
    inputs of the handlers. *)

From Stdlib Require Import ZArith NArith List String Ascii Bool Lia DecimalString.
From stdpp Require Import gmap strings list.
Import ListNotations.

Local Open Scope list_scope.
Local Open Scope N_scope.

(* ===================================================================== *)
(** * Part I: definitions                                                 *)
(* ===================================================================== *)

(** ** JavaScript strings and the built-ins the pages call *)

Module JS.

(** A string is its list of UTF-16 code units. *)
Definition jsstring : Type := list N.

(** A source literal, one code unit per character. *)
Definition js (s : string) : jsstring :=
  List.map N_of_ascii (list_ascii_of_string s).

Fixpoint str_eqb (a b : jsstring) : bool :=
  match a, b with
  | [], [] => true
  | x :: a', y :: b' => (x =? y) && str_eqb a' b'
  | _, _ => false
  end.

(** [Array.prototype.includes] on an array of strings. *)
Definition includes (arr : list jsstring) (x : jsstring) : bool :=
  existsb (fun y => str_eqb y x) arr.

(** [[0-9]] and its complement [\D]. *)
Definition is_digit (c : N) : bool := (48 <=? c) && (c <=? 57).
Definition non_digit (c : N) : bool := negb (is_digit c).

(** [s.replace(/C/g, r)] for a one-character class [C]: every code
    unit in the class is replaced, scanning left to right. *)
Fixpoint replace_class (cls : N -> bool) (r : jsstring) (s : jsstring) : jsstring :=
  match s with
  | [] => []
  | c :: rest =>
      if cls c then r ++ replace_class cls r rest
      else c :: replace_class cls r rest
  end.

(** [s.slice(start, end)] with integer arguments: negative indices
    count from the end, both are clamped to the string. *)
Definition slice (s : jsstring) (start end_ : Z) : jsstring :=
  let len := Z.of_nat (length s) in
  let from := if (start <? 0)%Z then Z.max (len + start) 0 else Z.min start len in
  let to := if (end_ <? 0)%Z then Z.max (len + end_) 0 else Z.min end_ len in
  take (Z.to_nat (Z.max (to - from) 0)) (drop (Z.to_nat from) s).

(** [/^[0-9]+$/.test(s)]: a non-empty string of digits. *)
Definition all_digits_re (s : jsstring) : bool :=
  match s with
  | [] => false
  | _ => forallb is_digit s
  end.

(** White space and line terminators, as [trim] and [parseFloat] strip
    them. *)
Definition is_white_space (c : N) : bool :=
  ((9 <=? c) && (c <=? 13)) || (c =? 32) || (c =? 160) || (c =? 5760)
  || ((8192 <=? c) && (c <=? 8202)) || (c =? 8232) || (c =? 8233)
  || (c =? 8239) || (c =? 8287) || (c =? 12288) || (c =? 65279).

Fixpoint trimStart (s : jsstring) : jsstring :=
  match s with
  | [] => []
  | c :: rest => if is_white_space c then trimStart rest else s
  end.

Definition trimEnd (s : jsstring) : jsstring := rev (trimStart (rev s)).

Definition trim (s : jsstring) : jsstring := trimEnd (trimStart s).

(** [s.split('.').pop()]: what follows the last dot, the whole string
    when there is none. *)
Fixpoint split_pop (sep : N) (s : jsstring) : jsstring :=
  match s with
  | [] => []
  | c :: rest =>
      if existsb (N.eqb sep) rest then split_pop sep rest
      else if c =? sep then rest
      else s
  end.

(** A non-negative integer in a template literal. *)
Definition of_N (n : N) : jsstring := js (NilZero.string_of_uint (N.to_uint n)).

(** *** Numbers read from text

    A number is kept as the decimal that was read: [Finite neg m e]
    stands for the double nearest to [(-1)^neg * m * 10^e].  The pages
    only ask of such a number whether it is [NaN] and whether it is
    greater than zero, and both are decided exactly.  (For a literal of
    more than 20 significant digits the language lets an engine round
    from the first 20; the value here is the correctly rounded one, which
    is what engines compute.) *)
Inductive number : Type :=
| NaN
| Infinity (negative : bool)
| Finite (negative : bool) (mantissa : N) (exp10 : Z).

Definition isNaN (x : number) : bool :=
  match x with NaN => true | _ => false end.

(** [m * 10^e] rounds to a double above zero exactly when it exceeds
    half the least subnormal, [2^-1075] (the tie goes to zero). *)
Definition rounds_above_zero (m : N) (e : Z) : bool :=
  if (0 <=? e)%Z then 0 <? m
  else (10 ^ (- e) <? Z.of_N m * 2 ^ 1075)%Z.

(** [x > 0]. *)
Definition gt_zero (x : number) : bool :=
  match x with
  | NaN => false
  | Infinity neg => negb neg
  | Finite neg m e => negb neg && rounds_above_zero m e
  end.

Fixpoint span_digits (s : jsstring) : jsstring * jsstring :=
  match s with
  | [] => ([], [])
  | c :: rest =>
      if is_digit c then
        let (ds, tl) := span_digits rest in (c :: ds, tl)
      else ([], s)
  end.

Definition digits_value (ds : jsstring) : N :=
  fold_left (fun acc c => 10 * acc + (c - 48)) ds 0.

Definition is_empty (s : jsstring) : bool :=
  match s with [] => true | _ => false end.

Fixpoint starts_with (p s : jsstring) : bool :=
  match p, s with
  | [], _ => true
  | x :: p', y :: s' => (x =? y) && starts_with p' s'
  | _ :: _, [] => false
  end.

(** The optional exponent part [e|E [+|-] digits]; [0] when the text
    does not continue with a complete one. *)
Definition exponent_part (s : jsstring) : Z :=
  match s with
  | c :: rest =>
      if (c =? 101) || (c =? 69) then
        match rest with
        | sg :: rest' =>
            if sg =? 43 then
              let (ds, _) := span_digits rest' in Z.of_N (digits_value ds)
            else if sg =? 45 then
              let (ds, _) := span_digits rest' in (- Z.of_N (digits_value ds))%Z
            else
              let (ds, _) := span_digits rest in Z.of_N (digits_value ds)
        | [] => 0%Z
        end
      else 0%Z
  | [] => 0%Z
  end.

(** The longest prefix that is an unsigned decimal literal:
    [Infinity], [digits . digits? exp?], [. digits exp?] or
    [digits exp?]. *)
Definition unsigned_literal (neg : bool) (s : jsstring) : number :=
  if starts_with (js "Infinity") s then Infinity neg
  else
    let (int_ds, r1) := span_digits s in
    match r1 with
    | 46 :: r2 =>
        let (frac_ds, r3) := span_digits r2 in
        if is_empty int_ds && is_empty frac_ds then NaN
        else Finite neg (digits_value (int_ds ++ frac_ds))
                        (exponent_part r3 - Z.of_nat (length frac_ds))
    | _ =>
        if is_empty int_ds then NaN
        else Finite neg (digits_value int_ds) (exponent_part r1)
    end.

(** [parseFloat(s)]. *)
Definition parseFloat (s : jsstring) : number :=
  match trimStart s with
  | 43 :: rest => unsigned_literal false rest
  | 45 :: rest => unsigned_literal true rest
  | t => unsigned_literal false t
  end.

End JS.
Export JS.

(** ** The schema validator (zod 3), as far as the two forms use it *)

Module Zod.

(** One link of a [z.string()] chain. *)
Inductive string_check : Type :=
| min (n : nat) (message : string)
| max (n : nat) (message : string)
| regex (re : jsstring -> bool) (message : string)
| trim_.

(** A string schema: its chain, in the order written, the refinements
    that follow it, and whether [undefined] is accepted. *)
Record ZodString : Type := {
  checks : list string_check;
  refinements : list ((jsstring -> bool) * string);
  optional : bool
}.

Definition z_string (cs : list string_check) : ZodString :=
  {| checks := cs; refinements := []; optional := false |}.

Record ZodIssue : Type := { path : string; message : string }.

(** The chain runs left to right over the current value: a failed
    check adds its issue and the run goes on; [trim] replaces the value
    for the links that follow it. *)
Fixpoint run_checks (cs : list string_check) (data : jsstring) : jsstring * list string :=
  match cs with
  | [] => (data, [])
  | min n msg :: cs' =>
      let (out, issues) := run_checks cs' data in
      (out, if (length data <? n)%nat then msg :: issues else issues)
  | max n msg :: cs' =>
      let (out, issues) := run_checks cs' data in
      (out, if (n <? length data)%nat then msg :: issues else issues)
  | regex re msg :: cs' =>
      let (out, issues) := run_checks cs' data in
      (out, if re data then issues else msg :: issues)
  | trim_ :: cs' => run_checks cs' (trim data)
  end.

(** Refinements see the value the chain produced, and run even when
    the chain has reported issues. *)
Fixpoint run_refinements (rs : list ((jsstring -> bool) * string)) (out : jsstring) : list string :=
  match rs with
  | [] => []
  | (p, msg) :: rs' =>
      if p out then run_refinements rs' out
      else msg :: run_refinements rs' out
  end.

Definition parse_string (sch : ZodString) (value : option jsstring) : list string :=
  match value with
  | None => if optional sch then [] else ["Required"%string]
  | Some data =>
      let (out, issues) := run_checks (checks sch) data in
      (issues ++ run_refinements (refinements sch) out)%list
  end.

(** [z.object(shape)]: the keys of the shape in order, each issue with
    its key as path. *)
Definition ZodObject : Type := list (string * ZodString).

Fixpoint issues_of (shape : ZodObject) (input : string -> option jsstring) : list ZodIssue :=
  match shape with
  | [] => []
  | (key, sch) :: shape' =>
      (List.map (fun msg => {| path := key; message := msg |})
                (parse_string sch (input key))
       ++ issues_of shape' input)%list
  end.

(** [schema.parse(input)] returns normally, or throws a [ZodError]
    that carries the issues. *)
Inductive parse_result : Type :=
| parsed
| ZodError (errors : list ZodIssue).

Definition parse (shape : ZodObject) (input : string -> option jsstring) : parse_result :=
  match issues_of shape input with
  | [] => parsed
  | issues => ZodError issues
  end.

(** The loop of both [validateForm]s over [error.errors]: a later
    issue of a field overwrites an earlier one. *)
Definition collect_errors (issues : list ZodIssue) : gmap string string :=
  fold_left (fun newErrors err =>
               if String.eqb (path err) "" then newErrors
               else <[path err := message err]> newErrors)
            issues ∅.

End Zod.

(** ** Data that crosses the pages: identities, files, rows, SDK calls *)

Module Model.

Record Error : Type := { error_message : jsstring }.

Record User : Type := { uid : jsstring }.

(** The SDK's [Session]: its [user] is never absent. *)
Record Session : Type := { session_user : User; access_token : jsstring }.

Record File : Type := { file_name : jsstring; file_type : jsstring; file_size : N }.

Inductive AuthChangeEvent : Type :=
| INITIAL_SESSION | PASSWORD_RECOVERY | SIGNED_IN | SIGNED_OUT
| TOKEN_REFRESHED | USER_UPDATED | MFA_CHALLENGE_VERIFIED.

Record WeatherData : Type := {
  temperature : number; humidity : number; rainfall : number; season : string
}.

Record CropRecommendation : Type := {
  cropName : string; suitability : number;
  expectedYield : jsstring; growingPeriod : jsstring
}.

Record Fertilizer : Type := {
  fertilizer_type : string; dosage : jsstring; applicationTime : string
}.

Record PestDiseaseInfo : Type := {
  commonPests : list string; preventiveMeasures : list string
}.

Record RecommendationResult : Type := {
  recommendedCrops : list CropRecommendation;
  fertilizers : list Fertilizer;
  pestDiseaseInfo : PestDiseaseInfo;
  weatherData : WeatherData
}.

Record SoilData : Type := {
  pH : number; nitrogen : number; phosphorus : number;
  potassium : number; organicMatter : number
}.

Record PredictionResult : Type := {
  soilData : SoilData;
  predictedYield : number;
  recommendations : list string
}.

(** The objects handed to [.insert(...)]. *)
Inductive Row : Type :=
| profiles_row (user_id name mobile_number : jsstring)
               (survey_number : option jsstring) (farm_area : number)
| yield_predictions_row (user_id : jsstring) (soil_data : SoilData)
                        (predicted_yield : number) (file_url : jsstring)
| crop_recommendations_row (user_id : jsstring) (recommended_crops : list string)
                           (fertilizer_info : list Fertilizer)
                           (pest_disease_info : PestDiseaseInfo)
                           (weather_data : WeatherData) (farm_area : number).

(** Every request the application sends to the hosted backend. *)
Inductive sdk_call : Type :=
| auth_signUp (email password emailRedirectTo data_name data_mobile_number : jsstring)
| auth_signInWithPassword (email password : jsstring)
| auth_signOut
| from_select_single (table columns eq_column : string) (eq_value : jsstring)
| from_insert (table : string) (row : Row)
| storage_upload (bucket : string) (path : jsstring) (file : File).

Inductive Variant : Type := default | destructive.

Record Toast : Type := {
  title : string; description : jsstring; variant : option Variant
}.

(** Callbacks handed to [setTimeout]. *)
Inductive timer : Type :=
| fetch_profile (user_id : jsstring)
| resolve_analysis
| reset_progress.

(** What a handler does that is visible outside its component. *)
Inductive event : Type :=
| toast (t : Toast)
| console_error (label : string) (e : Error)
| console_log (text : string)
| call (c : sdk_call)
| navigate (to : string)
| setTimeout (callback : timer) (ms : N).

(** An awaited promise of the auth or the storage client settles one
    way or the other.  A query built with [supabase.from(...)] is not
    given this type: the query builder reports every failure, transport
    failures included, in the [error] field of the answer it is
    fulfilled with, so the handlers below take that answer itself. *)
Inductive promise (A : Type) : Type :=
| fulfilled (value : A)
| rejected (reason : Error).
Arguments fulfilled {A} value.
Arguments rejected {A} reason.

End Model.
Export Model.

(** ** Handlers: state, trace and exceptions *)

Module Handler.

Inductive completion (A : Type) : Type :=
| returned (value : A)
| threw (e : Error).
Arguments returned {A} value.
Arguments threw {A} e.

Record run (S A : Type) : Type := Run {
  final : S;
  trace : list event;
  outcome : completion A
}.
Arguments Run {S A} final trace outcome.
Arguments final {S A} r.
Arguments trace {S A} r.
Arguments outcome {S A} r.

(** A handler body over component state [S]. *)
Definition M (S A : Type) : Type := S -> run S A.

Definition ret {S A} (a : A) : M S A := fun s => Run s [] (returned a).

Definition throw {S A} (e : Error) : M S A := fun s => Run s [] (threw e).

Definition bind {S A B} (m : M S A) (k : A -> M S B) : M S B :=
  fun s =>
    let r := m s in
    match outcome r with
    | returned a =>
        let r' := k a (final r) in
        Run (final r') (trace r ++ trace r') (outcome r')
    | threw e => Run (final r) (trace r) (threw e)
    end.

Definition emit {S} (ev : event) : M S unit := fun s => Run s [ev] (returned tt).

(** The state the handler closed over. *)
Definition read {S} : M S S := fun s => Run s [] (returned s).

(** A state setter. *)
Definition set {S} (f : S -> S) : M S unit := fun s => Run (f s) [] (returned tt).

(** [try { body } catch (error) { handler }] *)
Definition try_catch {S A} (body : M S A) (handler : Error -> M S A) : M S A :=
  fun s =>
    let r := body s in
    match outcome r with
    | returned _ => r
    | threw e =>
        let r' := handler e (final r) in
        Run (final r') (trace r ++ trace r') (outcome r')
    end.

(** [try { body } finally { fin }]: the body's completion stands
    unless the [finally] block throws. *)
Definition try_finally {S A} (body : M S A) (fin : M S unit) : M S A :=
  fun s =>
    let r := body s in
    let r' := fin (final r) in
    Run (final r') (trace r ++ trace r')
        (match outcome r' with
         | returned _ => outcome r
         | threw e => threw e
         end).

(** [await p] *)
Definition await {S A} (p : promise A) : M S A :=
  match p with
  | fulfilled a => ret a
  | rejected e => throw e
  end.

(** A handler of one component run inside a pair of components. *)
Definition in_fst {S T A} (m : M S A) : M (S * T) A :=
  fun st => let r := m (fst st) in Run (final r, snd st) (trace r) (outcome r).

Definition in_snd {S T A} (m : M T A) : M (S * T) A :=
  fun st => let r := m (snd st) in Run (fst st, final r) (trace r) (outcome r).

Definition calls_of (tr : list event) : list sdk_call :=
  omap (fun ev => match ev with call c => Some c | _ => None end) tr.

Definition toasts_of (tr : list event) : list Toast :=
  omap (fun ev => match ev with toast t => Some t | _ => None end) tr.

End Handler.
Export Handler.

Declare Scope handler_scope.
Delimit Scope handler_scope with handler.
Notation "x <- m ;; k" := (bind m (fun x => k))
  (at level 100, m at next level, right associativity) : handler_scope.
Notation "m ;; k" := (bind m (fun _ => k))
  (at level 100, right associativity) : handler_scope.

(** ** contexts/AuthContext.tsx *)

Module AuthContext.
Local Open Scope handler_scope.

(** The three [useState] cells of [AuthProvider]. *)
Record State : Type := {
  user : option User;
  session : option Session;
  loading : bool
}.

Definition initial : State := {| user := None; session := None; loading := true |}.

Definition setUser (u : option User) : M State unit :=
  set (fun s => {| user := u; session := session s; loading := loading s |}).
Definition setSession (x : option Session) : M State unit :=
  set (fun s => {| user := user s; session := x; loading := loading s |}).
Definition setLoading (b : bool) : M State unit :=
  set (fun s => {| user := user s; session := session s; loading := b |}).

(** [session?.user ?? null] *)
Definition session_user_or_null (x : option Session) : option User :=
  match x with
  | Some sess => Some (session_user sess)
  | None => None
  end.

(** The listener registered with [supabase.auth.onAuthStateChange]. *)
Definition onAuthStateChange (event : AuthChangeEvent) (session : option Session)
  : M State unit :=
  setSession session ;;
  setUser (session_user_or_null session) ;;
  setLoading false ;;
  match event, session with
  | SIGNED_IN, Some sess =>
      emit (setTimeout (fetch_profile (uid (session_user sess))) 0)
  | _, _ => ret tt
  end.

(** The callback that the listener defers with [setTimeout(..., 0)];
    [profile] is the [data] of the answer to the query. *)
Definition fetch_profile_callback (user_id : jsstring) (profile : option Row)
  : M State unit :=
  try_catch
    (emit (call (from_select_single "profiles" "*" "user_id" user_id)) ;;
     match profile with
     | None => emit (console_log "No profile found for user")
     | Some _ => ret tt
     end)
    (fun error => emit (console_error "Error fetching profile:" error)).

(** The continuation of [supabase.auth.getSession()]. *)
Definition getSession_then (session : option Session) : M State unit :=
  setSession session ;;
  setUser (session_user_or_null session) ;;
  setLoading false.

(** The [userData] object that [Register] passes to [signUp]. *)
Record UserData : Type := {
  name : jsstring;
  mobileNumber : jsstring;
  surveyNumber : option jsstring;
  farmArea : jsstring
}.

(** [x || null] on a string that may be null. *)
Definition or_null (x : option jsstring) : option jsstring :=
  match x with
  | Some (c :: rest) => Some (c :: rest)
  | _ => None
  end.

(** What the backend answers during one [signUp]: the settled promise
    of [auth.signUp] ([data.user] and [error]) and the [error] of the
    answer to the [profiles] insert. *)
Record SignUpEnv : Type := {
  origin : jsstring;
  signUp_response : promise (option User * option Error);
  profileError : option Error
}.

Definition signUp (env : SignUpEnv) (email password : jsstring) (userData : UserData)
  : M State (option Error) :=
  try_finally
    (try_catch
       (setLoading true ;;
        emit (call (auth_signUp email password (origin env ++ js "/")
                                (name userData) (mobileNumber userData))) ;;
        response <- await (signUp_response env) ;;
        match snd response with
        | Some authError =>
            emit (toast {| title := "Registration Error";
                           description := error_message authError;
                           variant := Some destructive |}) ;;
            ret (Some authError)
        | None =>
            match fst response with
            | Some data_user =>
                emit (call (from_insert "profiles"
                              (profiles_row (uid data_user)
                                            (name userData)
                                            (mobileNumber userData)
                                            (or_null (surveyNumber userData))
                                            (parseFloat (farmArea userData))))) ;;
                match profileError env with
                | Some e =>
                    emit (console_error "Error creating profile:" e) ;;
                    emit (toast {| title := "Profile Creation Error";
                                   description := js "Account created but profile setup failed. Please contact support.";
                                   variant := Some destructive |})
                | None =>
                    emit (toast {| title := "Registration Successful!";
                                   description := js "Your account has been created successfully. You can now login.";
                                   variant := Some default |})
                end
            | None => ret tt
            end ;;
            ret None
        end)
       (fun error =>
          emit (toast {| title := "Registration Error";
                         description := error_message error;
                         variant := Some destructive |}) ;;
          ret (Some error)))
    (setLoading false).

(** What the backend answers during one [signIn]: the [data] of the
    answer to the [profiles] query (the [user_id] of the row, or null)
    and the settled promise of [auth.signInWithPassword] (its
    [error]). *)
Record SignInEnv : Type := {
  profile : option jsstring;
  signIn_response : promise (option Error)
}.

Definition signIn (env : SignInEnv) (mobile password : jsstring) : M State (option Error) :=
  try_finally
    (try_catch
       (setLoading true ;;
        emit (call (from_select_single "profiles" "user_id" "mobile_number" mobile)) ;;
        match profile env with
        | None =>
            let error := {| error_message := js "No account found with this mobile number" |} in
            emit (toast {| title := "Login Error";
                           description := error_message error;
                           variant := Some destructive |}) ;;
            ret (Some error)
        | Some _ =>
            let email := mobile ++ js "@agrosanga.local" in
            emit (call (auth_signInWithPassword email password)) ;;
            error <- await (signIn_response env) ;;
            match error with
            | Some e =>
                emit (toast {| title := "Login Error";
                               description := error_message e;
                               variant := Some destructive |}) ;;
                ret (Some e)
            | None =>
                emit (toast {| title := "Login Successful!";
                               description := js "Welcome back to AgroSanga";
                               variant := None |}) ;;
                ret None
            end
        end)
       (fun error =>
          emit (toast {| title := "Login Error";
                         description := error_message error;
                         variant := Some destructive |}) ;;
          ret (Some error)))
    (setLoading false).

(** [signOut_response] is the settled promise of [auth.signOut]; the
    value it is fulfilled with is not looked at. *)
Definition signOut (signOut_response : promise (option Error)) : M State unit :=
  setLoading true ;;
  try_finally
    (try_catch
       (emit (call auth_signOut) ;;
        _ <- await signOut_response ;;
        emit (toast {| title := "Signed out successfully";
                       description := js "Come back soon!";
                       variant := None |}))
       (fun error =>
          emit (toast {| title := "Error signing out";
                         description := error_message error;
                         variant := Some destructive |})))
    (setLoading false).

(** Everything that can change the container. *)
Inductive transition : Type :=
| auth_state_notification (event : AuthChangeEvent) (session : option Session)
| profile_fetched (user_id : jsstring) (profile : option Row)
| session_loaded (session : option Session)
| signUp_called (env : SignUpEnv) (email password : jsstring) (userData : UserData)
| signIn_called (env : SignInEnv) (mobile password : jsstring)
| signOut_called (signOut_response : promise (option Error)).

Definition step (s : State) (t : transition) : State :=
  match t with
  | auth_state_notification event sess => final (onAuthStateChange event sess s)
  | profile_fetched user_id profile => final (fetch_profile_callback user_id profile s)
  | session_loaded sess => final (getSession_then sess s)
  | signUp_called env email password userData => final (signUp env email password userData s)
  | signIn_called env mobile password => final (signIn env mobile password s)
  | signOut_called r => final (signOut r s)
  end.

Definition after (ts : list transition) : State := fold_left step ts initial.

End AuthContext.

(** ** pages/Register.tsx *)

Module Register.
Import Zod.
Local Open Scope handler_scope.

Definition registerSchema : ZodObject := [
  ("name"%string,
    z_string [ min 2 "Name must be at least 2 characters";
               max 50 "Name must be less than 50 characters";
               trim_ ]);
  ("mobileNumber"%string,
    z_string [ min 10 "Mobile number must be 10 digits";
               max 10 "Mobile number must be 10 digits";
               regex all_digits_re "Mobile number must contain only numbers" ]);
  ("password"%string,
    z_string [ min 6 "Password must be at least 6 characters";
               max 100 "Password too long" ]);
  ("surveyNumber"%string,
    {| checks := []; refinements := []; optional := true |});
  ("farmArea"%string,
    {| checks := [ min 1 "Farm area is required" ];
       refinements :=
         [ (fun val => negb (isNaN (parseFloat val)) && gt_zero (parseFloat val),
            "Farm area must be a positive number"%string) ];
       optional := false |})
].

Record FormData : Type := {
  name : jsstring;
  mobileNumber : jsstring;
  password : jsstring;
  surveyNumber : jsstring;
  farmArea : jsstring
}.

Record State : Type := {
  formData : FormData;
  showPassword : bool;
  errors : gmap string string
}.

Definition initial : State :=
  {| formData := {| name := []; mobileNumber := []; password := [];
                    surveyNumber := []; farmArea := [] |};
     showPassword := false;
     errors := ∅ |}.

(** [formData[key]] *)
Definition property (fd : FormData) (key : string) : option jsstring :=
  if String.eqb key "name" then Some (name fd)
  else if String.eqb key "mobileNumber" then Some (mobileNumber fd)
  else if String.eqb key "password" then Some (password fd)
  else if String.eqb key "surveyNumber" then Some (surveyNumber fd)
  else if String.eqb key "farmArea" then Some (farmArea fd)
  else None.

Definition setErrors (e : gmap string string) : M State unit :=
  set (fun s => {| formData := formData s; showPassword := showPassword s; errors := e |}).

Definition setFormData (f : FormData -> FormData) : M State unit :=
  set (fun s => {| formData := f (formData s); showPassword := showPassword s;
                   errors := errors s |}).

Definition validateForm : M State bool :=
  s <- read ;;
  match parse registerSchema (property (formData s)) with
  | parsed => setErrors ∅ ;; ret true
  | ZodError error_errors => setErrors (collect_errors error_errors) ;; ret false
  end.

(** [{ ...prev, [field]: value }]; the pages only pass the five keys
    of the form. *)
Definition handleChange (field : string) (value : jsstring) : M State unit :=
  setFormData (fun prev =>
    if String.eqb field "name" then
      {| name := value; mobileNumber := mobileNumber prev; password := password prev;
         surveyNumber := surveyNumber prev; farmArea := farmArea prev |}
    else if String.eqb field "mobileNumber" then
      {| name := name prev; mobileNumber := value; password := password prev;
         surveyNumber := surveyNumber prev; farmArea := farmArea prev |}
    else if String.eqb field "password" then
      {| name := name prev; mobileNumber := mobileNumber prev; password := value;
         surveyNumber := surveyNumber prev; farmArea := farmArea prev |}
    else if String.eqb field "surveyNumber" then
      {| name := name prev; mobileNumber := mobileNumber prev; password := password prev;
         surveyNumber := value; farmArea := farmArea prev |}
    else if String.eqb field "farmArea" then
      {| name := name prev; mobileNumber := mobileNumber prev; password := password prev;
         surveyNumber := surveyNumber prev; farmArea := value |}
    else prev).

(** [onChange] of the mobile-number input; [e_target_value] is the raw
    text of the input element. *)
Definition mobileNumber_onChange (e_target_value : jsstring) : M State unit :=
  let value := slice (replace_class non_digit [] e_target_value) 0 10 in
  handleChange "mobileNumber" value.

(** The handler runs over the page and the session container whose
    [signUp] it calls.  ([e.preventDefault()] only concerns the DOM
    event.) *)
Definition handleSubmit (env : AuthContext.SignUpEnv)
  : M (State * AuthContext.State) unit :=
  valid <- in_fst validateForm ;;
  if negb valid then ret tt
  else
    s <- in_fst read ;;
    let formData := formData s in
    let email := mobileNumber formData ++ js "@agrosanga.local" in
    error <- in_snd (AuthContext.signUp env email (password formData)
                       {| AuthContext.name := trim (name formData);
                          AuthContext.mobileNumber := mobileNumber formData;
                          AuthContext.surveyNumber :=
                            AuthContext.or_null (Some (trim (surveyNumber formData)));
                          AuthContext.farmArea := farmArea formData |}) ;;
    match error with
    | None => emit (navigate "/login")
    | Some _ => ret tt
    end.

(** The condition that enables the submit button. *)
Definition isFormValid (fd : FormData) : bool :=
  (2 <=? length (trim (name fd)))%nat
  && (length (mobileNumber fd) =? 10)%nat
  && (6 <=? length (password fd))%nat
  && gt_zero (parseFloat (farmArea fd)).

End Register.

(** ** pages/Login.tsx *)

Module Login.
Import Zod.
Local Open Scope handler_scope.

Definition loginSchema : ZodObject := [
  ("mobileNumber"%string,
    z_string [ min 10 "Mobile number must be 10 digits";
               max 10 "Mobile number must be 10 digits";
               regex all_digits_re "Mobile number must contain only numbers" ]);
  ("password"%string,
    z_string [ min 6 "Password must be at least 6 characters" ])
].

Record State : Type := {
  mobileNumber : jsstring;
  password : jsstring;
  showPassword : bool;
  errors : gmap string string
}.

Definition initial : State :=
  {| mobileNumber := []; password := []; showPassword := false; errors := ∅ |}.

Definition setMobileNumber (v : jsstring) : M State unit :=
  set (fun s => {| mobileNumber := v; password := password s;
                   showPassword := showPassword s; errors := errors s |}).

Definition setErrors (e : gmap string string) : M State unit :=
  set (fun s => {| mobileNumber := mobileNumber s; password := password s;
                   showPassword := showPassword s; errors := e |}).

(** The object literal [{ mobileNumber, password }]. *)
Definition property (s : State) (key : string) : option jsstring :=
  if String.eqb key "mobileNumber" then Some (mobileNumber s)
  else if String.eqb key "password" then Some (password s)
  else None.

Definition validateForm : M State bool :=
  s <- read ;;
  match parse loginSchema (property s) with
  | parsed => setErrors ∅ ;; ret true
  | ZodError error_errors => setErrors (collect_errors error_errors) ;; ret false
  end.

Definition mobileNumber_onChange (e_target_value : jsstring) : M State unit :=
  let value := slice (replace_class non_digit [] e_target_value) 0 10 in
  setMobileNumber value.

Definition handleSubmit (env : AuthContext.SignInEnv)
  : M (State * AuthContext.State) unit :=
  valid <- in_fst validateForm ;;
  if negb valid then ret tt
  else
    s <- in_fst read ;;
    error <- in_snd (AuthContext.signIn env (mobileNumber s) (password s)) ;;
    match error with
    | None => emit (navigate "/")
    | Some _ => ret tt
    end.

Definition isFormValid (s : State) : bool :=
  (length (mobileNumber s) =? 10)%nat && (6 <=? length (password s))%nat.

End Login.

(** ** pages/RecommendCrop.tsx *)

Module RecommendCrop.
Local Open Scope handler_scope.

Record State : Type := {
  selectedFile : option File;
  farmArea : jsstring;
  weatherData : option WeatherData;
  analyzing : bool;
  progress : N;
  result : option RecommendationResult
}.

Definition setSelectedFile (f : option File) : M State unit :=
  set (fun s => {| selectedFile := f; farmArea := farmArea s; weatherData := weatherData s;
                   analyzing := analyzing s; progress := progress s; result := result s |}).
Definition setAnalyzing (b : bool) : M State unit :=
  set (fun s => {| selectedFile := selectedFile s; farmArea := farmArea s;
                   weatherData := weatherData s;
                   analyzing := b; progress := progress s; result := result s |}).
Definition setProgress (n : N) : M State unit :=
  set (fun s => {| selectedFile := selectedFile s; farmArea := farmArea s;
                   weatherData := weatherData s;
                   analyzing := analyzing s; progress := n; result := result s |}).
Definition setResult (r : option RecommendationResult) : M State unit :=
  set (fun s => {| selectedFile := selectedFile s; farmArea := farmArea s;
                   weatherData := weatherData s;
                   analyzing := analyzing s; progress := progress s; result := r |}).

(** [file] is [event.target.files?.[0]]. *)
Definition handleFileSelect (file : option File) : M State unit :=
  match file with
  | Some file =>
      let allowedTypes := [js "image/jpeg"; js "image/png"; js "application/pdf"] in
      if negb (includes allowedTypes (file_type file)) then
        emit (toast {| title := "Invalid File Type";
                       description := js "Please upload a JPG, PNG, or PDF file";
                       variant := Some destructive |})
      else if 5 * 1024 * 1024 <? file_size file then
        emit (toast {| title := "File Too Large";
                       description := js "Please upload a file smaller than 5MB";
                       variant := Some destructive |})
      else
        setSelectedFile (Some file) ;;
        setResult None
  | None => ret tt
  end.

(** The values that [simulateAnalysis] draws with [Math.random]. *)
Record Draws : Type := {
  one_more_crop : bool;
  crop_draw : string -> number * jsstring * jsstring;
  npk_dosage : jsstring;
  compost_dosage : jsstring
}.

Definition simulateAnalysis (d : Draws) (weather : WeatherData)
  : M State RecommendationResult :=
  emit (setTimeout resolve_analysis 4000) ;;
  let crops := ["Rice"; "Wheat"; "Maize"; "Sugarcane"; "Cotton"; "Soybean"; "Tomato"; "Onion"]%string in
  let selectedCrops := take (3 + (if one_more_crop d then 1 else 0))%nat crops in
  ret {| recommendedCrops :=
           List.map (fun crop =>
                       {| cropName := crop;
                          suitability := fst (fst (crop_draw d crop));
                          expectedYield := snd (fst (crop_draw d crop));
                          growingPeriod := snd (crop_draw d crop) |})
                    selectedCrops;
         fertilizers :=
           [ {| fertilizer_type := "NPK (10:26:26)";
                dosage := npk_dosage d;
                applicationTime := "At sowing and flowering" |};
             {| fertilizer_type := "Organic Compost";
                dosage := compost_dosage d;
                applicationTime := "Before land preparation" |} ];
         pestDiseaseInfo :=
           {| commonPests := ["Aphids"; "Stem borer"; "Leaf roller"; "Thrips"]%string;
              preventiveMeasures :=
                ["Regular field monitoring"; "Use of pheromone traps";
                 "Biological pest control"; "Crop rotation practices"]%string |};
         Model.weatherData := weather |}.

(** What the outside answers during one [handleAnalysis]: the clock,
    the settled promise of the storage upload (its [error]), the
    random draws, and the [error] of the answer to the insert. *)
Record AnalysisEnv : Type := {
  now : N;
  upload_response : promise (option Error);
  draws : Draws;
  dbError : option Error
}.

(** [error.message || "Something went wrong during analysis"] *)
Definition message_or_default (e : Error) : jsstring :=
  match error_message e with
  | [] => js "Something went wrong during analysis"
  | m => m
  end.

Definition handleAnalysis (user : option User) (env : AnalysisEnv) : M State unit :=
  s <- read ;;
  match selectedFile s, user, weatherData s with
  | Some selectedFile, Some user, Some weather =>
      try_finally
        (try_catch
           (setAnalyzing true ;;
            setProgress 20 ;;
            let fileExt := split_pop 46 (file_name selectedFile) in
            let fileName := uid user ++ js "/" ++ of_N (now env) ++ js "." ++ fileExt in
            emit (call (storage_upload "soil-reports" fileName selectedFile)) ;;
            uploadError <- await (upload_response env) ;;
            match uploadError with
            | Some e => throw e
            | None => ret tt
            end ;;
            setProgress 50 ;;
            analysisResult <- simulateAnalysis (draws env) weather ;;
            setProgress 90 ;;
            emit (call (from_insert "crop_recommendations"
                          (crop_recommendations_row
                             (uid user)
                             (List.map cropName (recommendedCrops analysisResult))
                             (fertilizers analysisResult)
                             (pestDiseaseInfo analysisResult)
                             (Model.weatherData analysisResult)
                             (parseFloat (farmArea s))))) ;;
            match dbError env with
            | Some e => emit (console_error "Error saving recommendation:" e)
            | None => ret tt
            end ;;
            setProgress 100 ;;
            setResult (Some analysisResult) ;;
            emit (toast {| title := "Analysis Complete!";
                           description := js "Your crop recommendations are ready";
                           variant := None |}))
           (fun error =>
              emit (console_error "Error during analysis:" error) ;;
              emit (toast {| title := "Analysis Failed";
                             description := message_or_default error;
                             variant := Some destructive |})))
        (setAnalyzing false ;;
         emit (setTimeout reset_progress 1000))
  | _, _, _ =>
      emit (toast {| title := "Error";
                     description := js "Please upload a soil report and ensure weather data is loaded";
                     variant := Some destructive |})
  end.

End RecommendCrop.

(** ** pages/PredictYield.tsx *)

Module PredictYield.
Local Open Scope handler_scope.

Record State : Type := {
  selectedFile : option File;
  uploading : bool;
  analyzing : bool;
  progress : N;
  result : option PredictionResult
}.

Definition setSelectedFile (f : option File) : M State unit :=
  set (fun s => {| selectedFile := f; uploading := uploading s; analyzing := analyzing s;
                   progress := progress s; result := result s |}).
Definition setUploading (b : bool) : M State unit :=
  set (fun s => {| selectedFile := selectedFile s; uploading := b; analyzing := analyzing s;
                   progress := progress s; result := result s |}).
Definition setAnalyzing (b : bool) : M State unit :=
  set (fun s => {| selectedFile := selectedFile s; uploading := uploading s; analyzing := b;
                   progress := progress s; result := result s |}).
Definition setProgress (n : N) : M State unit :=
  set (fun s => {| selectedFile := selectedFile s; uploading := uploading s;
                   analyzing := analyzing s; progress := n; result := result s |}).
Definition setResult (r : option PredictionResult) : M State unit :=
  set (fun s => {| selectedFile := selectedFile s; uploading := uploading s;
                   analyzing := analyzing s; progress := progress s; result := r |}).

(** [file] is [event.target.files?.[0]]. *)
Definition handleFileSelect (file : option File) : M State unit :=
  match file with
  | Some file =>
      let allowedTypes := [js "image/jpeg"; js "image/png"; js "application/pdf"] in
      if negb (includes allowedTypes (file_type file)) then
        emit (toast {| title := "Invalid File Type";
                       description := js "Please upload a JPG, PNG, or PDF file";
                       variant := Some destructive |})
      else if 5 * 1024 * 1024 <? file_size file then
        emit (toast {| title := "File Too Large";
                       description := js "Please upload a file smaller than 5MB";
                       variant := Some destructive |})
      else
        setSelectedFile (Some file) ;;
        setResult None
  | None => ret tt
  end.

(** The values that [simulateAnalysis] draws with [Math.random]. *)
Record Draws : Type := {
  soil_draw : SoilData;
  yield_draw : number
}.

Definition simulateAnalysis (d : Draws) : M State PredictionResult :=
  emit (setTimeout resolve_analysis 3000) ;;
  ret {| soilData := soil_draw d;
         predictedYield := yield_draw d;
         recommendations :=
           ["Soil pH is optimal for most crops";
            "Consider organic fertilizer application";
            "Monitor nitrogen levels during growing season";
            "Good phosphorus content supports root development"]%string |}.

Record AnalysisEnv : Type := {
  now : N;
  upload_response : promise (option Error);
  draws : Draws;
  dbError : option Error
}.

Definition message_or_default (e : Error) : jsstring :=
  match error_message e with
  | [] => js "Something went wrong during analysis"
  | m => m
  end.

Definition handleAnalysis (user : option User) (env : AnalysisEnv) : M State unit :=
  s <- read ;;
  match selectedFile s, user with
  | Some selectedFile, Some user =>
      try_finally
        (try_catch
           (setUploading true ;;
            setProgress 10 ;;
            let fileExt := split_pop 46 (file_name selectedFile) in
            let fileName := uid user ++ js "/" ++ of_N (now env) ++ js "." ++ fileExt in
            emit (call (storage_upload "soil-reports" fileName selectedFile)) ;;
            uploadError <- await (upload_response env) ;;
            match uploadError with
            | Some e => throw e
            | None => ret tt
            end ;;
            setProgress 40 ;;
            setUploading false ;;
            setAnalyzing true ;;
            analysisResult <- simulateAnalysis (draws env) ;;
            setProgress 80 ;;
            emit (call (from_insert "yield_predictions"
                          (yield_predictions_row
                             (uid user)
                             (soilData analysisResult)
                             (predictedYield analysisResult)
                             fileName))) ;;
            match dbError env with
            | Some e => emit (console_error "Error saving prediction:" e)
            | None => ret tt
            end ;;
            setProgress 100 ;;
            setResult (Some analysisResult) ;;
            emit (toast {| title := "Analysis Complete!";
                           description := js "Your yield prediction is ready";
                           variant := None |}))
           (fun error =>
              emit (console_error "Error during analysis:" error) ;;
              emit (toast {| title := "Analysis Failed";
                             description := message_or_default error;
                             variant := Some destructive |})))
        (setUploading false ;;
         setAnalyzing false ;;
         emit (setTimeout reset_progress 1000))
  | _, _ =>
      emit (toast {| title := "Error";
                     description := js "Please select a file and make sure you're logged in";
                     variant := Some destructive |})
  end.

End PredictYield.

(** ** The spec's own wording, for comparison with the code *)

Module Spec.

(** "the sequence of digit characters of the input, in order,
    truncated to the first 10 digits" *)
Definition contact_digits (raw : jsstring) : jsstring :=
  take 10 (List.filter is_digit raw).

(** "its declared MIME type is exactly one of image/jpeg, image/png,
    application/pdf AND its byte size is at most 5,242,880" *)
Definition acceptable (f : File) : Prop :=
  (file_type f = js "image/jpeg" \/ file_type f = js "image/png"
   \/ file_type f = js "application/pdf")
  /\ file_size f <= 5242880.


(** The rules of the registration form in the words of the claim:
    "name 2-50 characters after trimming, contact exactly 10 digits,
    secret at least 6 characters, farm area parsing to a positive
    number; reference code optional". *)
Definition name_rule (fd : Register.FormData) : bool :=
  (2 <=? length (trim (Register.name fd)))%nat
  && (length (trim (Register.name fd)) <=? 50)%nat.

Definition contact_rule (fd : Register.FormData) : bool :=
  (length (Register.mobileNumber fd) =? 10)%nat
  && forallb is_digit (Register.mobileNumber fd).

Definition secret_rule (fd : Register.FormData) : bool :=
  (6 <=? length (Register.password fd))%nat.

Definition area_rule (fd : Register.FormData) : bool :=
  gt_zero (parseFloat (Register.farmArea fd)).

Definition claimed_rules (fd : Register.FormData) : bool :=
  name_rule fd && contact_rule fd && secret_rule fd && area_rule fd.

(** The same with the upper bound that the schema puts on the
    secret. *)
Definition secret_rule_bounded (fd : Register.FormData) : bool :=
  secret_rule fd && (length (Register.password fd) <=? 100)%nat.

Definition schema_rules (fd : Register.FormData) : bool :=
  name_rule fd && contact_rule fd && secret_rule_bounded fd && area_rule fd.

End Spec.

(** The two guards of [handleFileSelect], as one boolean. *)
Definition passes_guards (f : File) : bool :=
  includes [js "image/jpeg"; js "image/png"; js "application/pdf"] (file_type f)
  && negb (5 * 1024 * 1024 <? file_size f).

(** ** Predicates on the session container *)

(** A transition that leaves the identity cells alone. *)
Definition keeps_identity (s s' : AuthContext.State) : Prop :=
  AuthContext.user s' = AuthContext.user s
  /\ AuthContext.session s' = AuthContext.session s.

(** The container reflects its session: [user] is
    [session?.user ?? null]. *)
Definition identity_tracks_session (s : AuthContext.State) : Prop :=
  AuthContext.user s = AuthContext.session_user_or_null (AuthContext.session s).

(** The session that a transition hands to the container, when it
    hands one: the payload of a notification of the auth client, or the
    answer of [getSession]. *)
Definition delivered (t : AuthContext.transition) : option (option Session) :=
  match t with
  | AuthContext.auth_state_notification _ sess => Some sess
  | AuthContext.session_loaded sess => Some sess
  | _ => None
  end.

(** The session handed over last in a sequence of transitions; null,
    as the cell starts, when none was. *)
Definition last_delivered (ts : list AuthContext.transition) : option Session :=
  fold_left (fun acc t => match delivered t with
                          | Some sess => sess
                          | None => acc
                          end) ts None.

(** ** Predicates on traces *)

(** The trace shows a failure to the user: it holds a destructive
    toast. *)
Definition failure_toast (tr : list event) : Prop :=
  exists t, In (toast t) tr /\ variant t = Some destructive.

Definition is_failure_toast (ev : event) : bool :=
  match ev with
  | toast t => match variant t with Some destructive => true | _ => false end
  | _ => false
  end.

(** How an awaited storage upload fails: its answer carries an error,
    or the promise is rejected; [None] when the upload succeeded. *)
Definition upload_failure (p : promise (option Error)) : option Error :=
  match p with
  | fulfilled (Some e) => Some e
  | fulfilled None => None
  | rejected e => Some e
  end.

(** The [userData] that [Register.handleSubmit] builds from the form. *)
Definition Register_userData (fd : Register.FormData) : AuthContext.UserData :=
  {| AuthContext.name := trim (Register.name fd);
     AuthContext.mobileNumber := Register.mobileNumber fd;
     AuthContext.surveyNumber := AuthContext.or_null (Some (trim (Register.surveyNumber fd)));
     AuthContext.farmArea := Register.farmArea fd |}.

(** ** Sample inputs *)

Module Sample.

Definition ravi : Register.FormData :=
  {| Register.name := js "Ravi";
     Register.mobileNumber := js "9876543210";
     Register.password := js "secret1";
     Register.surveyNumber := [];
     Register.farmArea := js "2.5" |}.

Definition register_page (fd : Register.FormData) : Register.State :=
  {| Register.formData := fd; Register.showPassword := false; Register.errors := ∅ |}.

Definition login_page (mobile password : jsstring) : Login.State :=
  {| Login.mobileNumber := mobile; Login.password := password;
     Login.showPassword := false; Login.errors := ∅ |}.

Definition a_user : User := {| uid := js "7d7c1f0e" |}.

Definition a_session : Session :=
  {| session_user := a_user; access_token := js "token" |}.

Definition an_error : Error := {| error_message := js "permission denied" |}.

Definition a_file : File :=
  {| file_name := js "soil.report.pdf"; file_type := js "application/pdf";
     file_size := 120000 |}.

Definition a_soil : SoilData :=
  {| pH := Finite false 65 (-1); nitrogen := Finite false 20 0;
     phosphorus := Finite false 12 0; potassium := Finite false 150 0;
     organicMatter := Finite false 25 (-1) |}.

Definition yield_page (res : option PredictionResult) : PredictYield.State :=
  {| PredictYield.selectedFile := Some a_file; PredictYield.uploading := false;
     PredictYield.analyzing := false; PredictYield.progress := 0;
     PredictYield.result := res |}.

Definition yield_env (upload : promise (option Error)) (dbError : option Error)
  : PredictYield.AnalysisEnv :=
  {| PredictYield.now := 1730000000000;
     PredictYield.upload_response := upload;
     PredictYield.draws :=
       {| PredictYield.soil_draw := a_soil;
          PredictYield.yield_draw := Finite false 4212 (-2) |};
     PredictYield.dbError := dbError |}.

(** A user whose id is a UUID in the form the auth service prints. *)
Definition a_farmer : User := {| uid := js "a0eebc99-9c0b-4ef8-bb6d-6bb9bd380a11" |}.

Definition signUp_env (profileError : option Error) : AuthContext.SignUpEnv :=
  {| AuthContext.origin := js "https://agrosanga.example";
     AuthContext.signUp_response := fulfilled (Some a_user, None);
     AuthContext.profileError := profileError |}.

End Sample.

(** ** components/Navbar.tsx *)

Module Navbar.
Local Open Scope handler_scope.

Record Language : Type := { code : string; name : jsstring }.

Definition languages : list Language := [
  {| code := "en"; name := js "English" |};
  {| code := "hi"; name := [2361; 2367; 2306; 2342; 2368] |};
  {| code := "od"; name := [2835; 2849; 2876; 2879; 2822] |};
  {| code := "mr"; name := [2350; 2352; 2366; 2336; 2368] |}
].

Record State : Type := { selectedLanguage : string }.

Definition initial : State := {| selectedLanguage := "en" |}.

Definition setSelectedLanguage (c : string) : M State unit :=
  set (fun _ => {| selectedLanguage := c |}).

(** [onClick] of the menu item rendered for [lang]. *)
Definition language_onClick (lang : Language) : M State unit :=
  setSelectedLanguage (code lang).

(** [languages.find(lang => lang.code === selectedLanguage)?.name], the
    text of the language button; [None] is [undefined]. *)
Definition language_label (s : State) : option jsstring :=
  option_map name
    (find (fun lang => String.eqb (code lang) (selectedLanguage s)) languages).

(** The handler runs over the session container whose [signOut] it
    awaits. *)
Definition handleSignOut (signOut_response : promise (option Error))
  : M AuthContext.State unit :=
  AuthContext.signOut signOut_response ;;
  emit (navigate "/").

End Navbar.

(** ** pages/RecommendCrop.tsx: the mount effect and the button *)

Module RecommendCropPage.
Local Open Scope handler_scope.

(** [month] is [new Date().getMonth()], 0 for January. *)
Definition getCurrentSeason (month : N) : string :=
  if (2 <=? month) && (month <=? 5) then "Summer"
  else if (6 <=? month) && (month <=? 9) then "Monsoon"
  else "Winter".

Definition setFarmArea (v : jsstring) : M RecommendCrop.State unit :=
  set (fun s => {| RecommendCrop.selectedFile := RecommendCrop.selectedFile s;
                   RecommendCrop.farmArea := v;
                   RecommendCrop.weatherData := RecommendCrop.weatherData s;
                   RecommendCrop.analyzing := RecommendCrop.analyzing s;
                   RecommendCrop.progress := RecommendCrop.progress s;
                   RecommendCrop.result := RecommendCrop.result s |}).

Definition setWeatherData (w : option WeatherData) : M RecommendCrop.State unit :=
  set (fun s => {| RecommendCrop.selectedFile := RecommendCrop.selectedFile s;
                   RecommendCrop.farmArea := RecommendCrop.farmArea s;
                   RecommendCrop.weatherData := w;
                   RecommendCrop.analyzing := RecommendCrop.analyzing s;
                   RecommendCrop.progress := RecommendCrop.progress s;
                   RecommendCrop.result := RecommendCrop.result s |}).

(** What the outside answers during one [fetchUserData]: the month of
    the clock, the [data] of the answer to the [profiles] query (given
    as the text that [profile.farm_area.toString()] yields, or null),
    and the three values rounded from [Math.random]. *)
Record FetchEnv : Type := {
  month : N;
  profile_farm_area : option jsstring;
  temperature_draw : number;
  humidity_draw : number;
  rainfall_draw : number
}.

Definition fetchUserData (user : option User) (env : FetchEnv)
  : M RecommendCrop.State unit :=
  match user with
  | None => ret tt
  | Some user =>
      try_catch
        (emit (call (from_select_single "profiles" "farm_area" "user_id" (uid user))) ;;
         match profile_farm_area env with
         | Some text => setFarmArea text
         | None => ret tt
         end ;;
         let mockWeather :=
           {| temperature := temperature_draw env;
              humidity := humidity_draw env;
              rainfall := rainfall_draw env;
              season := getCurrentSeason (month env) |} in
         setWeatherData (Some mockWeather))
        (fun error => emit (console_error "Error fetching user data:" error))
  end.

(** [disabled={!selectedFile || analyzing}] of the analysis button. *)
Definition button_disabled (s : RecommendCrop.State) : bool :=
  match RecommendCrop.selectedFile s with
  | None => true
  | Some _ => RecommendCrop.analyzing s
  end.

Definition initial : RecommendCrop.State :=
  {| RecommendCrop.selectedFile := None; RecommendCrop.farmArea := [];
     RecommendCrop.weatherData := None; RecommendCrop.analyzing := false;
     RecommendCrop.progress := 0; RecommendCrop.result := None |}.

End RecommendCropPage.

(** ** pages/PredictYield.tsx: the button *)

Module PredictYieldPage.

(** [disabled={!selectedFile || uploading || analyzing}] *)
Definition button_disabled (s : PredictYield.State) : bool :=
  match PredictYield.selectedFile s with
  | None => true
  | Some _ => PredictYield.uploading s || PredictYield.analyzing s
  end.

Definition initial : PredictYield.State :=
  {| PredictYield.selectedFile := None; PredictYield.uploading := false;
     PredictYield.analyzing := false; PredictYield.progress := 0;
     PredictYield.result := None |}.

End PredictYieldPage.

(** ** The row-level policies of the migration *)

Module Migration.

(** The [user_id] column of a row. *)
Definition user_id_of (r : Row) : jsstring :=
  match r with
  | profiles_row user_id _ _ _ _ => user_id
  | yield_predictions_row user_id _ _ _ => user_id
  | crop_recommendations_row user_id _ _ _ _ _ => user_id
  end.

(** A value of the database type [uuid]: its sixteen bytes. *)
Definition uuid : Type := list N.

Definition uuid_wf (a : uuid) : bool :=
  (length a =? 16)%nat && forallb (fun b => b <? 256) a.

Definition uuid_eqb (a b : uuid) : bool := bool_decide (a = b).

(** The value of a hexadecimal digit of either case. *)
Definition hex_value (c : N) : option N :=
  if (48 <=? c) && (c <=? 57) then Some (c - 48)
  else if (97 <=? c) && (c <=? 102) then Some (c - 87)
  else if (65 <=? c) && (c <=? 70) then Some (c - 55)
  else None.

(** A hyphen may follow a byte of odd index, the last byte excepted. *)
Definition skip_hyphen (i : N) (src : jsstring) : jsstring :=
  match src with
  | c :: rest => if (c =? 45) && N.odd i && (i <? 15) then rest else src
  | [] => []
  end.

(** Reading [n] bytes from byte [i] on, two hexadecimal digits each;
    what is left of the text comes back with the bytes. *)
Fixpoint uuid_bytes (n : nat) (i : N) (src : jsstring) : option (list N * jsstring) :=
  match n with
  | O => Some ([], src)
  | S n' =>
      match src with
      | hi :: lo :: rest =>
          match hex_value hi, hex_value lo with
          | Some h, Some l =>
              match uuid_bytes n' (i + 1) (skip_hyphen i rest) with
              | Some (bs, tail) => Some ((16 * h + l) :: bs, tail)
              | None => None
              end
          | _, _ => None
          end
      | _ => None
      end
  end.

(** The conversion of a text to [uuid], which a [user_id UUID] column
    applies to the text sent for it: sixteen bytes in hexadecimal digits
    of either case, optionally in braces, optionally with a hyphen after
    any group of four digits; [None] is the refusal of any other text. *)
Definition uuid_in (s : jsstring) : option uuid :=
  let braces := match s with
                | c :: _ => c =? 123
                | [] => false
                end in
  match uuid_bytes 16 0 (if braces then tail s else s) with
  | Some (bs, rest) =>
      if str_eqb rest (if braces then [125] else []) then Some bs else None
  | None => None
  end.

Definition hex_digit (d : N) : N := if d <? 10 then 48 + d else 87 + d.

Fixpoint uuid_text (i : N) (bs : list N) : jsstring :=
  match bs with
  | [] => []
  | b :: rest =>
      (if (i =? 4) || (i =? 6) || (i =? 8) || (i =? 10) then [45] else [])
      ++ [hex_digit (b / 16); hex_digit (b mod 16)] ++ uuid_text (i + 1) rest
  end.

(** [u::text]: lower-case digits in groups of 8, 4, 4, 4 and 12. *)
Definition uuid_out (a : uuid) : jsstring := uuid_text 0 a.

(** [FOR INSERT WITH CHECK (auth.uid() = user_id)], declared alike on
    [profiles], [yield_predictions] and [crop_recommendations], whose
    [user_id] column is of type [UUID]: the text sent for the column is
    converted, and the two [uuid] values are compared.  [auth_uid] is
    null without a session, and the comparison then does not hold. *)
Definition insert_check (auth_uid : option uuid) (table : string) (r : Row) : bool :=
  (String.eqb table "profiles" || String.eqb table "yield_predictions"
   || String.eqb table "crop_recommendations")
  && match auth_uid, uuid_in (user_id_of r) with
     | Some a, Some x => uuid_eqb a x
     | _, _ => false
     end.

(** [string_to_array(name, sep)] *)
Fixpoint parts (sep : N) (s : jsstring) : list jsstring :=
  match s with
  | [] => [[]]
  | c :: rest =>
      if c =? sep then [] :: parts sep rest
      else match parts sep rest with
           | p :: ps => (c :: p) :: ps
           | [] => [[c]]
           end
  end.

Definition string_to_array (s : jsstring) (sep : N) : list jsstring :=
  match s with
  | [] => []
  | _ => parts sep s
  end.

(** [storage.foldername(name)]: the parts of the object name between
    slashes, without the last one (the file). *)
Definition foldername (name : jsstring) : list jsstring :=
  removelast (string_to_array name 47).

(** [FOR INSERT WITH CHECK (bucket_id = 'soil-reports' AND
    auth.uid()::text = (storage.foldername(name))[1])]: here the two
    sides are compared as texts. *)
Definition upload_check (auth_uid : option uuid) (bucket : string) (name : jsstring)
  : bool :=
  String.eqb bucket "soil-reports"
  && match auth_uid, foldername name with
     | Some a, folder :: _ => str_eqb (uuid_out a) folder
     | _, _ => false
     end.

(** The check that the migration puts on a request, for the requests
    that write. *)
Definition write_allowed (auth_uid : option uuid) (c : sdk_call) : bool :=
  match c with
  | from_insert table row => insert_check auth_uid table row
  | storage_upload bucket path _ => upload_check auth_uid bucket path
  | _ => true
  end.

End Migration.

(* ===================================================================== *)
(** * Part II: properties                                                 *)
(* ===================================================================== *)

(** ** Strings *)

Lemma str_eqb_eq (a b : jsstring) : str_eqb a b = true <-> a = b.
Proof.
  revert b; induction a as [|x a IH]; intros [|y b]; simpl; split;
    try congruence; try discriminate.
  - intros H. apply andb_true_iff in H as [Hx Hab].
    apply N.eqb_eq in Hx. apply IH in Hab. congruence.
  - intros H. injection H as -> ->. rewrite N.eqb_refl. simpl. now apply IH.
Qed.

Lemma replace_non_digit_filter (s : jsstring) :
  replace_class non_digit [] s = List.filter is_digit s.
Proof.
  induction s as [|c s IH]; simpl; [reflexivity|].
  rewrite IH. unfold non_digit. now destruct (is_digit c).
Qed.

Lemma slice_0_n (s : jsstring) (n : nat) : slice s 0 (Z.of_nat n) = take n s.
Proof.
  unfold slice.
  replace (0 <? 0)%Z with false by reflexivity.
  destruct (Z.ltb_spec (Z.of_nat n) 0) as [Hneg|_]; [lia|].
  rewrite (Z.min_l 0) by lia. simpl drop.
  destruct (Nat.le_gt_cases n (length s)) as [Hle|Hgt].
  - f_equal. lia.
  - rewrite (take_ge s n) by lia.
    apply take_ge. lia.
Qed.

(** C5. For every raw text typed into a mobile-number input (Register or
    Login) the value stored by the [onChange] handler is the digits of
    the text, in order, cut to the first ten; the other cells of the
    page are left as they were. *)
Theorem mobileNumber_onChange_stores_digits (raw : jsstring) :
  (forall s : Register.State,
     let s' := final (Register.mobileNumber_onChange raw s) in
     Register.mobileNumber (Register.formData s') = Spec.contact_digits raw
     /\ Register.name (Register.formData s') = Register.name (Register.formData s)
     /\ Register.password (Register.formData s') = Register.password (Register.formData s)
     /\ Register.surveyNumber (Register.formData s') = Register.surveyNumber (Register.formData s)
     /\ Register.farmArea (Register.formData s') = Register.farmArea (Register.formData s)
     /\ Register.errors s' = Register.errors s)
  /\ (forall s : Login.State,
        let s' := final (Login.mobileNumber_onChange raw s) in
        Login.mobileNumber s' = Spec.contact_digits raw
        /\ Login.password s' = Login.password s
        /\ Login.errors s' = Login.errors s).
Proof.
  assert (E : slice (replace_class non_digit [] raw) 0 10 = Spec.contact_digits raw).
  { rewrite replace_non_digit_filter. exact (slice_0_n _ 10). }
  split; intros s; cbn; rewrite ?E; repeat split; reflexivity.
Qed.

(** Every stored character is a digit and there are at most ten. *)
Lemma contact_digits_shape (raw : jsstring) :
  forallb is_digit (Spec.contact_digits raw) = true
  /\ (length (Spec.contact_digits raw) <= 10)%nat.
Proof.
  unfold Spec.contact_digits. split.
  - apply forallb_forall. intros c Hc.
    apply list_elem_of_In, elem_of_take in Hc as (i & Hi & _).
    apply list_elem_of_lookup_2, list_elem_of_In, filter_In in Hi. tauto.
  - rewrite length_take. lia.
Qed.

Example contact_digits_example :
  final (Login.mobileNumber_onChange (js "+91 98765-43210 ext 12") Login.initial)
  = {| Login.mobileNumber := js "9198765432"; Login.password := [];
       Login.showPassword := false; Login.errors := ∅ |}.
Proof. vm_compute. reflexivity. Qed.

(** ** The upload surface *)

Lemma includes_In (arr : list jsstring) (x : jsstring) :
  includes arr x = true <-> In x arr.
Proof.
  unfold includes. rewrite existsb_exists. split.
  - intros (y & Hy & E). apply str_eqb_eq in E. now subst.
  - intros H. exists x. split; [assumption | now apply str_eqb_eq].
Qed.

Lemma passes_guards_acceptable (f : File) :
  passes_guards f = true <-> Spec.acceptable f.
Proof.
  unfold passes_guards, Spec.acceptable.
  rewrite andb_true_iff, includes_In, negb_true_iff, N.ltb_ge. simpl In.
  change (5 * 1024 * 1024) with 5242880.
  intuition congruence.
Qed.

Lemma RecommendCrop_handleFileSelect_cases (f : File) (s : RecommendCrop.State) :
  let r := RecommendCrop.handleFileSelect (Some f) s in
  if passes_guards f then
    trace r = []
    /\ final r = {| RecommendCrop.selectedFile := Some f;
                    RecommendCrop.farmArea := RecommendCrop.farmArea s;
                    RecommendCrop.weatherData := RecommendCrop.weatherData s;
                    RecommendCrop.analyzing := RecommendCrop.analyzing s;
                    RecommendCrop.progress := RecommendCrop.progress s;
                    RecommendCrop.result := None |}
  else
    final r = s
    /\ exists t, trace r = [toast t] /\ variant t = Some destructive.
Proof.
  unfold passes_guards, RecommendCrop.handleFileSelect.
  destruct (includes _ (file_type f)); simpl.
  - destruct (5 * 1024 * 1024 <? file_size f); simpl.
    + split; [reflexivity | eexists; split; reflexivity].
    + split; reflexivity.
  - split; [reflexivity | eexists; split; reflexivity].
Qed.

Lemma PredictYield_handleFileSelect_cases (f : File) (s : PredictYield.State) :
  let r := PredictYield.handleFileSelect (Some f) s in
  if passes_guards f then
    trace r = []
    /\ final r = {| PredictYield.selectedFile := Some f;
                    PredictYield.uploading := PredictYield.uploading s;
                    PredictYield.analyzing := PredictYield.analyzing s;
                    PredictYield.progress := PredictYield.progress s;
                    PredictYield.result := None |}
  else
    final r = s
    /\ exists t, trace r = [toast t] /\ variant t = Some destructive.
Proof.
  unfold passes_guards, PredictYield.handleFileSelect.
  destruct (includes _ (file_type f)); simpl.
  - destruct (5 * 1024 * 1024 <? file_size f); simpl.
    + split; [reflexivity | eexists; split; reflexivity].
    + split; reflexivity.
  - split; [reflexivity | eexists; split; reflexivity].
Qed.

(** C1. On both feature pages [handleFileSelect] takes the offered file
    (it becomes the selected file, the displayed result is cleared and
    nothing is notified) exactly when the declared MIME type is one of
    image/jpeg, image/png, application/pdf and the size is at most
    5,242,880 bytes; in every other case it shows one destructive toast
    and leaves the whole page state, selected file and result included,
    as it was. *)
Theorem handleFileSelect_accepts_iff (f : File) :
  (forall s : RecommendCrop.State,
     let r := RecommendCrop.handleFileSelect (Some f) s in
     (Spec.acceptable f <->
        toasts_of (trace r) = []
        /\ RecommendCrop.selectedFile (final r) = Some f
        /\ RecommendCrop.result (final r) = None)
     /\ (~ Spec.acceptable f <->
           (exists t, trace r = [toast t] /\ variant t = Some destructive)
           /\ RecommendCrop.selectedFile (final r) = RecommendCrop.selectedFile s
           /\ RecommendCrop.result (final r) = RecommendCrop.result s
           /\ final r = s))
  /\ (forall s : PredictYield.State,
        let r := PredictYield.handleFileSelect (Some f) s in
        (Spec.acceptable f <->
           toasts_of (trace r) = []
           /\ PredictYield.selectedFile (final r) = Some f
           /\ PredictYield.result (final r) = None)
        /\ (~ Spec.acceptable f <->
              (exists t, trace r = [toast t] /\ variant t = Some destructive)
              /\ PredictYield.selectedFile (final r) = PredictYield.selectedFile s
              /\ PredictYield.result (final r) = PredictYield.result s
              /\ final r = s)).
Proof.
  split; intros s r.
  - pose proof (RecommendCrop_handleFileSelect_cases f s) as H.
    pose proof (passes_guards_acceptable f) as G.
    fold r in H. destruct (passes_guards f).
    + destruct H as [Ht Hf]. assert (A : Spec.acceptable f) by now apply G.
      split; split.
      * intros _. rewrite Ht, Hf. repeat split.
      * intros _. exact A.
      * intros NA. contradiction.
      * intros [(t & Ht' & _) _]. rewrite Ht in Ht'. discriminate.
    + destruct H as [Hf (t & Ht & Hv)].
      assert (NA : ~ Spec.acceptable f) by (intros A; apply G in A; discriminate).
      split; split.
      * intros A. contradiction.
      * intros [Hn _]. rewrite Ht in Hn. discriminate.
      * intros _. rewrite Hf. split; [exists t; split; assumption | repeat split].
      * intros _. exact NA.
  - pose proof (PredictYield_handleFileSelect_cases f s) as H.
    pose proof (passes_guards_acceptable f) as G.
    fold r in H. destruct (passes_guards f).
    + destruct H as [Ht Hf]. assert (A : Spec.acceptable f) by now apply G.
      split; split.
      * intros _. rewrite Ht, Hf. repeat split.
      * intros _. exact A.
      * intros NA. contradiction.
      * intros [(t & Ht' & _) _]. rewrite Ht in Ht'. discriminate.
    + destruct H as [Hf (t & Ht & Hv)].
      assert (NA : ~ Spec.acceptable f) by (intros A; apply G in A; discriminate).
      split; split.
      * intros A. contradiction.
      * intros [Hn _]. rewrite Ht in Hn. discriminate.
      * intros _. rewrite Hf. split; [exists t; split; assumption | repeat split].
      * intros _. exact NA.
Qed.

Example handleFileSelect_boundary :
  let pdf n := {| file_name := js "soil.pdf"; file_type := js "application/pdf"; file_size := n |} in
  let s0 := {| PredictYield.selectedFile := None; PredictYield.uploading := false;
               PredictYield.analyzing := false; PredictYield.progress := 0;
               PredictYield.result := None |} in
  PredictYield.selectedFile (final (PredictYield.handleFileSelect (Some (pdf 5242880)) s0))
    = Some (pdf 5242880)
  /\ PredictYield.selectedFile (final (PredictYield.handleFileSelect (Some (pdf 5242881)) s0))
    = None.
Proof. vm_compute. split; reflexivity. Qed.

(** ** The session state container *)

(** Case analysis over everything the backend may answer. *)
Ltac backend_cases :=
  repeat match goal with
         | p : promise _ |- _ => destruct p as [?|?]
         | o : option _ |- _ => destruct o as [?|]
         | x : (_ * _)%type |- _ => destruct x as [? ?]
         end.

Lemma signUp_keeps_identity env email password userData s :
  keeps_identity s (final (AuthContext.signUp env email password userData s)).
Proof.
  destruct env as [origin resp perr], userData as [n m sv fa].
  backend_cases; split; reflexivity.
Qed.

Lemma signIn_keeps_identity env mobile password s :
  keeps_identity s (final (AuthContext.signIn env mobile password s)).
Proof.
  destruct env as [prof resp]. backend_cases; split; reflexivity.
Qed.

Lemma signOut_keeps_identity resp s :
  keeps_identity s (final (AuthContext.signOut resp s)).
Proof. backend_cases; split; reflexivity. Qed.

Lemma fetch_profile_callback_keeps_state user_id profile s :
  final (AuthContext.fetch_profile_callback user_id profile s) = s.
Proof. destruct profile; reflexivity. Qed.

Lemma onAuthStateChange_final event sess s :
  final (AuthContext.onAuthStateChange event sess s)
  = {| AuthContext.user := AuthContext.session_user_or_null sess;
       AuthContext.session := sess;
       AuthContext.loading := false |}.
Proof. destruct event, sess; reflexivity. Qed.

Lemma step_preserves_tracking s t :
  identity_tracks_session s -> identity_tracks_session (AuthContext.step s t).
Proof.
  unfold identity_tracks_session. intros H.
  destruct t as [event sess | uid prof | sess | env e p ud | env m p | r];
    cbn [AuthContext.step].
  - now rewrite onAuthStateChange_final.
  - now rewrite fetch_profile_callback_keeps_state.
  - reflexivity.
  - destruct (signUp_keeps_identity env e p ud s) as [-> ->]. exact H.
  - destruct (signIn_keeps_identity env m p s) as [-> ->]. exact H.
  - destruct (signOut_keeps_identity r s) as [-> ->]. exact H.
Qed.

Lemma fold_step_preserves_tracking ts s :
  identity_tracks_session s -> identity_tracks_session (fold_left AuthContext.step ts s).
Proof.
  revert s. induction ts as [|t ts IH]; intros s H; simpl; [exact H|].
  apply IH, step_preserves_tracking, H.
Qed.

Lemma step_session s t :
  AuthContext.session (AuthContext.step s t)
  = match delivered t with
    | Some sess => sess
    | None => AuthContext.session s
    end.
Proof.
  destruct t as [event sess | uid prof | sess | env e p ud | env m p | r];
    cbn [AuthContext.step delivered].
  - now rewrite onAuthStateChange_final.
  - now rewrite fetch_profile_callback_keeps_state.
  - reflexivity.
  - exact (proj2 (signUp_keeps_identity env e p ud s)).
  - exact (proj2 (signIn_keeps_identity env m p s)).
  - exact (proj2 (signOut_keeps_identity r s)).
Qed.

Lemma fold_step_session ts s :
  AuthContext.session (fold_left AuthContext.step ts s)
  = fold_left (fun acc t => match delivered t with
                            | Some sess => sess
                            | None => acc
                            end) ts (AuthContext.session s).
Proof.
  revert s. induction ts as [|t ts IH]; intros s; cbn [fold_left]; [reflexivity|].
  now rewrite IH, step_session.
Qed.

(** C2. Whatever sequence of transitions the container has gone through
    (notifications of the auth client, the answer of [getSession], calls
    of [signUp], [signIn] and [signOut], the deferred profile lookup), its
    [user] is [session?.user ?? null] of its [session], and its [session]
    is the one handed over last by a notification or by [getSession].
    Every notification installs its session and that session's user.

    Signing in: [signIn], finding the profile row and having the secret
    accepted, sends the lookup and then the password sign-in for
    "<mobile>@agrosanga.local", and returns a null error; it writes
    neither identity cell itself, so the identity is the one of the
    notification with which the auth client announces the new session,
    whether the listener runs after the handler or before it: [user] is
    then that session's user, not null.

    Signing out: [signOut], however its request settles, sends exactly
    the sign-out request and returns; it writes neither identity cell
    itself, and with the notification that announces the end of the
    session, [user] and [session] are null. *)
Theorem user_is_user_of_session :
  (forall ts : list AuthContext.transition,
     AuthContext.user (AuthContext.after ts)
     = AuthContext.session_user_or_null (AuthContext.session (AuthContext.after ts))
     /\ AuthContext.session (AuthContext.after ts) = last_delivered ts)
  /\ (forall s event sess,
        let s' := AuthContext.step s (AuthContext.auth_state_notification event sess) in
        AuthContext.session s' = sess
        /\ AuthContext.user s' = AuthContext.session_user_or_null sess)
  /\ (forall s row_user_id mobile password sess,
        let env := {| AuthContext.profile := Some row_user_id;
                      AuthContext.signIn_response := fulfilled None |} in
        let announced := AuthContext.auth_state_notification SIGNED_IN (Some sess) in
        let r := AuthContext.signIn env mobile password s in
        calls_of (trace r)
        = [ from_select_single "profiles" "user_id" "mobile_number" mobile;
            auth_signInWithPassword (mobile ++ js "@agrosanga.local") password ]
        /\ outcome r = returned None
        /\ keeps_identity s (final r)
        /\ (forall s',
              s' = AuthContext.step (final r) announced
              \/ s' = final (AuthContext.signIn env mobile password
                                (AuthContext.step s announced)) ->
              AuthContext.user s' = Some (session_user sess)
              /\ AuthContext.user s' <> None
              /\ AuthContext.session s' = Some sess))
  /\ (forall s signOut_response,
        let announced := AuthContext.auth_state_notification SIGNED_OUT None in
        let r := AuthContext.signOut signOut_response s in
        calls_of (trace r) = [auth_signOut]
        /\ outcome r = returned tt
        /\ keeps_identity s (final r)
        /\ (forall s',
              s' = AuthContext.step (final r) announced
              \/ s' = final (AuthContext.signOut signOut_response
                                (AuthContext.step s announced)) ->
              AuthContext.user s' = None /\ AuthContext.session s' = None)).
Proof.
  split; [|split; [|split]].
  - intros ts. split.
    + apply (fold_step_preserves_tracking ts AuthContext.initial). reflexivity.
    + exact (fold_step_session ts AuthContext.initial).
  - intros s event sess. cbn [AuthContext.step].
    rewrite onAuthStateChange_final. split; reflexivity.
  - intros s row_user_id mobile password sess env announced r.
    split; [reflexivity|]. split; [reflexivity|].
    split; [apply signIn_keeps_identity|].
    intros s' [->| ->].
    + subst announced. cbn [AuthContext.step]. rewrite onAuthStateChange_final.
      split; [reflexivity | split; [discriminate | reflexivity]].
    + destruct (signIn_keeps_identity env mobile password
                  (AuthContext.step s announced)) as [-> ->].
      subst announced. cbn [AuthContext.step]. rewrite onAuthStateChange_final.
      split; [reflexivity | split; [discriminate | reflexivity]].
  - intros s resp announced r.
    split; [subst r; backend_cases; reflexivity|].
    split; [subst r; backend_cases; reflexivity|].
    split; [apply signOut_keeps_identity|].
    intros s' [->| ->].
    + subst announced. cbn [AuthContext.step]. rewrite onAuthStateChange_final.
      split; reflexivity.
    + destruct (signOut_keeps_identity resp (AuthContext.step s announced)) as [-> ->].
      subst announced. cbn [AuthContext.step]. rewrite onAuthStateChange_final.
      split; reflexivity.
Qed.

(** C8, as stated, fails: a notification that is not [SIGNED_IN]
    schedules nothing, whether it carries a session (a refreshed token)
    or not (a sign-out). *)
Lemma no_profile_lookup_unless_signed_in :
  let sess := {| session_user := {| uid := js "u-1" |}; access_token := js "t-2" |} in
  let signed_in := {| AuthContext.user := Some (session_user sess);
                      AuthContext.session := Some sess;
                      AuthContext.loading := false |} in
  trace (AuthContext.onAuthStateChange TOKEN_REFRESHED (Some sess) signed_in) = []
  /\ trace (AuthContext.onAuthStateChange SIGNED_OUT None signed_in) = []
  /\ ~ (forall event session s,
          exists user_id ms,
            In (setTimeout (fetch_profile user_id) ms)
               (trace (AuthContext.onAuthStateChange event session s))).
Proof.
  intros sess signed_in. split; [reflexivity | split; [reflexivity |]].
  intros H. destruct (H SIGNED_OUT None signed_in) as (user_id & ms & []).
Qed.

(** C8, amended. A notification schedules the profile lookup, with delay
    0 and for the user of the session it carries, exactly when its event
    is [SIGNED_IN] and it carries a session; every other notification
    schedules nothing.  The transition itself never waits for the lookup:
    the listener returns with the new session, user and [loading = false]
    in place.  The deferred lookup, whatever the backend answers, sends
    its one query, changes no state, shows no toast and does not throw; a
    missing row is only written to the console. *)
Theorem profile_lookup_only_after_signed_in :
  (forall event sess s,
     let r := AuthContext.onAuthStateChange event sess s in
     trace r = match event, sess with
               | SIGNED_IN, Some x => [setTimeout (fetch_profile (uid (session_user x))) 0]
               | _, _ => []
               end
     /\ outcome r = returned tt
     /\ final r = {| AuthContext.user := AuthContext.session_user_or_null sess;
                     AuthContext.session := sess;
                     AuthContext.loading := false |})
  /\ (forall user_id profile s,
        let r := AuthContext.fetch_profile_callback user_id profile s in
        final r = s
        /\ outcome r = returned tt
        /\ trace r = call (from_select_single "profiles" "*" "user_id" user_id)
                     :: match profile with
                        | None => [console_log "No profile found for user"]
                        | Some _ => []
                        end).
Proof.
  split.
  - intros event sess s. destruct event, sess; repeat split.
  - intros user_id profile s. destruct profile; repeat split.
Qed.

(** ** Sign-up *)

(** C3. When account creation succeeds and the profile insert answers
    with an error, [signUp] has sent exactly two requests, the account
    creation and the insert, and nothing after them: no deletion, no
    rollback.  The failure goes to the console and into one destructive
    toast; the value returned carries no error. *)
Theorem signUp_profile_failure_keeps_account
  (origin email password : jsstring) (userData : AuthContext.UserData)
  (data_user : User) (profileError : Error) (s : AuthContext.State) :
  let env := {| AuthContext.origin := origin;
                AuthContext.signUp_response := fulfilled (Some data_user, None);
                AuthContext.profileError := Some profileError |} in
  let r := AuthContext.signUp env email password userData s in
  calls_of (trace r)
  = [ auth_signUp email password (origin ++ js "/")
                  (AuthContext.name userData) (AuthContext.mobileNumber userData);
      from_insert "profiles"
        (profiles_row (uid data_user)
                      (AuthContext.name userData)
                      (AuthContext.mobileNumber userData)
                      (AuthContext.or_null (AuthContext.surveyNumber userData))
                      (parseFloat (AuthContext.farmArea userData))) ]
  /\ toasts_of (trace r)
     = [ {| title := "Profile Creation Error";
            description := js "Account created but profile setup failed. Please contact support.";
            variant := Some destructive |} ]
  /\ In (console_error "Error creating profile:" profileError) (trace r)
  /\ outcome r = returned None.
Proof.
  intros env r. repeat split. cbn. auto.
Qed.

(** ** The two forms *)

Lemma Register_validateForm_run (s : Register.State) :
  Register.validateForm s
  = match Zod.parse Register.registerSchema (Register.property (Register.formData s)) with
    | Zod.parsed =>
        Run {| Register.formData := Register.formData s;
               Register.showPassword := Register.showPassword s;
               Register.errors := ∅ |} [] (returned true)
    | Zod.ZodError issues =>
        Run {| Register.formData := Register.formData s;
               Register.showPassword := Register.showPassword s;
               Register.errors := Zod.collect_errors issues |} [] (returned false)
    end.
Proof.
  unfold Register.validateForm, bind, read. cbn.
  destruct (Zod.parse _ _); reflexivity.
Qed.

Lemma Register_handleSubmit_invalid env s a issues :
  Zod.parse Register.registerSchema (Register.property (Register.formData s))
  = Zod.ZodError issues ->
  Register.handleSubmit env (s, a)
  = Run ({| Register.formData := Register.formData s;
            Register.showPassword := Register.showPassword s;
            Register.errors := Zod.collect_errors issues |}, a) [] (returned tt).
Proof.
  intros H. unfold Register.handleSubmit, bind, in_fst. cbn [fst snd].
  rewrite Register_validateForm_run, H. reflexivity.
Qed.

Lemma Register_handleSubmit_valid env s a :
  Zod.parse Register.registerSchema (Register.property (Register.formData s)) = Zod.parsed ->
  let fd := Register.formData s in
  let su := AuthContext.signUp env (Register.mobileNumber fd ++ js "@agrosanga.local")
                               (Register.password fd) (Register_userData fd) a in
  Register.handleSubmit env (s, a)
  = Run ({| Register.formData := fd;
            Register.showPassword := Register.showPassword s;
            Register.errors := ∅ |}, final su)
        (trace su ++ match outcome su with
                     | returned None => [navigate "/login"]
                     | _ => []
                     end)
        (match outcome su with
         | returned _ => returned tt
         | threw e => threw e
         end).
Proof.
  intros H fd su. unfold Register.handleSubmit, bind, in_fst. cbn [fst snd].
  rewrite Register_validateForm_run, H.
  cbn -[AuthContext.signUp Register.registerSchema].
  fold fd. change (AuthContext.signUp _ _ _ _ a) with su.
  destruct (outcome su) as [[e|]|e]; cbn; rewrite ?app_nil_r; reflexivity.
Qed.

Lemma Login_validateForm_run (s : Login.State) :
  Login.validateForm s
  = match Zod.parse Login.loginSchema (Login.property s) with
    | Zod.parsed =>
        Run {| Login.mobileNumber := Login.mobileNumber s;
               Login.password := Login.password s;
               Login.showPassword := Login.showPassword s;
               Login.errors := ∅ |} [] (returned true)
    | Zod.ZodError issues =>
        Run {| Login.mobileNumber := Login.mobileNumber s;
               Login.password := Login.password s;
               Login.showPassword := Login.showPassword s;
               Login.errors := Zod.collect_errors issues |} [] (returned false)
    end.
Proof.
  unfold Login.validateForm, bind, read. cbn.
  destruct (Zod.parse _ _); reflexivity.
Qed.

Lemma Login_handleSubmit_invalid env s a issues :
  Zod.parse Login.loginSchema (Login.property s) = Zod.ZodError issues ->
  Login.handleSubmit env (s, a)
  = Run ({| Login.mobileNumber := Login.mobileNumber s;
            Login.password := Login.password s;
            Login.showPassword := Login.showPassword s;
            Login.errors := Zod.collect_errors issues |}, a) [] (returned tt).
Proof.
  intros H. unfold Login.handleSubmit, bind, in_fst. cbn [fst snd].
  rewrite Login_validateForm_run, H. reflexivity.
Qed.

(** C6. A submission whose inputs the schema rejects ends inside the
    page, on Login and on Register alike: the handler returns with an
    empty trace (no request to the backend, no toast, no navigation), the
    session container is as it was, and of the page only the [errors]
    cell has changed. *)
Theorem invalid_submission_stays_local :
  (forall env s a issues,
     Zod.parse Register.registerSchema (Register.property (Register.formData s))
     = Zod.ZodError issues ->
     let r := Register.handleSubmit env (s, a) in
     trace r = [] /\ calls_of (trace r) = []
     /\ outcome r = returned tt
     /\ snd (final r) = a
     /\ Register.formData (fst (final r)) = Register.formData s
     /\ Register.showPassword (fst (final r)) = Register.showPassword s)
  /\ (forall env s a issues,
        Zod.parse Login.loginSchema (Login.property s) = Zod.ZodError issues ->
        let r := Login.handleSubmit env (s, a) in
        trace r = [] /\ calls_of (trace r) = []
        /\ outcome r = returned tt
        /\ snd (final r) = a
        /\ Login.mobileNumber (fst (final r)) = Login.mobileNumber s
        /\ Login.password (fst (final r)) = Login.password s
        /\ Login.showPassword (fst (final r)) = Login.showPassword s).
Proof.
  split; intros env s a issues H r; subst r.
  - rewrite (Register_handleSubmit_invalid env s a issues H). repeat split.
  - rewrite (Login_handleSubmit_invalid env s a issues H). repeat split.
Qed.

(** C9. Once account creation has succeeded, [signUp] returns
    [{ error: null }] whether the profile insert answered with an error
    or not, and whether or not a user came back at all; so a valid
    registration form navigates to the login view in each of these
    cases, a failed profile write included. *)
Theorem signUp_returns_null_after_account_creation
  (origin : jsstring) (data_user : option User) (profileError : option Error) :
  let env := {| AuthContext.origin := origin;
                AuthContext.signUp_response := fulfilled (data_user, None);
                AuthContext.profileError := profileError |} in
  (forall email password userData s,
     outcome (AuthContext.signUp env email password userData s) = returned None)
  /\ (forall s a,
        Zod.parse Register.registerSchema (Register.property (Register.formData s))
        = Zod.parsed ->
        let r := Register.handleSubmit env (s, a) in
        In (navigate "/login") (trace r) /\ outcome r = returned tt).
Proof.
  intros env.
  assert (E : forall email password userData s,
             outcome (AuthContext.signUp env email password userData s) = returned None).
  { intros email password userData s. subst env.
    destruct data_user, profileError; reflexivity. }
  split; [exact E|].
  intros s a H r. subst r.
  rewrite (Register_handleSubmit_valid env s a H). cbn [trace outcome].
  rewrite E. split; [|reflexivity].
  apply in_or_app. right. left. reflexivity.
Qed.

(** ** Analysis on the two feature pages *)

(** C10. In [handleAnalysis] of either page the row is inserted, the
    analysis timer started and the result displayed only after the storage
    upload has succeeded: a run whose trace holds an insert or the analysis
    timer, or that changes the result cell, had its upload fulfilled
    without error, and its first event is the upload request, so the
    insert comes after it.  When the upload fails, by an error in its
    answer or by a rejected promise, the handler goes from the upload
    straight to its [catch]: the trace holds the upload, the console line
    and the failure toast of the [catch], and the timer of the [finally];
    no row was inserted in [yield_predictions] or [crop_recommendations],
    the handler returns normally, and the result cell is left as it was,
    null if it was null. *)
Theorem upload_error_stops_analysis (user : option User) (now_ms : N) :
  (forall upload draws dbError s,
     let env := {| RecommendCrop.now := now_ms;
                   RecommendCrop.upload_response := upload;
                   RecommendCrop.draws := draws;
                   RecommendCrop.dbError := dbError |} in
     let r := RecommendCrop.handleAnalysis user env s in
     (forall table row, In (call (from_insert table row)) (trace r) ->
        upload = fulfilled None
        /\ exists path file rest,
             trace r = call (storage_upload "soil-reports" path file) :: rest)
     /\ (forall ms, In (setTimeout resolve_analysis ms) (trace r) ->
           upload = fulfilled None)
     /\ (RecommendCrop.result (final r) <> RecommendCrop.result s ->
           upload = fulfilled None)
     /\ outcome r = returned tt
     /\ forall e, upload_failure upload = Some e ->
          (forall table row, ~ In (call (from_insert table row)) (trace r))
          /\ (forall ms, ~ In (setTimeout resolve_analysis ms) (trace r))
          /\ RecommendCrop.result (final r) = RecommendCrop.result s
          /\ (RecommendCrop.result s = None -> RecommendCrop.result (final r) = None)
          /\ match RecommendCrop.selectedFile s, user, RecommendCrop.weatherData s with
             | Some file, Some u, Some _ =>
                 trace r
                 = [ call (storage_upload "soil-reports"
                             (uid u ++ js "/" ++ of_N now_ms ++ js "."
                              ++ split_pop 46 (file_name file)) file);
                     console_error "Error during analysis:" e;
                     toast {| title := "Analysis Failed";
                              description := RecommendCrop.message_or_default e;
                              variant := Some destructive |};
                     setTimeout reset_progress 1000 ]
             | _, _, _ => calls_of (trace r) = []
             end)
  /\ (forall upload draws dbError s,
        let env := {| PredictYield.now := now_ms;
                      PredictYield.upload_response := upload;
                      PredictYield.draws := draws;
                      PredictYield.dbError := dbError |} in
        let r := PredictYield.handleAnalysis user env s in
        (forall table row, In (call (from_insert table row)) (trace r) ->
           upload = fulfilled None
           /\ exists path file rest,
                trace r = call (storage_upload "soil-reports" path file) :: rest)
        /\ (forall ms, In (setTimeout resolve_analysis ms) (trace r) ->
              upload = fulfilled None)
        /\ (PredictYield.result (final r) <> PredictYield.result s ->
              upload = fulfilled None)
        /\ outcome r = returned tt
        /\ forall e, upload_failure upload = Some e ->
             (forall table row, ~ In (call (from_insert table row)) (trace r))
             /\ (forall ms, ~ In (setTimeout resolve_analysis ms) (trace r))
             /\ PredictYield.result (final r) = PredictYield.result s
             /\ (PredictYield.result s = None -> PredictYield.result (final r) = None)
             /\ match PredictYield.selectedFile s, user with
                | Some file, Some u =>
                    trace r
                    = [ call (storage_upload "soil-reports"
                                (uid u ++ js "/" ++ of_N now_ms ++ js "."
                                 ++ split_pop 46 (file_name file)) file);
                        console_error "Error during analysis:" e;
                        toast {| title := "Analysis Failed";
                                 description := PredictYield.message_or_default e;
                                 variant := Some destructive |};
                        setTimeout reset_progress 1000 ]
                | _, _ => calls_of (trace r) = []
                end).
Proof.
  split; intros upload draws dbError s env r.
  - destruct s as [[file|] fa [w|] an pr res], user as [u|],
      upload as [[e0|]|e0], dbError as [d|];
      subst r env; cbn -[of_N split_pop js];
      (split; [intros table row H; cbn -[of_N split_pop js] in H;
               first [ split; [reflexivity | do 3 eexists; reflexivity]
                     | exfalso; intuition discriminate ] |
       split; [intros ms H; cbn -[of_N split_pop js] in H;
               first [ reflexivity | exfalso; intuition discriminate ] |
       split; [intros H; first [ reflexivity | exfalso; apply H; reflexivity ] |
       split; [reflexivity |
       intros e E; cbn in E; try discriminate E; try (injection E as <-);
       (split; [intros table row H; cbn -[of_N split_pop js] in H;
                intuition discriminate |
        split; [intros ms H; cbn -[of_N split_pop js] in H;
                intuition discriminate |
        split; [reflexivity | split; [auto | reflexivity]]]])]]]]).
  - destruct s as [[file|] up an pr res], user as [u|],
      upload as [[e0|]|e0], dbError as [d|];
      subst r env; cbn -[of_N split_pop js];
      (split; [intros table row H; cbn -[of_N split_pop js] in H;
               first [ split; [reflexivity | do 3 eexists; reflexivity]
                     | exfalso; intuition discriminate ] |
       split; [intros ms H; cbn -[of_N split_pop js] in H;
               first [ reflexivity | exfalso; intuition discriminate ] |
       split; [intros H; first [ reflexivity | exfalso; apply H; reflexivity ] |
       split; [reflexivity |
       intros e E; cbn in E; try discriminate E; try (injection E as <-);
       (split; [intros table row H; cbn -[of_N split_pop js] in H;
                intuition discriminate |
        split; [intros ms H; cbn -[of_N split_pop js] in H;
                intuition discriminate |
        split; [reflexivity | split; [auto | reflexivity]]]])]]]]).
Qed.

(** C7, as stated, fails on the insert after the analysis: with the
    upload accepted and the insert answered by an error, the only toast
    is the success toast; the error went to the console and the result is
    displayed. *)
Lemma insert_failure_is_not_notified :
  let r := PredictYield.handleAnalysis (Some Sample.a_user)
             (Sample.yield_env (fulfilled None) (Some Sample.an_error))
             (Sample.yield_page None) in
  toasts_of (trace r)
  = [ {| title := "Analysis Complete!";
         description := js "Your yield prediction is ready";
         variant := None |} ]
  /\ In (console_error "Error saving prediction:" Sample.an_error) (trace r)
  /\ PredictYield.result (final r) <> None
  /\ ~ failure_toast (trace r).
Proof.
  vm_compute. split; [reflexivity | split; [auto 10 | split; [discriminate |]]].
  intros (t & H & Hv).
  repeat (destruct H as [H|H]; [try discriminate H; injection H as <-; discriminate Hv |]).
  exact H.
Qed.

(** A list of at most two requests of different kinds has no repeat. *)
Ltac no_repeat :=
  repeat (apply List.NoDup_cons; [cbn [In]; intuition discriminate |]);
  apply List.NoDup_nil.

Lemma failure_toast_decide (tr : list event) :
  failure_toast tr <-> existsb is_failure_toast tr = true.
Proof.
  unfold failure_toast. rewrite existsb_exists. split.
  - intros (t & Hin & Hv). exists (toast t). split; [exact Hin|].
    simpl. now rewrite Hv.
  - intros (ev & Hin & Hev). destruct ev as [t| | | | |]; try discriminate.
    exists t. split; [exact Hin|]. simpl in Hev.
    destruct (variant t) as [[|]|]; [discriminate | reflexivity | discriminate].
Qed.

Lemma failure_toast_yes (tr : list event) :
  existsb is_failure_toast tr = true -> failure_toast tr.
Proof. apply failure_toast_decide. Qed.

Lemma failure_toast_no (tr : list event) :
  existsb is_failure_toast tr = false -> ~ failure_toast tr.
Proof. intros H F. apply failure_toast_decide in F. congruence. Qed.

Lemma signUp_failures env email password userData s :
  let r := AuthContext.signUp env email password userData s in
  (exists v, outcome r = returned v)
  /\ (length (calls_of (trace r)) <= 2)%nat /\ List.NoDup (calls_of (trace r))
  /\ match AuthContext.signUp_response env with
     | rejected _ | fulfilled (_, Some _) => failure_toast (trace r)
     | fulfilled (Some _, None) =>
         match AuthContext.profileError env with
         | Some _ => failure_toast (trace r)
         | None => ~ failure_toast (trace r)
         end
     | fulfilled (None, None) => ~ failure_toast (trace r)
     end.
Proof.
  destruct env as [origin resp perr]. cbn [AuthContext.signUp_response AuthContext.profileError].
  backend_cases;
    (split; [eexists; reflexivity |
     split; [cbn; lia |
     split; [cbn -[js of_N split_pop]; no_repeat |
       first [apply failure_toast_yes; reflexivity | apply failure_toast_no; reflexivity]]]]).
Qed.

Lemma signIn_failures env mobile password s :
  let r := AuthContext.signIn env mobile password s in
  (exists v, outcome r = returned v)
  /\ (length (calls_of (trace r)) <= 2)%nat /\ List.NoDup (calls_of (trace r))
  /\ match AuthContext.profile env, AuthContext.signIn_response env with
     | None, _ | Some _, rejected _ | Some _, fulfilled (Some _) => failure_toast (trace r)
     | Some _, fulfilled None => ~ failure_toast (trace r)
     end.
Proof.
  destruct env as [prof resp]. cbn [AuthContext.signIn_response AuthContext.profile].
  backend_cases;
    (split; [eexists; reflexivity |
     split; [cbn; lia |
     split; [cbn -[js of_N split_pop]; no_repeat |
       first [apply failure_toast_yes; reflexivity | apply failure_toast_no; reflexivity]]]]).
Qed.

Lemma signOut_failures resp s :
  let r := AuthContext.signOut resp s in
  outcome r = returned tt
  /\ (length (calls_of (trace r)) <= 1)%nat /\ List.NoDup (calls_of (trace r))
  /\ match resp with
     | rejected _ => failure_toast (trace r)
     | fulfilled _ => ~ failure_toast (trace r)
     end.
Proof.
  backend_cases;
    (split; [reflexivity |
     split; [cbn; lia |
     split; [cbn -[js of_N split_pop]; no_repeat |
       first [apply failure_toast_yes; reflexivity | apply failure_toast_no; reflexivity]]]]).
Qed.

Lemma RecommendCrop_analysis_failures file fa w an pr res u env :
  let s := {| RecommendCrop.selectedFile := Some file; RecommendCrop.farmArea := fa;
              RecommendCrop.weatherData := Some w; RecommendCrop.analyzing := an;
              RecommendCrop.progress := pr; RecommendCrop.result := res |} in
  let r := RecommendCrop.handleAnalysis (Some u) env s in
  outcome r = returned tt
  /\ (length (calls_of (trace r)) <= 2)%nat /\ List.NoDup (calls_of (trace r))
  /\ match RecommendCrop.upload_response env with
     | rejected _ | fulfilled (Some _) =>
         failure_toast (trace r) /\ RecommendCrop.result (final r) = res
     | fulfilled None =>
         ~ failure_toast (trace r)
         /\ RecommendCrop.result (final r) <> None
         /\ toasts_of (trace r)
            = [ {| title := "Analysis Complete!";
                   description := js "Your crop recommendations are ready";
                   variant := None |} ]
         /\ match RecommendCrop.dbError env with
            | Some e => In (console_error "Error saving recommendation:" e) (trace r)
            | None => True
            end
     end.
Proof.
  destruct env as [now_ms resp draws dberr].
  cbn [RecommendCrop.upload_response RecommendCrop.dbError].
  backend_cases;
    (split; [reflexivity |
     split; [cbn; lia |
     split; [cbn -[of_N split_pop js]; no_repeat |
       first [ split; [apply failure_toast_yes; reflexivity | reflexivity]
             | split; [apply failure_toast_no; reflexivity |
               split; [discriminate | split; [reflexivity | cbn; auto 10]]]]]]]).
Qed.

Lemma PredictYield_analysis_failures file up an pr res u env :
  let s := {| PredictYield.selectedFile := Some file; PredictYield.uploading := up;
              PredictYield.analyzing := an; PredictYield.progress := pr;
              PredictYield.result := res |} in
  let r := PredictYield.handleAnalysis (Some u) env s in
  outcome r = returned tt
  /\ (length (calls_of (trace r)) <= 2)%nat /\ List.NoDup (calls_of (trace r))
  /\ match PredictYield.upload_response env with
     | rejected _ | fulfilled (Some _) =>
         failure_toast (trace r) /\ PredictYield.result (final r) = res
     | fulfilled None =>
         ~ failure_toast (trace r)
         /\ PredictYield.result (final r) <> None
         /\ toasts_of (trace r)
            = [ {| title := "Analysis Complete!";
                   description := js "Your yield prediction is ready";
                   variant := None |} ]
         /\ match PredictYield.dbError env with
            | Some e => In (console_error "Error saving prediction:" e) (trace r)
            | None => True
            end
     end.
Proof.
  destruct env as [now_ms resp draws dberr].
  cbn [PredictYield.upload_response PredictYield.dbError].
  backend_cases;
    (split; [reflexivity |
     split; [cbn; lia |
     split; [cbn -[of_N split_pop js]; no_repeat |
       first [ split; [apply failure_toast_yes; reflexivity | reflexivity]
             | split; [apply failure_toast_no; reflexivity |
               split; [discriminate | split; [reflexivity | cbn; auto 10]]]]]]]).
Qed.

(** C7, amended. [signUp], [signIn], [signOut] and both [handleAnalysis]
    return normally whatever the backend answers, and send each of their
    requests at most once.  A destructive toast is shown when the
    promise of [auth.signUp], [auth.signInWithPassword], [auth.signOut]
    or the storage upload is rejected, when [auth.signUp],
    [auth.signInWithPassword] or the upload answer with an error, when
    the profile insert of [signUp] answers with an error, and when
    [signIn] gets no profile row.  An insert that fails after the
    analysis is not among them: it is written to the console, the result
    is displayed and the only toast is the success toast. *)
Theorem failures_notified_except_analysis_insert :
  (forall env email password userData s,
     let r := AuthContext.signUp env email password userData s in
     (exists v, outcome r = returned v)
     /\ (length (calls_of (trace r)) <= 2)%nat /\ List.NoDup (calls_of (trace r))
     /\ match AuthContext.signUp_response env with
        | rejected _ | fulfilled (_, Some _) => failure_toast (trace r)
        | fulfilled (Some _, None) =>
            match AuthContext.profileError env with
            | Some _ => failure_toast (trace r)
            | None => ~ failure_toast (trace r)
            end
        | fulfilled (None, None) => ~ failure_toast (trace r)
        end)
  /\ (forall env mobile password s,
        let r := AuthContext.signIn env mobile password s in
        (exists v, outcome r = returned v)
        /\ (length (calls_of (trace r)) <= 2)%nat /\ List.NoDup (calls_of (trace r))
        /\ match AuthContext.profile env, AuthContext.signIn_response env with
           | None, _ | Some _, rejected _ | Some _, fulfilled (Some _) =>
               failure_toast (trace r)
           | Some _, fulfilled None => ~ failure_toast (trace r)
           end)
  /\ (forall resp s,
        let r := AuthContext.signOut resp s in
        outcome r = returned tt
        /\ (length (calls_of (trace r)) <= 1)%nat /\ List.NoDup (calls_of (trace r))
        /\ match resp with
           | rejected _ => failure_toast (trace r)
           | fulfilled _ => True
           end)
  /\ (forall file fa w an pr res u env,
        let s := {| RecommendCrop.selectedFile := Some file; RecommendCrop.farmArea := fa;
                    RecommendCrop.weatherData := Some w; RecommendCrop.analyzing := an;
                    RecommendCrop.progress := pr; RecommendCrop.result := res |} in
        let r := RecommendCrop.handleAnalysis (Some u) env s in
        outcome r = returned tt
        /\ (length (calls_of (trace r)) <= 2)%nat /\ List.NoDup (calls_of (trace r))
        /\ match RecommendCrop.upload_response env with
           | rejected _ | fulfilled (Some _) =>
               failure_toast (trace r) /\ RecommendCrop.result (final r) = res
           | fulfilled None =>
               ~ failure_toast (trace r)
               /\ RecommendCrop.result (final r) <> None
               /\ toasts_of (trace r)
                  = [ {| title := "Analysis Complete!";
                         description := js "Your crop recommendations are ready";
                         variant := None |} ]
               /\ match RecommendCrop.dbError env with
                  | Some e => In (console_error "Error saving recommendation:" e) (trace r)
                  | None => True
                  end
           end)
  /\ (forall file up an pr res u env,
        let s := {| PredictYield.selectedFile := Some file; PredictYield.uploading := up;
                    PredictYield.analyzing := an; PredictYield.progress := pr;
                    PredictYield.result := res |} in
        let r := PredictYield.handleAnalysis (Some u) env s in
        outcome r = returned tt
        /\ (length (calls_of (trace r)) <= 2)%nat /\ List.NoDup (calls_of (trace r))
        /\ match PredictYield.upload_response env with
           | rejected _ | fulfilled (Some _) =>
               failure_toast (trace r) /\ PredictYield.result (final r) = res
           | fulfilled None =>
               ~ failure_toast (trace r)
               /\ PredictYield.result (final r) <> None
               /\ toasts_of (trace r)
                  = [ {| title := "Analysis Complete!";
                         description := js "Your yield prediction is ready";
                         variant := None |} ]
               /\ match PredictYield.dbError env with
                  | Some e => In (console_error "Error saving prediction:" e) (trace r)
                  | None => True
                  end
           end).
Proof.
  split; [exact signUp_failures|].
  split; [exact signIn_failures|].
  split.
  { intros resp s r. destruct (signOut_failures resp s) as (Ho & Hc & Hd & Hf).
    repeat split; [exact Ho | exact Hc | exact Hd |]. destruct resp; [exact I | exact Hf]. }
  split; [exact RecommendCrop_analysis_failures | exact PredictYield_analysis_failures].
Qed.

(** ** The validator and the [errors] object *)

Section CollectErrors.
Import Zod.

Lemma find_in_app {A} (f : A -> bool) (l1 l2 : list A) :
  find f (l1 ++ l2)
  = match find f l1 with Some x => Some x | None => find f l2 end.
Proof.
  induction l1 as [|x l1 IH]; cbn [find app]; [reflexivity|].
  destruct (f x); [reflexivity | exact IH].
Qed.

Lemma collect_errors_from (issues : list ZodIssue) (m : gmap string string) (k : string) :
  (forall i, In i issues -> path i <> ""%string) ->
  fold_left (fun newErrors err =>
               if String.eqb (path err) "" then newErrors
               else <[path err := message err]> newErrors) issues m !! k
  = match find (fun i => String.eqb (path i) k) (rev issues) with
    | Some i => Some (message i)
    | None => m !! k
    end.
Proof.
  revert m. induction issues as [|i issues IH]; intros m Hne; [reflexivity|].
  cbn [fold_left rev]. rewrite IH by (intros j Hj; apply Hne; now right).
  rewrite find_in_app.
  destruct (find _ (rev issues)) as [j|]; [reflexivity|].
  assert (Hi : path i <> ""%string) by (apply Hne; now left).
  apply String.eqb_neq in Hi. rewrite Hi. cbn [find].
  destruct (String.eqb_spec (path i) k) as [->|Hk].
  - apply lookup_insert_eq.
  - now apply lookup_insert_ne.
Qed.

(** A key is in the collected object exactly when some issue has it as
    path. *)
Lemma collect_errors_is_Some (issues : list ZodIssue) (k : string) :
  (forall i, In i issues -> path i <> ""%string) ->
  is_Some (collect_errors issues !! k) <-> exists i, In i issues /\ path i = k.
Proof.
  intros Hne. unfold collect_errors. rewrite collect_errors_from by exact Hne.
  rewrite lookup_empty.
  destruct (find _ (rev issues)) as [j|] eqn:F.
  - apply find_some in F as [Hin Hp]. apply String.eqb_eq in Hp.
    split; [intros _ | intros _; eauto].
    exists j. split; [now apply in_rev | exact Hp].
  - split; [intros [x Hx]; discriminate|].
    intros (i & Hin & Hp).
    apply in_rev in Hin. apply (find_none _ _ F) in Hin.
    apply String.eqb_neq in Hin. contradiction.
Qed.

Lemma In_issues_of (shape : ZodObject) (input : string -> option jsstring) (i : ZodIssue) :
  In i (issues_of shape input)
  <-> exists sch, In (path i, sch) shape /\ In (message i) (parse_string sch (input (path i))).
Proof.
  induction shape as [|[key sch] shape IH]; cbn [issues_of].
  - split; [intros [] | intros (sch & [] & _)].
  - rewrite in_app_iff, in_map_iff, IH. split.
    + intros [(msg & <- & Hmsg) | (sch' & Hin & Hmsg)].
      * exists sch. split; [now left | exact Hmsg].
      * exists sch'. split; [now right | exact Hmsg].
    + intros (sch' & [E | Hin] & Hmsg).
      * injection E as -> ->. left. exists (message i). split; [|exact Hmsg].
        now destruct i.
      * right. exists sch'. split; assumption.
Qed.

Lemma issues_of_nil (shape : ZodObject) (input : string -> option jsstring) :
  issues_of shape input = []
  <-> Forall (fun entry => parse_string (snd entry) (input (fst entry)) = []) shape.
Proof.
  induction shape as [|[key sch] shape IH]; cbn [issues_of].
  - split; [constructor | reflexivity].
  - split.
    + intros H. apply app_eq_nil in H as [H1 H2]. constructor.
      * cbn [fst snd]. now apply map_eq_nil in H1.
      * now apply IH.
    + intros H. apply Forall_cons_iff in H as [H1 H2]. cbn [fst snd] in H1.
      rewrite H1. cbn [List.map app]. now apply IH.
Qed.

End CollectErrors.

Lemma errors_key_iff (shape : Zod.ZodObject) (input : string -> option jsstring) (k : string) :
  (forall key sch, In (key, sch) shape -> key <> ""%string) ->
  is_Some (Zod.collect_errors (Zod.issues_of shape input) !! k)
  <-> exists sch, In (k, sch) shape /\ Zod.parse_string sch (input k) <> [].
Proof.
  intros Hkeys. rewrite collect_errors_is_Some.
  - split.
    + intros (i & Hin & <-). apply In_issues_of in Hin as (sch & Hs & Hm).
      exists sch. split; [exact Hs|]. intros E. rewrite E in Hm. destruct Hm.
    + intros (sch & Hs & Hne).
      destruct (Zod.parse_string sch (input k)) as [|msg rest] eqn:E; [congruence|].
      exists {| Zod.path := k; Zod.message := msg |}. split; [|reflexivity].
      apply In_issues_of. exists sch. cbn [Zod.path Zod.message].
      split; [exact Hs|]. rewrite E. now left.
  - intros i Hin. apply In_issues_of in Hin as (sch & Hs & _).
    exact (Hkeys _ _ Hs).
Qed.

Lemma registerSchema_keys key sch :
  In (key, sch) Register.registerSchema -> key <> ""%string.
Proof.
  cbn [In Register.registerSchema].
  intros [E|[E|[E|[E|[E|[]]]]]]; injection E as <- _; discriminate.
Qed.

Lemma loginSchema_keys key sch :
  In (key, sch) Login.loginSchema -> key <> ""%string.
Proof.
  cbn [In Login.loginSchema].
  intros [E|[E|[]]]; injection E as <- _; discriminate.
Qed.

(** What each field of the registration schema lets through. *)

Lemma name_field_issues (n : jsstring) :
  Zod.parse_string
    (Zod.z_string [ Zod.min 2 "Name must be at least 2 characters";
                    Zod.max 50 "Name must be less than 50 characters";
                    Zod.trim_ ]) (Some n) = []
  <-> (2 <= length n <= 50)%nat.
Proof.
  cbn -[Nat.ltb].
  destruct (Nat.ltb_spec (length n) 2), (Nat.ltb_spec 50 (length n));
    cbn; split; intros; try discriminate; try lia; reflexivity.
Qed.

Lemma all_digits_re_forallb (m : jsstring) :
  all_digits_re m = true <-> m <> [] /\ forallb is_digit m = true.
Proof.
  destruct m as [|c m]; cbn [all_digits_re].
  - split; [discriminate | intros [H _]; congruence].
  - split; [intros H; split; [discriminate | exact H] | intros [_ H]; exact H].
Qed.

Lemma mobileNumber_field_issues (m : jsstring) :
  Zod.parse_string
    (Zod.z_string [ Zod.min 10 "Mobile number must be 10 digits";
                    Zod.max 10 "Mobile number must be 10 digits";
                    Zod.regex all_digits_re "Mobile number must contain only numbers" ])
    (Some m) = []
  <-> length m = 10%nat /\ forallb is_digit m = true.
Proof.
  cbn -[all_digits_re Nat.ltb].
  destruct (Nat.ltb_spec (length m) 10), (Nat.ltb_spec 10 (length m)),
    (all_digits_re m) eqn:R; cbn; split; intros H';
    try discriminate; try lia; try (destruct H'; lia).
  - apply all_digits_re_forallb in R as [_ R]. split; [lia | exact R].
  - reflexivity.
  - destruct H' as [Hl Hd]. exfalso.
    assert (all_digits_re m = true); [|congruence].
    apply all_digits_re_forallb. split; [|exact Hd].
    intros ->. discriminate Hl.
Qed.

Lemma password_field_issues (p : jsstring) :
  Zod.parse_string
    (Zod.z_string [ Zod.min 6 "Password must be at least 6 characters";
                    Zod.max 100 "Password too long" ]) (Some p) = []
  <-> (6 <= length p <= 100)%nat.
Proof.
  cbn -[Nat.ltb].
  destruct (Nat.ltb_spec (length p) 6), (Nat.ltb_spec 100 (length p));
    cbn; split; intros; try discriminate; try lia; reflexivity.
Qed.

Lemma gt_zero_not_NaN (x : number) : gt_zero x = true -> isNaN x = false.
Proof. destruct x; [discriminate | reflexivity | reflexivity]. Qed.

Lemma farmArea_field_issues (v : jsstring) :
  Zod.parse_string
    {| Zod.checks := [ Zod.min 1 "Farm area is required" ];
       Zod.refinements :=
         [ (fun val => negb (isNaN (parseFloat val)) && gt_zero (parseFloat val),
            "Farm area must be a positive number"%string) ];
       Zod.optional := false |} (Some v) = []
  <-> gt_zero (parseFloat v) = true.
Proof.
  cbn -[parseFloat Nat.ltb].
  destruct (gt_zero (parseFloat v)) eqn:G.
  - rewrite (gt_zero_not_NaN _ G). cbn.
    destruct v as [|c v]; [discriminate G|]. cbn. split; reflexivity.
  - rewrite andb_false_r. split; [|discriminate].
    destruct (length v <? 1)%nat; discriminate.
Qed.

Lemma Register_issues_nil (fd : Register.FormData) :
  Zod.issues_of Register.registerSchema (Register.property fd) = []
  <-> (2 <= length (Register.name fd) <= 50)%nat
      /\ (length (Register.mobileNumber fd) = 10%nat
          /\ forallb is_digit (Register.mobileNumber fd) = true)
      /\ (6 <= length (Register.password fd) <= 100)%nat
      /\ gt_zero (parseFloat (Register.farmArea fd)) = true.
Proof.
  rewrite issues_of_nil. unfold Register.registerSchema.
  repeat rewrite Forall_cons_iff. cbn [fst snd].
  change (Register.property fd "name") with (Some (Register.name fd)).
  change (Register.property fd "mobileNumber") with (Some (Register.mobileNumber fd)).
  change (Register.property fd "password") with (Some (Register.password fd)).
  change (Register.property fd "surveyNumber") with (Some (Register.surveyNumber fd)).
  change (Register.property fd "farmArea") with (Some (Register.farmArea fd)).
  rewrite name_field_issues, mobileNumber_field_issues, password_field_issues,
    farmArea_field_issues.
  split.
  - intros (H1 & H2 & H3 & _ & H5 & _). auto.
  - intros (H1 & H2 & H3 & H5). repeat split; try tauto. constructor.
Qed.

(** The keys of the [errors] object after a validation of the
    registration form. *)
Lemma Register_error_keys (fd : Register.FormData) :
  let errors := Zod.collect_errors (Zod.issues_of Register.registerSchema (Register.property fd)) in
  (is_Some (errors !! "name") <-> ~ (2 <= length (Register.name fd) <= 50)%nat)
  /\ (is_Some (errors !! "mobileNumber")
      <-> ~ (length (Register.mobileNumber fd) = 10%nat
             /\ forallb is_digit (Register.mobileNumber fd) = true))
  /\ (is_Some (errors !! "password") <-> ~ (6 <= length (Register.password fd) <= 100)%nat)
  /\ (is_Some (errors !! "farmArea") <-> gt_zero (parseFloat (Register.farmArea fd)) <> true)
  /\ errors !! "surveyNumber" = None.
Proof.
  intros errors. subst errors.
  repeat split.
  - rewrite (errors_key_iff _ _ _ registerSchema_keys), <- name_field_issues.
    intros (sch & Hin & Hne). cbn [In Register.registerSchema] in Hin.
    destruct Hin as [E|[E|[E|[E|[E|[]]]]]]; try discriminate E.
    injection E as <-. exact Hne.
  - rewrite (errors_key_iff _ _ _ registerSchema_keys), <- name_field_issues.
    intros Hne. eexists. split; [left; reflexivity | exact Hne].
  - rewrite (errors_key_iff _ _ _ registerSchema_keys), <- mobileNumber_field_issues.
    intros (sch & Hin & Hne). cbn [In Register.registerSchema] in Hin.
    destruct Hin as [E|[E|[E|[E|[E|[]]]]]]; try discriminate E.
    injection E as <-. exact Hne.
  - rewrite (errors_key_iff _ _ _ registerSchema_keys), <- mobileNumber_field_issues.
    intros Hne. eexists. split; [right; left; reflexivity | exact Hne].
  - rewrite (errors_key_iff _ _ _ registerSchema_keys), <- password_field_issues.
    intros (sch & Hin & Hne). cbn [In Register.registerSchema] in Hin.
    destruct Hin as [E|[E|[E|[E|[E|[]]]]]]; try discriminate E.
    injection E as <-. exact Hne.
  - rewrite (errors_key_iff _ _ _ registerSchema_keys), <- password_field_issues.
    intros Hne. eexists. split; [right; right; left; reflexivity | exact Hne].
  - rewrite (errors_key_iff _ _ _ registerSchema_keys), <- farmArea_field_issues.
    intros (sch & Hin & Hne). cbn [In Register.registerSchema] in Hin.
    destruct Hin as [E|[E|[E|[E|[E|[]]]]]]; try discriminate E.
    injection E as <-. exact Hne.
  - rewrite (errors_key_iff _ _ _ registerSchema_keys), <- farmArea_field_issues.
    intros Hne. eexists. split; [do 4 right; left; reflexivity | exact Hne].
  - apply eq_None_not_Some.
    rewrite (errors_key_iff _ _ _ registerSchema_keys).
    intros (sch & Hin & Hne). cbn [In Register.registerSchema] in Hin.
    destruct Hin as [E|[E|[E|[E|[E|[]]]]]]; try discriminate E.
    injection E as <-. apply Hne. reflexivity.
Qed.

Lemma Register_error_keys_among (fd : Register.FormData) (k : string) :
  is_Some (Zod.collect_errors
             (Zod.issues_of Register.registerSchema (Register.property fd)) !! k) ->
  k = "name"%string \/ k = "mobileNumber"%string \/ k = "password"%string
  \/ k = "farmArea"%string.
Proof.
  rewrite (errors_key_iff _ _ _ registerSchema_keys).
  intros (sch & Hin & Hne). cbn [In Register.registerSchema] in Hin.
  destruct Hin as [E|[E|[E|[E|[E|[]]]]]]; injection E as <- <-; auto.
  exfalso. apply Hne. reflexivity.
Qed.

Lemma Register_errors_after_submit env s a :
  Register.errors (fst (final (Register.handleSubmit env (s, a))))
  = Zod.collect_errors
      (Zod.issues_of Register.registerSchema (Register.property (Register.formData s))).
Proof.
  destruct (Zod.parse Register.registerSchema (Register.property (Register.formData s)))
    as [|issues] eqn:P.
  - rewrite (Register_handleSubmit_valid env s a P). cbn [final fst Register.errors].
    unfold Zod.parse in P.
    destruct (Zod.issues_of _ _); [reflexivity | discriminate].
  - rewrite (Register_handleSubmit_invalid env s a issues P). cbn [final fst Register.errors].
    unfold Zod.parse in P.
    destruct (Zod.issues_of _ _); [discriminate | congruence].
Qed.

Lemma signUp_starts_with_account_creation env email password userData s :
  exists rest,
    trace (AuthContext.signUp env email password userData s)
    = call (auth_signUp email password (AuthContext.origin env ++ js "/")
                        (AuthContext.name userData) (AuthContext.mobileNumber userData))
      :: rest.
Proof.
  destruct env as [origin resp perr]. backend_cases; eexists; reflexivity.
Qed.

Lemma name_rule_iff fd :
  Spec.name_rule fd = true <-> (2 <= length (trim (Register.name fd)) <= 50)%nat.
Proof.
  unfold Spec.name_rule. rewrite andb_true_iff, Nat.leb_le, Nat.leb_le. reflexivity.
Qed.

Lemma contact_rule_iff fd :
  Spec.contact_rule fd = true
  <-> length (Register.mobileNumber fd) = 10%nat
      /\ forallb is_digit (Register.mobileNumber fd) = true.
Proof.
  unfold Spec.contact_rule. rewrite andb_true_iff, Nat.eqb_eq. reflexivity.
Qed.

Lemma secret_rule_bounded_iff fd :
  Spec.secret_rule_bounded fd = true <-> (6 <= length (Register.password fd) <= 100)%nat.
Proof.
  unfold Spec.secret_rule_bounded, Spec.secret_rule.
  rewrite andb_true_iff, Nat.leb_le, Nat.leb_le. reflexivity.
Qed.

Lemma schema_rules_iff fd :
  trim (Register.name fd) = Register.name fd ->
  Spec.schema_rules fd = true
  <-> Zod.issues_of Register.registerSchema (Register.property fd) = [].
Proof.
  intros T. rewrite Register_issues_nil. unfold Spec.schema_rules.
  rewrite !andb_true_iff, name_rule_iff, contact_rule_iff, secret_rule_bounded_iff, T.
  unfold Spec.area_rule. tauto.
Qed.

(** C4, amended.  Take a registration form whose name has no white space
    at either end, and the rules: name of 2 to 50 characters, contact of
    exactly 10 digits, secret of 6 to 100 characters, farm area parsing
    to a number above zero (the reference code is free).  After a
    submission the [errors] object has a message under the key of each
    field that breaks its rule and under no other key.  If some rule is
    broken, [validateForm] returns false and the handler ends with an
    empty trace and the session container untouched: [signUp] is not
    called.  If all rules hold, [validateForm] returns true, [errors] is
    empty and the first thing the handler does is the account-creation
    request of [signUp]. *)
Theorem registration_rules_decide_submission
  (fd : Register.FormData) (show : bool) (errs : gmap string string)
  (a : AuthContext.State) (env : AuthContext.SignUpEnv) :
  trim (Register.name fd) = Register.name fd ->
  let s := {| Register.formData := fd; Register.showPassword := show;
              Register.errors := errs |} in
  let v := Register.validateForm s in
  let r := Register.handleSubmit env (s, a) in
  let errors' := Register.errors (fst (final r)) in
  (is_Some (errors' !! "name") <-> Spec.name_rule fd = false)
  /\ (is_Some (errors' !! "mobileNumber") <-> Spec.contact_rule fd = false)
  /\ (is_Some (errors' !! "password") <-> Spec.secret_rule_bounded fd = false)
  /\ (is_Some (errors' !! "farmArea") <-> Spec.area_rule fd = false)
  /\ errors' !! "surveyNumber" = None
  /\ (forall k, is_Some (errors' !! k) ->
        k = "name"%string \/ k = "mobileNumber"%string \/ k = "password"%string
        \/ k = "farmArea"%string)
  /\ Register.errors (final v) = errors'
  /\ (Spec.schema_rules fd = false ->
        outcome v = returned false
        /\ trace r = [] /\ calls_of (trace r) = [] /\ snd (final r) = a)
  /\ (Spec.schema_rules fd = true ->
        outcome v = returned true
        /\ errors' = ∅
        /\ exists rest,
             trace r
             = call (auth_signUp (Register.mobileNumber fd ++ js "@agrosanga.local")
                                 (Register.password fd)
                                 (AuthContext.origin env ++ js "/")
                                 (trim (Register.name fd))
                                 (Register.mobileNumber fd))
               :: rest).
Proof.
  intros T s v r errors'.
  assert (E : errors'
              = Zod.collect_errors
                  (Zod.issues_of Register.registerSchema (Register.property fd))).
  { subst errors' r. now rewrite Register_errors_after_submit. }
  destruct (Register_error_keys fd) as (Kn & Km & Kp & Kf & Ks).
  rewrite <- E in Kn, Km, Kp, Kf, Ks.
  split; [|split; [|split; [|split; [|split; [|split; [|split; [|split]]]]]]].
  - rewrite Kn, <- not_true_iff_false, name_rule_iff, T. reflexivity.
  - rewrite Km, <- not_true_iff_false, contact_rule_iff. reflexivity.
  - rewrite Kp, <- not_true_iff_false, secret_rule_bounded_iff. reflexivity.
  - rewrite Kf. unfold Spec.area_rule. apply not_true_iff_false.
  - exact Ks.
  - intros k. rewrite E. apply Register_error_keys_among.
  - rewrite E. subst v. rewrite Register_validateForm_run. cbn [Register.formData].
    unfold Zod.parse. destruct (Zod.issues_of _ _); reflexivity.
  - intros R. apply not_true_iff_false in R. rewrite (schema_rules_iff fd T) in R.
    destruct (Zod.issues_of Register.registerSchema (Register.property fd))
      as [|i issues] eqn:I; [congruence|].
    assert (P : Zod.parse Register.registerSchema (Register.property (Register.formData s))
                = Zod.ZodError (i :: issues)).
    { unfold Zod.parse. cbn [Register.formData s]. now rewrite I. }
    subst v r. rewrite Register_validateForm_run, P.
    rewrite (Register_handleSubmit_invalid env s a _ P). repeat split.
  - intros R. apply (schema_rules_iff fd T) in R.
    assert (P : Zod.parse Register.registerSchema (Register.property (Register.formData s))
                = Zod.parsed).
    { unfold Zod.parse. cbn [Register.formData s]. now rewrite R. }
    split; [subst v; now rewrite Register_validateForm_run, P|].
    split; [rewrite E, R; reflexivity|].
    subst r. rewrite (Register_handleSubmit_valid env s a P). cbn [trace Register.formData s].
    destruct (signUp_starts_with_account_creation env
                (Register.mobileNumber fd ++ js "@agrosanga.local")
                (Register.password fd) (Register_userData fd) a) as (rest & ->).
    eexists. cbn [app]. reflexivity.
Qed.

(** C4, as stated, fails: a form whose secret has 101 characters keeps
    every rule the claim lists, and is rejected with "Password too
    long"; [signUp] is not called. *)
Lemma long_secret_is_rejected :
  let fd := {| Register.name := js "Ravi";
               Register.mobileNumber := js "9876543210";
               Register.password := List.repeat 97 101;
               Register.surveyNumber := [];
               Register.farmArea := js "2.5" |} in
  let s := Sample.register_page fd in
  let r := Register.handleSubmit (Sample.signUp_env None) (s, AuthContext.initial) in
  Spec.claimed_rules fd = true
  /\ outcome (Register.validateForm s) = returned false
  /\ calls_of (trace r) = []
  /\ Register.errors (fst (final r)) !! "password" = Some "Password too long"%string.
Proof. vm_compute. repeat split. Qed.

(** The amended C4 at the end-to-end form of the spec. *)
Lemma registration_rules_decide_submission_witness :
  let s := Sample.register_page Sample.ravi in
  let r := Register.handleSubmit (Sample.signUp_env None) (s, AuthContext.initial) in
  trim (Register.name Sample.ravi) = Register.name Sample.ravi
  /\ outcome (Register.validateForm s) = returned true
  /\ Register.errors (fst (final r)) = ∅
  /\ exists rest,
       trace r
       = call (auth_signUp (js "9876543210@agrosanga.local") (js "secret1")
                           (js "https://agrosanga.example/") (js "Ravi") (js "9876543210"))
         :: rest.
Proof.
  intros s r.
  pose proof (registration_rules_decide_submission
                Sample.ravi false ∅ AuthContext.initial (Sample.signUp_env None)
                eq_refl) as H.
  cbv zeta in H. destruct H as (_ & _ & _ & _ & _ & _ & _ & _ & Hvalid).
  split; [reflexivity|]. apply Hvalid. vm_compute. reflexivity.
Defined.

(** The end-to-end case of the spec: "Ravi", "9876543210", "secret1",
    "2.5" goes to the login view with no validation error. *)
Example ravi_registers :
  let r := Register.handleSubmit (Sample.signUp_env None)
             (Sample.register_page Sample.ravi, AuthContext.initial) in
  Register.errors (fst (final r)) = ∅
  /\ last (trace r) = Some (navigate "/login")
  /\ AuthContext.loading (snd (final r)) = false.
Proof. vm_compute. repeat split. Qed.

(** The order of the name chain: the length checks see the text as
    typed, the trimmed text goes to [signUp].  A name of one letter and
    one space passes the schema although the submit button stays
    disabled for it. *)
Example padded_name_passes_schema :
  let fd := {| Register.name := js "a ";
               Register.mobileNumber := js "9876543210";
               Register.password := js "secret1";
               Register.surveyNumber := [];
               Register.farmArea := js "2.5" |} in
  outcome (Register.validateForm (Sample.register_page fd)) = returned true
  /\ Spec.name_rule fd = false
  /\ Register.isFormValid fd = false.
Proof. vm_compute. repeat split. Qed.

(** The message kept for a field is that of its last failing check. *)
Example last_issue_of_a_field_wins :
  let s := Sample.login_page (js "12a") (js "secret1") in
  Login.errors (final (Login.validateForm s)) !! "mobileNumber"
  = Some "Mobile number must contain only numbers"%string.
Proof. vm_compute. reflexivity. Qed.

(** C6 at a registration with a five-digit contact and a zero area, and
    at a login with a three-character secret. *)
Lemma invalid_submission_stays_local_witness :
  let bad := {| Register.name := js "Ravi";
                Register.mobileNumber := js "98765";
                Register.password := js "secret1";
                Register.surveyNumber := [];
                Register.farmArea := js "0" |} in
  let a := {| AuthContext.user := None; AuthContext.session := None;
              AuthContext.loading := false |} in
  let r1 := Register.handleSubmit (Sample.signUp_env None) (Sample.register_page bad, a) in
  let r2 := Login.handleSubmit
              {| AuthContext.profile := Some (js "7d7c1f0e");
                 AuthContext.signIn_response := fulfilled None |}
              (Sample.login_page (js "9876543210") (js "abc"), a) in
  (trace r1 = [] /\ snd (final r1) = a) /\ (trace r2 = [] /\ snd (final r2) = a).
Proof.
  intros bad a r1 r2.
  destruct invalid_submission_stays_local as [HR HL].
  split.
  - edestruct (HR (Sample.signUp_env None) (Sample.register_page bad) a) as (H1 & _ & _ & H2 & _).
    + vm_compute. reflexivity.
    + split; [exact H1 | exact H2].
  - edestruct (HL {| AuthContext.profile := Some (js "7d7c1f0e");
                     AuthContext.signIn_response := fulfilled None |}
                  (Sample.login_page (js "9876543210") (js "abc")) a)
      as (H1 & _ & _ & H2 & _).
    + vm_compute. reflexivity.
    + split; [exact H1 | exact H2].
Defined.

(** C9 at the end-to-end form, with the profile insert refused. *)
Lemma signUp_returns_null_after_account_creation_witness :
  let env := Sample.signUp_env (Some Sample.an_error) in
  let r := Register.handleSubmit env (Sample.register_page Sample.ravi, AuthContext.initial) in
  Zod.parse Register.registerSchema (Register.property Sample.ravi) = Zod.parsed
  /\ In (navigate "/login") (trace r) /\ outcome r = returned tt.
Proof.
  intros env r.
  assert (P : Zod.parse Register.registerSchema (Register.property Sample.ravi) = Zod.parsed)
    by (vm_compute; reflexivity).
  split; [exact P|].
  exact (proj2 (signUp_returns_null_after_account_creation
                  (js "https://agrosanga.example") (Some Sample.a_user)
                  (Some Sample.an_error))
               (Sample.register_page Sample.ravi) AuthContext.initial P).
Defined.

(** C10 on the yield page, no result displayed before: an upload
    refused in its answer, and an upload whose promise is rejected. *)
Lemma upload_error_stops_analysis_witness :
  let page := Sample.yield_page None in
  let refused := PredictYield.handleAnalysis (Some Sample.a_user)
                   (Sample.yield_env (fulfilled (Some Sample.an_error)) None) page in
  let lost := PredictYield.handleAnalysis (Some Sample.a_user)
                (Sample.yield_env (rejected Sample.an_error) None) page in
  PredictYield.result page = None
  /\ upload_failure (fulfilled (Some Sample.an_error)) = Some Sample.an_error
  /\ upload_failure (rejected Sample.an_error) = Some Sample.an_error
  /\ PredictYield.result (final refused) = None
  /\ (forall table row, ~ In (call (from_insert table row)) (trace refused))
  /\ PredictYield.result (final lost) = None
  /\ (forall table row, ~ In (call (from_insert table row)) (trace lost)).
Proof.
  intros page refused lost.
  pose proof (proj2 (upload_error_stops_analysis (Some Sample.a_user) 1730000000000))
    as H.
  destruct (proj2 (proj2 (proj2 (proj2
              (H (fulfilled (Some Sample.an_error))
                 (PredictYield.draws (Sample.yield_env (fulfilled None) None))
                 None page))))
              Sample.an_error eq_refl)
    as (Hins & _ & _ & Hnull & _).
  destruct (proj2 (proj2 (proj2 (proj2
              (H (rejected Sample.an_error)
                 (PredictYield.draws (Sample.yield_env (fulfilled None) None))
                 None page))))
              Sample.an_error eq_refl)
    as (Hins' & _ & _ & Hnull' & _).
  split; [reflexivity|]. split; [reflexivity|]. split; [reflexivity|].
  split; [exact (Hnull eq_refl)|]. split; [exact Hins|].
  split; [exact (Hnull' eq_refl) | exact Hins'].
Defined.

(* ===================================================================== *)
(** * Part III: further properties of the same files                      *)
(* ===================================================================== *)

(** ** Which message a field shows *)

Lemma find_all_false {A} (f : A -> bool) (l : list A) :
  (forall x, In x l -> f x = false) -> find f l = None.
Proof.
  induction l as [|x l IH]; intros H; [reflexivity|].
  cbn [find]. rewrite (H x) by now left. apply IH. intros y Hy. apply H. now right.
Qed.

Lemma find_rev_issues_of_key (k : string) (msgs : list string) :
  find (fun i => String.eqb (Zod.path i) k)
       (rev (List.map (fun msg => {| Zod.path := k; Zod.message := msg |}) msgs))
  = option_map (fun msg => {| Zod.path := k; Zod.message := msg |}) (last msgs).
Proof.
  induction msgs as [|msg msgs _] using rev_ind; [reflexivity|].
  rewrite List.map_app, rev_app_distr. cbn [List.map rev app find Zod.path].
  rewrite String.eqb_refl, last_snoc. reflexivity.
Qed.

Lemma find_rev_issues_other_key (key k : string) (msgs : list string) :
  key <> k ->
  find (fun i => String.eqb (Zod.path i) k)
       (rev (List.map (fun msg => {| Zod.path := key; Zod.message := msg |}) msgs))
  = None.
Proof.
  intros Hne. apply find_all_false. intros i Hi.
  apply in_rev, in_map_iff in Hi as (msg & <- & _). cbn [Zod.path].
  now apply String.eqb_neq.
Qed.

(** Under a key that the shape declares once, the collected object holds
    the message of the last check that failed on that field. *)
Lemma collect_errors_last_issue
  (shape : Zod.ZodObject) (input : string -> option jsstring) (k : string)
  (sch : Zod.ZodString) :
  (forall key s, In (key, s) shape -> key <> ""%string) ->
  List.NoDup (List.map fst shape) ->
  In (k, sch) shape ->
  Zod.collect_errors (Zod.issues_of shape input) !! k
  = last (Zod.parse_string sch (input k)).
Proof.
  intros Hkeys Hnd Hin.
  unfold Zod.collect_errors. rewrite collect_errors_from.
  2:{ intros i Hi. apply In_issues_of in Hi as (s & Hs & _). exact (Hkeys _ _ Hs). }
  rewrite lookup_empty.
  assert (F : find (fun i => String.eqb (Zod.path i) k) (rev (Zod.issues_of shape input))
              = option_map (fun msg => {| Zod.path := k; Zod.message := msg |})
                           (last (Zod.parse_string sch (input k)))).
  { clear Hkeys. induction shape as [|[key s0] shape IH]; [destruct Hin|].
    cbn [Zod.issues_of]. rewrite rev_app_distr, find_in_app.
    cbn [List.map fst] in Hnd. apply List.NoDup_cons_iff in Hnd as [Hfresh Hnd].
    destruct Hin as [E|Hin].
    - injection E as -> ->.
      rewrite find_all_false.
      + apply find_rev_issues_of_key.
      + intros i Hi. apply in_rev, In_issues_of in Hi as (s & Hs & _).
        apply String.eqb_neq. intros E. apply Hfresh. rewrite <- E.
        apply in_map_iff. exists (Zod.path i, s). split; [reflexivity | exact Hs].
    - rewrite (IH Hnd Hin).
      destruct (last (Zod.parse_string sch (input k))); [reflexivity|].
      apply find_rev_issues_other_key. intros ->. apply Hfresh.
      apply in_map_iff. exists (k, sch). split; [reflexivity | exact Hin]. }
  rewrite F. destruct (last _); reflexivity.
Qed.

Lemma collect_errors_undeclared_key
  (shape : Zod.ZodObject) (input : string -> option jsstring) (k : string) :
  (forall key s, In (key, s) shape -> key <> ""%string) ->
  ~ In k (List.map fst shape) ->
  Zod.collect_errors (Zod.issues_of shape input) !! k = None.
Proof.
  intros Hkeys Hk. apply eq_None_not_Some. rewrite (errors_key_iff _ _ _ Hkeys).
  intros (sch & Hin & _). apply Hk. apply in_map_iff.
  exists (k, sch). split; [reflexivity | exact Hin].
Qed.

Lemma loginSchema_NoDup : List.NoDup (List.map fst Login.loginSchema).
Proof.
  cbn. repeat (apply List.NoDup_cons; [cbn [In]; intuition discriminate |]).
  apply List.NoDup_nil.
Qed.

Lemma registerSchema_NoDup : List.NoDup (List.map fst Register.registerSchema).
Proof.
  cbn. repeat (apply List.NoDup_cons; [cbn [In]; intuition discriminate |]).
  apply List.NoDup_nil.
Qed.

Lemma Login_errors_after_validate (s : Login.State) :
  Login.errors (final (Login.validateForm s))
  = Zod.collect_errors (Zod.issues_of Login.loginSchema (Login.property s)).
Proof.
  rewrite Login_validateForm_run. unfold Zod.parse.
  destruct (Zod.issues_of _ _); reflexivity.
Qed.

Lemma Login_validate_outcome (s : Login.State) :
  outcome (Login.validateForm s)
  = returned (match Zod.issues_of Login.loginSchema (Login.property s) with
              | [] => true
              | _ => false
              end).
Proof.
  rewrite Login_validateForm_run. unfold Zod.parse.
  destruct (Zod.issues_of _ _); reflexivity.
Qed.

Lemma mobileNumber_last_issue (m : jsstring) :
  last (Zod.parse_string
          (Zod.z_string [ Zod.min 10 "Mobile number must be 10 digits";
                          Zod.max 10 "Mobile number must be 10 digits";
                          Zod.regex all_digits_re "Mobile number must contain only numbers" ])
          (Some m))
  = if all_digits_re m then
      if (length m =? 10)%nat then None
      else Some "Mobile number must be 10 digits"%string
    else Some "Mobile number must contain only numbers"%string.
Proof.
  cbn -[all_digits_re Nat.ltb Nat.eqb].
  destruct (Nat.ltb_spec (length m) 10), (Nat.ltb_spec 10 (length m)),
    (Nat.eqb_spec (length m) 10), (all_digits_re m); try lia; reflexivity.
Qed.

Lemma Login_password_last_issue (p : jsstring) :
  last (Zod.parse_string
          (Zod.z_string [ Zod.min 6 "Password must be at least 6 characters" ]) (Some p))
  = if (length p <? 6)%nat then Some "Password must be at least 6 characters"%string
    else None.
Proof. cbn -[Nat.ltb]. destruct (length p <? 6)%nat; reflexivity. Qed.

Lemma Login_issues_nil (s : Login.State) :
  Zod.issues_of Login.loginSchema (Login.property s) = []
  <-> all_digits_re (Login.mobileNumber s)
      && (length (Login.mobileNumber s) =? 10)%nat
      && (6 <=? length (Login.password s))%nat = true.
Proof.
  rewrite issues_of_nil. unfold Login.loginSchema.
  repeat rewrite Forall_cons_iff. cbn [fst snd].
  change (Login.property s "mobileNumber") with (Some (Login.mobileNumber s)).
  change (Login.property s "password") with (Some (Login.password s)).
  rewrite mobileNumber_field_issues, !andb_true_iff, all_digits_re_forallb,
    Nat.eqb_eq, Nat.leb_le.
  cbn -[Nat.ltb]. split.
  - intros ((Hl & Hd) & Hp & _). repeat split; try assumption.
    + intros E. rewrite E in Hl. discriminate Hl.
    + destruct (Nat.ltb_spec (length (Login.password s)) 6); [discriminate | lia].
  - intros (((_ & Hd) & Hl) & Hp). repeat split; try assumption.
    + destruct (Nat.ltb_spec (length (Login.password s)) 6); [lia | reflexivity].
    + constructor.
Qed.

Lemma Login_handleSubmit_valid env s a :
  Zod.parse Login.loginSchema (Login.property s) = Zod.parsed ->
  let si := AuthContext.signIn env (Login.mobileNumber s) (Login.password s) a in
  Login.handleSubmit env (s, a)
  = Run ({| Login.mobileNumber := Login.mobileNumber s;
            Login.password := Login.password s;
            Login.showPassword := Login.showPassword s;
            Login.errors := ∅ |}, final si)
        (trace si ++ match outcome si with
                     | returned None => [navigate "/"]
                     | _ => []
                     end)
        (match outcome si with
         | returned _ => returned tt
         | threw e => threw e
         end).
Proof.
  intros H si. unfold Login.handleSubmit, bind, in_fst. cbn [fst snd].
  rewrite Login_validateForm_run, H.
  cbn -[AuthContext.signIn Login.loginSchema].
  change (AuthContext.signIn _ _ _ a) with si.
  destruct (outcome si) as [[e|]|e]; cbn; rewrite ?app_nil_r; reflexivity.
Qed.

Lemma signIn_starts_with_lookup env mobile password s :
  exists rest,
    trace (AuthContext.signIn env mobile password s)
    = call (from_select_single "profiles" "user_id" "mobile_number" mobile) :: rest.
Proof.
  destruct env as [prof resp]. backend_cases; eexists; reflexivity.
Qed.

(** X1. The login form.  After [validateForm] the [errors] object holds,
    under [mobileNumber], "Mobile number must contain only numbers" when
    the contact is empty or has a character that is no digit, "Mobile
    number must be 10 digits" when it is made of digits but not ten of
    them, and nothing otherwise; under [password] the minimum-length
    message when the secret has fewer than 6 characters; and nothing
    under any other key.  [validateForm] returns true exactly when the
    contact is ten digits and the secret has at least 6 characters (no
    upper bound here); the handler then starts with the profile lookup
    for that contact, and otherwise ends with an empty trace. *)
Theorem Login_validation_characterised
  (s : Login.State) (a : AuthContext.State) (env : AuthContext.SignInEnv) :
  let m := Login.mobileNumber s in
  let p := Login.password s in
  let v := Login.validateForm s in
  let r := Login.handleSubmit env (s, a) in
  let ok := all_digits_re m && (length m =? 10)%nat && (6 <=? length p)%nat in
  Login.errors (final v) !! "mobileNumber"
  = (if all_digits_re m then
       if (length m =? 10)%nat then None
       else Some "Mobile number must be 10 digits"%string
     else Some "Mobile number must contain only numbers"%string)
  /\ Login.errors (final v) !! "password"
     = (if (length p <? 6)%nat then Some "Password must be at least 6 characters"%string
        else None)
  /\ (forall k, k <> "mobileNumber"%string -> k <> "password"%string ->
        Login.errors (final v) !! k = None)
  /\ outcome v = returned ok
  /\ Login.errors (fst (final r)) = Login.errors (final v)
  /\ (if ok then
        exists rest,
          trace r = call (from_select_single "profiles" "user_id" "mobile_number" m) :: rest
      else trace r = [] /\ snd (final r) = a).
Proof.
  intros m p v r ok.
  assert (E : Login.errors (final v)
              = Zod.collect_errors (Zod.issues_of Login.loginSchema (Login.property s)))
    by apply Login_errors_after_validate.
  assert (Hok : Zod.issues_of Login.loginSchema (Login.property s) = [] <-> ok = true)
    by apply Login_issues_nil.
  split; [|split; [|split; [|split; [|split]]]].
  - rewrite E.
    rewrite (collect_errors_last_issue _ _ "mobileNumber" _ loginSchema_keys
               loginSchema_NoDup (or_introl eq_refl)).
    apply mobileNumber_last_issue.
  - rewrite E.
    rewrite (collect_errors_last_issue _ _ "password" _ loginSchema_keys
               loginSchema_NoDup (or_intror (or_introl eq_refl))).
    apply Login_password_last_issue.
  - intros k Hm Hp. rewrite E.
    apply (collect_errors_undeclared_key _ _ _ loginSchema_keys).
    cbn. intuition congruence.
  - subst v. rewrite Login_validate_outcome. f_equal.
    destruct (Zod.issues_of Login.loginSchema (Login.property s)) eqn:I.
    + symmetry. now apply Hok.
    + symmetry. apply not_true_iff_false. intros T. apply Hok in T. discriminate.
  - rewrite E. subst r.
    destruct (Zod.parse Login.loginSchema (Login.property s)) as [|issues] eqn:P.
    + rewrite (Login_handleSubmit_valid env s a P). cbn [final fst Login.errors].
      unfold Zod.parse in P. destruct (Zod.issues_of _ _); [reflexivity | discriminate].
    + rewrite (Login_handleSubmit_invalid env s a issues P). cbn [final fst Login.errors].
      unfold Zod.parse in P. destruct (Zod.issues_of _ _); [discriminate | congruence].
  - destruct ok eqn:O.
    + pose proof (proj2 Hok eq_refl) as O'.
      assert (P : Zod.parse Login.loginSchema (Login.property s) = Zod.parsed)
        by (unfold Zod.parse; now rewrite O').
      subst r. rewrite (Login_handleSubmit_valid env s a P). cbn [trace].
      destruct (signIn_starts_with_lookup env (Login.mobileNumber s) (Login.password s) a)
        as (rest & ->).
      eexists. cbn [app]. reflexivity.
    + destruct (Zod.issues_of Login.loginSchema (Login.property s)) as [|i issues] eqn:I.
      * pose proof (proj1 Hok eq_refl). discriminate.
      * assert (P : Zod.parse Login.loginSchema (Login.property s) = Zod.ZodError (i :: issues))
          by (unfold Zod.parse; now rewrite I).
        subst r. rewrite (Login_handleSubmit_invalid env s a _ P). split; reflexivity.
Qed.

Lemma Register_errors_after_validate (s : Register.State) :
  Register.errors (final (Register.validateForm s))
  = Zod.collect_errors
      (Zod.issues_of Register.registerSchema (Register.property (Register.formData s))).
Proof.
  rewrite Register_validateForm_run. unfold Zod.parse.
  destruct (Zod.issues_of _ _); reflexivity.
Qed.

Lemma name_last_issue (n : jsstring) :
  last (Zod.parse_string
          (Zod.z_string [ Zod.min 2 "Name must be at least 2 characters";
                          Zod.max 50 "Name must be less than 50 characters";
                          Zod.trim_ ]) (Some n))
  = if (length n <? 2)%nat then Some "Name must be at least 2 characters"%string
    else if (50 <? length n)%nat then Some "Name must be less than 50 characters"%string
    else None.
Proof.
  cbn -[Nat.ltb].
  destruct (Nat.ltb_spec (length n) 2), (Nat.ltb_spec 50 (length n)); try lia; reflexivity.
Qed.

Lemma Register_password_last_issue (p : jsstring) :
  last (Zod.parse_string
          (Zod.z_string [ Zod.min 6 "Password must be at least 6 characters";
                          Zod.max 100 "Password too long" ]) (Some p))
  = if (length p <? 6)%nat then Some "Password must be at least 6 characters"%string
    else if (100 <? length p)%nat then Some "Password too long"%string
    else None.
Proof.
  cbn -[Nat.ltb].
  destruct (Nat.ltb_spec (length p) 6), (Nat.ltb_spec 100 (length p)); try lia; reflexivity.
Qed.

Lemma farmArea_last_issue (v : jsstring) :
  last (Zod.parse_string
          {| Zod.checks := [ Zod.min 1 "Farm area is required" ];
             Zod.refinements :=
               [ (fun val => negb (isNaN (parseFloat val)) && gt_zero (parseFloat val),
                  "Farm area must be a positive number"%string) ];
             Zod.optional := false |} (Some v))
  = if gt_zero (parseFloat v) then None
    else Some "Farm area must be a positive number"%string.
Proof.
  cbn -[parseFloat Nat.ltb].
  destruct (gt_zero (parseFloat v)) eqn:G.
  - rewrite (gt_zero_not_NaN _ G). cbn -[Nat.ltb].
    destruct v as [|c v]; [discriminate G | reflexivity].
  - rewrite andb_false_r. destruct (length v <? 1)%nat; reflexivity.
Qed.

(** X2. The registration form: the text under each field after
    [validateForm], whatever [errors] held before.  The lengths of the
    name are those of the text as typed.  An empty contact gets "only
    numbers", not "10 digits".  "Farm area is required" is never the
    text of any field: an empty area also fails the refinement, whose
    message replaces it. *)
Theorem Register_messages_characterised (s : Register.State) :
  let fd := Register.formData s in
  let errors' := Register.errors (final (Register.validateForm s)) in
  errors' !! "name"
  = (if (length (Register.name fd) <? 2)%nat
     then Some "Name must be at least 2 characters"%string
     else if (50 <? length (Register.name fd))%nat
          then Some "Name must be less than 50 characters"%string
          else None)
  /\ errors' !! "mobileNumber"
     = (if all_digits_re (Register.mobileNumber fd) then
          if (length (Register.mobileNumber fd) =? 10)%nat then None
          else Some "Mobile number must be 10 digits"%string
        else Some "Mobile number must contain only numbers"%string)
  /\ errors' !! "password"
     = (if (length (Register.password fd) <? 6)%nat
        then Some "Password must be at least 6 characters"%string
        else if (100 <? length (Register.password fd))%nat
             then Some "Password too long"%string
             else None)
  /\ errors' !! "farmArea"
     = (if gt_zero (parseFloat (Register.farmArea fd)) then None
        else Some "Farm area must be a positive number"%string)
  /\ (forall k, errors' !! k <> Some "Farm area is required"%string).
Proof.
  intros fd errors'.
  assert (E : errors'
              = Zod.collect_errors
                  (Zod.issues_of Register.registerSchema (Register.property fd)))
    by apply Register_errors_after_validate.
  pose proof (collect_errors_last_issue Register.registerSchema (Register.property fd)
                "name" _ registerSchema_keys registerSchema_NoDup
                (or_introl eq_refl)) as Hn.
  pose proof (collect_errors_last_issue Register.registerSchema (Register.property fd)
                "mobileNumber" _ registerSchema_keys registerSchema_NoDup
                (or_intror (or_introl eq_refl))) as Hm.
  pose proof (collect_errors_last_issue Register.registerSchema (Register.property fd)
                "password" _ registerSchema_keys registerSchema_NoDup
                (or_intror (or_intror (or_introl eq_refl)))) as Hp.
  pose proof (collect_errors_last_issue Register.registerSchema (Register.property fd)
                "farmArea" _ registerSchema_keys registerSchema_NoDup
                (or_intror (or_intror (or_intror (or_intror (or_introl eq_refl)))))) as Hf.
  change (Register.property fd "name") with (Some (Register.name fd)) in Hn.
  change (Register.property fd "mobileNumber") with (Some (Register.mobileNumber fd)) in Hm.
  change (Register.property fd "password") with (Some (Register.password fd)) in Hp.
  change (Register.property fd "farmArea") with (Some (Register.farmArea fd)) in Hf.
  rewrite <- E in Hn, Hm, Hp, Hf.
  rewrite name_last_issue in Hn. rewrite mobileNumber_last_issue in Hm.
  rewrite Register_password_last_issue in Hp. rewrite farmArea_last_issue in Hf.
  split; [exact Hn | split; [exact Hm | split; [exact Hp | split; [exact Hf |]]]].
  intros k Hk.
  assert (S : is_Some (errors' !! k)) by (rewrite Hk; eauto).
  rewrite E in S. apply Register_error_keys_among in S.
  destruct S as [-> | [-> | [-> | ->]]].
  - rewrite Hn in Hk.
    destruct (length (Register.name fd) <? 2)%nat; [discriminate|].
    destruct (50 <? length (Register.name fd))%nat; discriminate.
  - rewrite Hm in Hk. destruct (all_digits_re _); [|discriminate].
    destruct (length (Register.mobileNumber fd) =? 10)%nat; discriminate.
  - rewrite Hp in Hk.
    destruct (length (Register.password fd) <? 6)%nat; [discriminate|].
    destruct (100 <? length (Register.password fd))%nat; discriminate.
  - rewrite Hf in Hk. destruct (gt_zero _); discriminate.
Qed.

Example empty_registration_messages :
  let errors' := Register.errors (final (Register.validateForm Register.initial)) in
  errors' !! "mobileNumber" = Some "Mobile number must contain only numbers"%string
  /\ errors' !! "farmArea" = Some "Farm area must be a positive number"%string
  /\ errors' !! "surveyNumber" = None.
Proof. vm_compute. repeat split. Qed.

(** ** The session container beyond the claims *)

(** X3. The [loading] flag never sticks: it is false after [signUp],
    [signIn] and [signOut] whatever the backend answered (error answers
    and rejected promises included) and whatever it was before, and it is
    false after every notification and after the answer of
    [getSession], which also installs the session and its user. *)
Theorem loading_is_cleared :
  (forall env email password userData s,
     AuthContext.loading (final (AuthContext.signUp env email password userData s)) = false)
  /\ (forall env mobile password s,
        AuthContext.loading (final (AuthContext.signIn env mobile password s)) = false)
  /\ (forall resp s, AuthContext.loading (final (AuthContext.signOut resp s)) = false)
  /\ (forall event sess s,
        AuthContext.loading (final (AuthContext.onAuthStateChange event sess s)) = false)
  /\ (forall sess s,
        final (AuthContext.getSession_then sess s)
        = {| AuthContext.user := AuthContext.session_user_or_null sess;
             AuthContext.session := sess;
             AuthContext.loading := false |}).
Proof.
  split; [|split; [|split; [|split]]].
  - intros [origin resp perr] email password userData s. backend_cases; reflexivity.
  - intros [prof resp] mobile password s. backend_cases; reflexivity.
  - intros resp s. backend_cases; reflexivity.
  - intros event sess s. now rewrite onAuthStateChange_final.
  - intros sess s. reflexivity.
Qed.

(** X4. [signIn] in full.  Without a profile row for the number it sends
    the lookup and nothing else: the secret does not leave the page, and
    the error returned says "No account found with this mobile number".
    With a row, whose content is not used, it signs in with the address
    made of the typed number and "@agrosanga.local" and the secret as
    typed, and returns the error of the answer, the reason of a rejected
    promise, or null.  Exactly one toast is shown in every case. *)
Theorem signIn_characterised (env : AuthContext.SignInEnv) (mobile password : jsstring)
  (s : AuthContext.State) :
  let r := AuthContext.signIn env mobile password s in
  match AuthContext.profile env with
  | None =>
      calls_of (trace r)
      = [from_select_single "profiles" "user_id" "mobile_number" mobile]
      /\ outcome r
         = returned (Some {| error_message := js "No account found with this mobile number" |})
  | Some _ =>
      calls_of (trace r)
      = [from_select_single "profiles" "user_id" "mobile_number" mobile;
         auth_signInWithPassword (mobile ++ js "@agrosanga.local") password]
      /\ outcome r
         = returned (match AuthContext.signIn_response env with
                     | fulfilled error => error
                     | rejected reason => Some reason
                     end)
  end
  /\ length (toasts_of (trace r)) = 1%nat.
Proof.
  destruct env as [prof resp]. cbn [AuthContext.profile AuthContext.signIn_response].
  backend_cases; repeat split.
Qed.

(** X5. [signUp] in full.  It returns the error of the answer of
    [auth.signUp], the reason of a rejected promise, or null.  The
    profile insert is sent only when that answer has a user and no
    error, and the row then carries the id of that user, the name and
    number passed in, a null reference code for an empty or missing one,
    and the parsed farm area.  One toast is shown, except when the
    answer has neither user nor error: then nothing is shown and null is
    returned. *)
Theorem signUp_characterised (env : AuthContext.SignUpEnv) (email password : jsstring)
  (userData : AuthContext.UserData) (s : AuthContext.State) :
  let r := AuthContext.signUp env email password userData s in
  outcome r
  = returned (match AuthContext.signUp_response env with
              | fulfilled (_, authError) => authError
              | rejected reason => Some reason
              end)
  /\ calls_of (trace r)
     = auth_signUp email password (AuthContext.origin env ++ js "/")
                   (AuthContext.name userData) (AuthContext.mobileNumber userData)
       :: match AuthContext.signUp_response env with
          | fulfilled (Some data_user, None) =>
              [from_insert "profiles"
                 (profiles_row (uid data_user)
                               (AuthContext.name userData)
                               (AuthContext.mobileNumber userData)
                               (AuthContext.or_null (AuthContext.surveyNumber userData))
                               (parseFloat (AuthContext.farmArea userData)))]
          | _ => []
          end
  /\ length (toasts_of (trace r))
     = match AuthContext.signUp_response env with
       | fulfilled (None, None) => 0%nat
       | _ => 1%nat
       end.
Proof.
  destruct env as [origin resp perr].
  cbn [AuthContext.signUp_response AuthContext.origin].
  backend_cases; repeat split.
Qed.

(** ** The navigation bar *)

(** X6. [handleSignOut] always goes home: whichever way [auth.signOut]
    settles, the handler returns normally, its one request is the
    sign-out, its last event is the navigation to "/", and of the
    container only [loading] is written (the user and the session are
    left to the notification of the auth service). *)
Theorem handleSignOut_always_navigates (resp : promise (option Error))
  (s : AuthContext.State) :
  let r := Navbar.handleSignOut resp s in
  outcome r = returned tt
  /\ last (trace r) = Some (navigate "/")
  /\ calls_of (trace r) = [auth_signOut]
  /\ final r = {| AuthContext.user := AuthContext.user s;
                  AuthContext.session := AuthContext.session s;
                  AuthContext.loading := false |}
  /\ match resp with
     | rejected reason =>
         toasts_of (trace r)
         = [ {| title := "Error signing out"; description := error_message reason;
                variant := Some destructive |} ]
     | fulfilled _ =>
         toasts_of (trace r)
         = [ {| title := "Signed out successfully"; description := js "Come back soon!";
                variant := None |} ]
     end.
Proof. destruct resp as [[e|]|e]; repeat split. Qed.

(** X7. The language button always has a text: it shows "English" at
    first, and after a click on the menu item of a language it shows the
    name of that language; the click changes nothing else (no event
    leaves the component). *)
Theorem language_label_follows_click (lang : Navbar.Language) (s : Navbar.State) :
  In lang Navbar.languages ->
  let r := Navbar.language_onClick lang s in
  Navbar.language_label (final r) = Some (Navbar.name lang)
  /\ trace r = []
  /\ Navbar.language_label Navbar.initial = Some (js "English").
Proof.
  intros Hin r. cbn [In Navbar.languages] in Hin.
  destruct Hin as [<- | [<- | [<- | [<- | []]]]]; repeat split.
Qed.

Lemma language_label_follows_click_witness :
  let odia := {| Navbar.code := "od"; Navbar.name := [2835; 2849; 2876; 2879; 2822] |} in
  In odia Navbar.languages
  /\ Navbar.language_label (final (Navbar.language_onClick odia Navbar.initial))
     = Some [2835; 2849; 2876; 2879; 2822].
Proof.
  intros odia.
  assert (H : In odia Navbar.languages) by (cbn; auto).
  split; [exact H|].
  exact (proj1 (language_label_follows_click odia Navbar.initial H)).
Defined.

(** ** The contact input and the submit buttons *)

Lemma filter_digits_of_digits (d : jsstring) :
  forallb is_digit d = true -> List.filter is_digit d = d.
Proof.
  induction d as [|c d IH]; cbn [forallb List.filter]; [reflexivity|].
  intros H. apply andb_true_iff in H as [Hc Hd]. rewrite Hc. f_equal. now apply IH.
Qed.

Lemma contact_digits_append (raw extra : jsstring) :
  Spec.contact_digits (Spec.contact_digits raw ++ extra)
  = take 10 (Spec.contact_digits raw ++ List.filter is_digit extra).
Proof.
  unfold Spec.contact_digits at 1. rewrite List.filter_app.
  rewrite filter_digits_of_digits by apply contact_digits_shape. reflexivity.
Qed.

Lemma filter_non_digits (extra : jsstring) :
  forallb non_digit extra = true -> List.filter is_digit extra = [].
Proof.
  induction extra as [|c e IH]; cbn [forallb List.filter]; [reflexivity|].
  intros H. apply andb_true_iff in H as [Hc He]. unfold non_digit in Hc.
  apply negb_true_iff in Hc. rewrite Hc. now apply IH.
Qed.

Lemma Login_onChange_value raw s :
  Login.mobileNumber (final (Login.mobileNumber_onChange raw s)) = Spec.contact_digits raw.
Proof.
  cbn. rewrite replace_non_digit_filter. exact (slice_0_n _ 10).
Qed.

Lemma Register_onChange_value raw s :
  Register.mobileNumber (Register.formData (final (Register.mobileNumber_onChange raw s)))
  = Spec.contact_digits raw.
Proof.
  cbn. rewrite replace_non_digit_filter. exact (slice_0_n _ 10).
Qed.

(** X8. Typing into a contact input.  When the stored value is extended
    by further text, the new stored value is the old one followed by the
    digits of that text, cut to ten.  So text without digits changes
    nothing, and once ten digits are stored nothing typed after them
    changes the value.  The same holds on Register and on Login. *)
Theorem contact_input_absorbs_typing (raw extra : jsstring) :
  (forall s : Login.State,
     let s1 := final (Login.mobileNumber_onChange raw s) in
     let s2 := final (Login.mobileNumber_onChange (Login.mobileNumber s1 ++ extra) s1) in
     Login.mobileNumber s2
     = take 10 (Login.mobileNumber s1 ++ List.filter is_digit extra)
     /\ (if forallb non_digit extra then Login.mobileNumber s2 = Login.mobileNumber s1
         else True)
     /\ (if (length (Login.mobileNumber s1) =? 10)%nat
         then Login.mobileNumber s2 = Login.mobileNumber s1
         else True))
  /\ (forall s : Register.State,
        let s1 := final (Register.mobileNumber_onChange raw s) in
        let stored := Register.mobileNumber (Register.formData s1) in
        let s2 := final (Register.mobileNumber_onChange (stored ++ extra) s1) in
        Register.mobileNumber (Register.formData s2)
        = take 10 (stored ++ List.filter is_digit extra)
        /\ (if forallb non_digit extra
            then Register.mobileNumber (Register.formData s2) = stored
            else True)
        /\ (if (length stored =? 10)%nat
            then Register.mobileNumber (Register.formData s2) = stored
            else True)).
Proof.
  assert (L : (length (Spec.contact_digits raw) <= 10)%nat) by apply contact_digits_shape.
  assert (A := contact_digits_append raw extra).
  assert (N : forallb non_digit extra = true ->
              take 10 (Spec.contact_digits raw ++ List.filter is_digit extra)
              = Spec.contact_digits raw).
  { intros H. rewrite (filter_non_digits _ H), app_nil_r. apply take_ge. exact L. }
  assert (T : length (Spec.contact_digits raw) = 10%nat ->
              take 10 (Spec.contact_digits raw ++ List.filter is_digit extra)
              = Spec.contact_digits raw).
  { intros H. rewrite take_app_le by lia. apply take_ge. lia. }
  split; intros s s1.
  - intros s2. subst s2. rewrite Login_onChange_value.
    subst s1. rewrite Login_onChange_value. rewrite A.
    split; [reflexivity|]. split.
    + destruct (forallb non_digit extra) eqn:F; [now apply N | exact I].
    + destruct (Nat.eqb_spec (length (Spec.contact_digits raw)) 10); [now apply T | exact I].
  - intros stored s2. subst s2. rewrite Register_onChange_value.
    subst stored s1. rewrite Register_onChange_value. rewrite A.
    split; [reflexivity|]. split.
    + destruct (forallb non_digit extra) eqn:F; [now apply N | exact I].
    + destruct (Nat.eqb_spec (length (Spec.contact_digits raw)) 10); [now apply T | exact I].
Qed.

Lemma all_digits_re_of_contact (raw : jsstring) :
  all_digits_re (Spec.contact_digits raw)
  = negb (is_empty (Spec.contact_digits raw)).
Proof.
  pose proof (proj1 (contact_digits_shape raw)) as D.
  destruct (Spec.contact_digits raw) as [|c d] eqn:E; [reflexivity|].
  cbn [all_digits_re is_empty negb]. exact D.
Qed.

Lemma Login_validate_bool (s : Login.State) :
  outcome (Login.validateForm s)
  = returned (all_digits_re (Login.mobileNumber s)
              && (length (Login.mobileNumber s) =? 10)%nat
              && (6 <=? length (Login.password s))%nat).
Proof.
  rewrite Login_validate_outcome. f_equal.
  pose proof (Login_issues_nil s) as H.
  destruct (Zod.issues_of Login.loginSchema (Login.property s)).
  - symmetry. now apply H.
  - symmetry. apply not_true_iff_false. intros T. apply H in T. discriminate.
Qed.

Lemma Register_validate_bool (s : Register.State) :
  let fd := Register.formData s in
  outcome (Register.validateForm s)
  = returned ((2 <=? length (Register.name fd))%nat
              && (length (Register.name fd) <=? 50)%nat
              && ((length (Register.mobileNumber fd) =? 10)%nat
                  && forallb is_digit (Register.mobileNumber fd)
                  && ((6 <=? length (Register.password fd))%nat
                      && (length (Register.password fd) <=? 100)%nat
                      && gt_zero (parseFloat (Register.farmArea fd))))).
Proof.
  intros fd. rewrite Register_validateForm_run. fold fd.
  pose proof (Register_issues_nil fd) as H.
  rewrite <- (Nat.leb_le 2), <- (Nat.leb_le _ 50), <- (Nat.eqb_eq _ 10),
    <- (Nat.leb_le 6), <- (Nat.leb_le _ 100), <- !andb_true_iff in H.
  unfold Zod.parse.
  destruct (Zod.issues_of Register.registerSchema (Register.property fd)); cbn [outcome].
  - f_equal. symmetry. now apply H.
  - f_equal. symmetry. apply not_true_iff_false. intros T. apply H in T. discriminate.
Qed.

(** X9. What the submit buttons let through, for a contact that came
    from the input handler.  The buttons are disabled unless
    [isFormValid] holds.  On Login [isFormValid] holds exactly when
    [validateForm] returns true, so a click on the enabled button never
    produces a validation message.  On Register, with [isFormValid]
    holding, validation can still fail in two ways only: a name of more
    than 50 characters as typed, and a secret of more than 100. *)
Theorem enabled_button_and_validation (raw : jsstring) :
  (forall s0 : Login.State,
     let s := final (Login.mobileNumber_onChange raw s0) in
     outcome (Login.validateForm s) = returned (Login.isFormValid s))
  /\ (forall s0 : Register.State,
        let s := final (Register.mobileNumber_onChange raw s0) in
        let fd := Register.formData s in
        if Register.isFormValid fd then
          outcome (Register.validateForm s)
          = returned ((length (Register.name fd) <=? 50)%nat
                      && (length (Register.password fd) <=? 100)%nat)
        else True).
Proof.
  split.
  - intros s0 s. rewrite Login_validate_bool. unfold Login.isFormValid.
    subst s. rewrite Login_onChange_value. set (p := Login.password _).
    rewrite all_digits_re_of_contact.
    destruct (Spec.contact_digits raw); reflexivity.
  - intros s0 s fd. destruct (Register.isFormValid fd) eqn:V; [|exact I].
    rewrite Register_validate_bool. fold fd.
    unfold Register.isFormValid in V. rewrite !andb_true_iff in V.
    destruct V as (((Hn & Hm) & Hp) & Ha).
    assert (M : Register.mobileNumber fd = Spec.contact_digits raw)
      by apply Register_onChange_value.
    rewrite Hm, Hp, Ha, M, (proj1 (contact_digits_shape raw)).
    assert (L : (length (trim (Register.name fd)) <= length (Register.name fd))%nat).
    { unfold trim, trimEnd. rewrite length_rev.
      assert (TS : forall t : jsstring, (length (trimStart t) <= length t)%nat).
      { induction t as [|c t IH]; cbn [trimStart]; [lia|].
        destruct (is_white_space c); cbn [length]; lia. }
      etransitivity; [apply TS|]. rewrite length_rev. apply TS. }
    apply Nat.leb_le in Hn.
    assert (Hn' : (2 <=? length (Register.name fd))%nat = true) by (apply Nat.leb_le; lia).
    rewrite Hn'. cbn [andb].
    destruct (length (Register.name fd) <=? 50)%nat,
      (length (Register.password fd) <=? 100)%nat; reflexivity.
Qed.

(** ** Registration and login together *)

Lemma signUp_outcome env email password userData s :
  outcome (AuthContext.signUp env email password userData s)
  = returned (match AuthContext.signUp_response env with
              | fulfilled (_, authError) => authError
              | rejected reason => Some reason
              end).
Proof. destruct env as [origin resp perr]. backend_cases; reflexivity. Qed.

Lemma signIn_outcome env mobile password s :
  outcome (AuthContext.signIn env mobile password s)
  = returned (match AuthContext.profile env with
              | None => Some {| error_message := js "No account found with this mobile number" |}
              | Some _ =>
                  match AuthContext.signIn_response env with
                  | fulfilled error => error
                  | rejected reason => Some reason
                  end
              end).
Proof. destruct env as [prof resp]. backend_cases; reflexivity. Qed.

Lemma signUp_never_navigates env email password userData s to :
  ~ In (navigate to) (trace (AuthContext.signUp env email password userData s)).
Proof.
  destruct env as [origin resp perr].
  backend_cases; cbn -[js]; intuition discriminate.
Qed.

Lemma signIn_never_navigates env mobile password s to :
  ~ In (navigate to) (trace (AuthContext.signIn env mobile password s)).
Proof.
  destruct env as [prof resp].
  backend_cases; cbn -[js]; intuition discriminate.
Qed.

(** X10. Where the forms navigate.  Register goes to "/login" exactly
    when the form passes the schema and [auth.signUp] answers without
    error (whatever became of the profile insert); Login goes to "/"
    exactly when the form passes the schema, a profile row was found and
    the password sign-in answers without error.  Neither form ever
    navigates anywhere else, and neither changes what was typed: after a
    failed attempt the fields still hold their values. *)
Theorem forms_navigate_only_on_success :
  (forall env s a,
     let r := Register.handleSubmit env (s, a) in
     (In (navigate "/login") (trace r)
      <-> Zod.parse Register.registerSchema (Register.property (Register.formData s))
          = Zod.parsed
          /\ exists data_user,
               AuthContext.signUp_response env = fulfilled (data_user, None))
     /\ (forall to, In (navigate to) (trace r) -> to = "/login"%string)
     /\ Register.formData (fst (final r)) = Register.formData s)
  /\ (forall env s a,
        let r := Login.handleSubmit env (s, a) in
        (In (navigate "/") (trace r)
         <-> Zod.parse Login.loginSchema (Login.property s) = Zod.parsed
             /\ AuthContext.profile env <> None
             /\ AuthContext.signIn_response env = fulfilled None)
        /\ (forall to, In (navigate to) (trace r) -> to = "/"%string)
        /\ Login.mobileNumber (fst (final r)) = Login.mobileNumber s
        /\ Login.password (fst (final r)) = Login.password s).
Proof.
  split; intros env s a r; subst r.
  - destruct (Zod.parse Register.registerSchema (Register.property (Register.formData s)))
      as [|issues] eqn:P.
    + rewrite (Register_handleSubmit_valid env s a P). cbn [trace].
      rewrite signUp_outcome.
      split; [split|split; [|reflexivity]].
      * intros H. split; [reflexivity|].
        apply in_app_or in H as [H|H]; [now apply signUp_never_navigates in H|].
        destruct (AuthContext.signUp_response env) as [[u [e|]]|e];
          [destruct H | eauto | destruct H].
      * intros (_ & u & ->). apply in_or_app. right. now left.
      * intros to H.
        apply in_app_or in H as [H|H]; [now apply signUp_never_navigates in H|].
        destruct (AuthContext.signUp_response env) as [[u [e|]]|e];
          [destruct H | destruct H as [H|[]]; congruence | destruct H].
    + rewrite (Register_handleSubmit_invalid env s a issues P). cbn [trace].
      split; [split|split; [|reflexivity]].
      * intros [].
      * intros (D & _). discriminate D.
      * intros to [].
  - destruct (Zod.parse Login.loginSchema (Login.property s)) as [|issues] eqn:P.
    + rewrite (Login_handleSubmit_valid env s a P). cbn [trace].
      rewrite signIn_outcome.
      split; [split|split; [|split; reflexivity]].
      * intros H. split; [reflexivity|].
        apply in_app_or in H as [H|H]; [now apply signIn_never_navigates in H|].
        destruct (AuthContext.profile env); [|destruct H].
        destruct (AuthContext.signIn_response env) as [[e|]|e];
          [destruct H | split; [discriminate | reflexivity] | destruct H].
      * intros (_ & Hp & ->). apply in_or_app. right.
        destruct (AuthContext.profile env); [now left | congruence].
      * intros to H.
        apply in_app_or in H as [H|H]; [now apply signIn_never_navigates in H|].
        destruct (AuthContext.profile env); [|destruct H].
        destruct (AuthContext.signIn_response env) as [[e|]|e];
          [destruct H | destruct H as [H|[]]; congruence | destruct H].
    + rewrite (Login_handleSubmit_invalid env s a issues P). cbn [trace].
      split; [split|split; [|split; reflexivity]].
      * intros [].
      * intros (D & _). discriminate D.
      * intros to [].
Qed.

(** X11. Credentials that register also log in.  A form that passes the
    registration schema gives a contact and a secret that pass the login
    schema, and the address and secret that Register hands to
    [auth.signUp] are the ones [signIn] hands to
    [auth.signInWithPassword] for that contact and secret. *)
Theorem registered_credentials_log_in
  (fd : Register.FormData) (senv : AuthContext.SignUpEnv) (user_id : jsstring)
  (resp : promise (option Error)) (a : AuthContext.State)
  (show show' : bool) (errs errs' : gmap string string) :
  Zod.parse Register.registerSchema (Register.property fd) = Zod.parsed ->
  let address := Register.mobileNumber fd ++ js "@agrosanga.local" in
  let lenv := {| AuthContext.profile := Some user_id;
                 AuthContext.signIn_response := resp |} in
  let register := {| Register.formData := fd; Register.showPassword := show;
                     Register.errors := errs |} in
  let login := {| Login.mobileNumber := Register.mobileNumber fd;
                  Login.password := Register.password fd;
                  Login.showPassword := show'; Login.errors := errs' |} in
  Zod.parse Login.loginSchema (Login.property login) = Zod.parsed
  /\ (exists redirect name rest,
        calls_of (trace (Register.handleSubmit senv (register, a)))
        = auth_signUp address (Register.password fd) redirect name (Register.mobileNumber fd)
          :: rest)
  /\ calls_of (trace (Login.handleSubmit lenv (login, a)))
     = [ from_select_single "profiles" "user_id" "mobile_number" (Register.mobileNumber fd);
         auth_signInWithPassword address (Register.password fd) ].
Proof.
  intros P address lenv register login.
  assert (I : Zod.issues_of Register.registerSchema (Register.property fd) = []).
  { unfold Zod.parse in P. destruct (Zod.issues_of _ _); [reflexivity | discriminate]. }
  apply Register_issues_nil in I as (_ & (Hl & Hd) & (Hp & _) & _).
  assert (PL : Zod.parse Login.loginSchema (Login.property login) = Zod.parsed).
  { unfold Zod.parse.
    assert (Zod.issues_of Login.loginSchema (Login.property login) = []) as ->; [|reflexivity].
    apply Login_issues_nil. cbn [login Login.mobileNumber Login.password].
    rewrite !andb_true_iff, all_digits_re_forallb, Nat.eqb_eq, Nat.leb_le.
    repeat split; try assumption. intros E. rewrite E in Hl. discriminate Hl. }
  split; [exact PL|]. split.
  - rewrite (Register_handleSubmit_valid senv register a P).
    cbn [trace register Register.formData].
    destruct (signUp_starts_with_account_creation senv
                (Register.mobileNumber fd ++ js "@agrosanga.local")
                (Register.password fd) (Register_userData fd) a) as (rest & ->).
    do 2 eexists. exists (calls_of (rest ++ match
        outcome (AuthContext.signUp senv (Register.mobileNumber fd ++ js "@agrosanga.local")
                   (Register.password fd) (Register_userData fd) a)
        with returned None => [navigate "/login"] | _ => [] end)).
    reflexivity.
  - rewrite (Login_handleSubmit_valid lenv login a PL). cbn [trace].
    subst lenv login. cbn [Login.mobileNumber Login.password].
    destruct resp as [[e|]|e]; reflexivity.
Qed.

Lemma registered_credentials_log_in_witness :
  Zod.parse Register.registerSchema (Register.property Sample.ravi) = Zod.parsed
  /\ calls_of (trace (Login.handleSubmit
                        {| AuthContext.profile := Some (js "7d7c1f0e");
                           AuthContext.signIn_response := fulfilled None |}
                        (Sample.login_page (js "9876543210") (js "secret1"),
                         AuthContext.initial)))
     = [ from_select_single "profiles" "user_id" "mobile_number" (js "9876543210");
         auth_signInWithPassword (js "9876543210@agrosanga.local") (js "secret1") ].
Proof.
  assert (P : Zod.parse Register.registerSchema (Register.property Sample.ravi) = Zod.parsed)
    by (vm_compute; reflexivity).
  split; [exact P|].
  exact (proj2 (proj2 (registered_credentials_log_in Sample.ravi (Sample.signUp_env None)
                         (js "7d7c1f0e") (fulfilled None) AuthContext.initial
                         false false ∅ ∅ P))).
Defined.

(** ** What registration stores *)

Lemma trimStart_length (s : jsstring) : (length (trimStart s) <= length s)%nat.
Proof.
  induction s as [|c s IH]; cbn [trimStart]; [lia|].
  destruct (is_white_space c); cbn [length]; lia.
Qed.

Lemma trimStart_fixed (s : jsstring) :
  trimStart s = s
  <-> match s with [] => True | c :: _ => is_white_space c = false end.
Proof.
  destruct s as [|c s]; [tauto|]. cbn [trimStart].
  destruct (is_white_space c) eqn:W.
  - split; [|discriminate]. intros E.
    pose proof (trimStart_length s) as L. rewrite E in L. cbn [length] in L. lia.
  - tauto.
Qed.

Lemma trimStart_idem (s : jsstring) : trimStart (trimStart s) = trimStart s.
Proof.
  induction s as [|c s IH]; [reflexivity|]. cbn [trimStart].
  destruct (is_white_space c) eqn:W; [exact IH|]. cbn [trimStart]. now rewrite W.
Qed.

Lemma trimStart_snoc (l : jsstring) (c : N) :
  is_white_space c = false -> trimStart (l ++ [c]) = trimStart l ++ [c].
Proof.
  intros W. induction l as [|x l IH]; cbn [app trimStart].
  - now rewrite W.
  - destruct (is_white_space x); [exact IH | reflexivity].
Qed.

Lemma trimEnd_of_trimmed_start (t : jsstring) :
  trimStart t = t -> trimStart (trimEnd t) = trimEnd t.
Proof.
  intros H. apply trimStart_fixed in H. destruct t as [|c t]; [reflexivity|].
  unfold trimEnd. cbn [rev]. rewrite (trimStart_snoc _ _ H), rev_app_distr.
  cbn [rev app]. apply trimStart_fixed. exact H.
Qed.

Lemma trim_idem (s : jsstring) : trim (trim s) = trim s.
Proof.
  unfold trim. rewrite (trimEnd_of_trimmed_start _ (trimStart_idem s)).
  unfold trimEnd. now rewrite rev_involutive, trimStart_idem.
Qed.

Lemma trim_length (s : jsstring) : (length (trim s) <= length s)%nat.
Proof.
  unfold trim, trimEnd. rewrite length_rev.
  etransitivity; [apply trimStart_length|]. rewrite length_rev. apply trimStart_length.
Qed.

(** X12. What a registration writes.  When the form passes the schema
    and the account is created, the handler sends the account creation
    and then one insert into [profiles], whose row has: the id of the
    created user; the name trimmed, so without white space at either end
    and of at most 50 characters; the contact, ten digits; the
    reference code trimmed, or null when nothing is left of it; and the
    farm area parsed to a number that is not NaN and is above zero. *)
Theorem registered_profile_row
  (fd : Register.FormData) (origin : jsstring) (data_user : User)
  (profileError : option Error) (a : AuthContext.State)
  (show : bool) (errs : gmap string string) :
  Zod.parse Register.registerSchema (Register.property fd) = Zod.parsed ->
  let env := {| AuthContext.origin := origin;
                AuthContext.signUp_response := fulfilled (Some data_user, None);
                AuthContext.profileError := profileError |} in
  let s := {| Register.formData := fd; Register.showPassword := show;
              Register.errors := errs |} in
  let r := Register.handleSubmit env (s, a) in
  let stored_name := trim (Register.name fd) in
  let stored_code := trim (Register.surveyNumber fd) in
  let stored_area := parseFloat (Register.farmArea fd) in
  calls_of (trace r)
  = [ auth_signUp (Register.mobileNumber fd ++ js "@agrosanga.local")
                  (Register.password fd) (origin ++ js "/")
                  stored_name (Register.mobileNumber fd);
      from_insert "profiles"
        (profiles_row (uid data_user) stored_name (Register.mobileNumber fd)
                      (if is_empty stored_code then None else Some stored_code)
                      stored_area) ]
  /\ trim stored_name = stored_name
  /\ (length stored_name <= 50)%nat
  /\ length (Register.mobileNumber fd) = 10%nat
  /\ forallb is_digit (Register.mobileNumber fd) = true
  /\ trim stored_code = stored_code
  /\ isNaN stored_area = false
  /\ gt_zero stored_area = true.
Proof.
  intros P env s r stored_name stored_code stored_area.
  assert (I : Zod.issues_of Register.registerSchema (Register.property fd) = []).
  { unfold Zod.parse in P. destruct (Zod.issues_of _ _); [reflexivity | discriminate]. }
  apply Register_issues_nil in I as ((_ & Hn) & (Hl & Hd) & _ & Ha).
  split.
  - subst r. rewrite (Register_handleSubmit_valid env s a P).
    cbn [trace s Register.formData].
    subst env stored_code. unfold Register_userData.
    destruct (trim (Register.surveyNumber fd)) as [|c code], profileError; reflexivity.
  - split; [apply trim_idem|].
    split; [pose proof (trim_length (Register.name fd)); subst stored_name; lia|].
    split; [exact Hl|]. split; [exact Hd|].
    split; [apply trim_idem|].
    split; [now apply gt_zero_not_NaN | exact Ha].
Qed.

Lemma registered_profile_row_witness :
  Zod.parse Register.registerSchema (Register.property Sample.ravi) = Zod.parsed
  /\ calls_of (trace (Register.handleSubmit (Sample.signUp_env None)
                        (Sample.register_page Sample.ravi, AuthContext.initial)))
     = [ auth_signUp (js "9876543210@agrosanga.local") (js "secret1")
                     (js "https://agrosanga.example/") (js "Ravi") (js "9876543210");
         from_insert "profiles"
           (profiles_row (js "7d7c1f0e") (js "Ravi") (js "9876543210") None
                         (Finite false 25 (-1))) ].
Proof.
  assert (P : Zod.parse Register.registerSchema (Register.property Sample.ravi) = Zod.parsed)
    by (vm_compute; reflexivity).
  split; [exact P|].
  exact (proj1 (registered_profile_row Sample.ravi (js "https://agrosanga.example")
                  Sample.a_user None AuthContext.initial false ∅ P)).
Defined.

(** X13. Typing into a field of the registration form writes that field
    and nothing else: the other four fields, [showPassword] and the
    [errors] object are as before, so a message already displayed stays
    until the next submission; a key that is not a field of the form
    changes none of the five fields.  Nothing leaves the component. *)
Theorem handleChange_writes_one_field (field : string) (value : jsstring)
  (s : Register.State) :
  let r := Register.handleChange field value s in
  Register.errors (final r) = Register.errors s
  /\ Register.showPassword (final r) = Register.showPassword s
  /\ trace r = []
  /\ forall key,
       Register.property (Register.formData (final r)) key
       = if String.eqb key field
         then option_map (fun _ => value) (Register.property (Register.formData s) key)
         else Register.property (Register.formData s) key.
Proof.
  intros r. repeat split. intros key.
  subst r. unfold Register.handleChange, Register.setFormData, set. cbn [final Register.formData].
  unfold Register.property.
  destruct (String.eqb_spec key field) as [->|Hne].
  - repeat match goal with
           | |- context [String.eqb field ?b] => destruct (String.eqb_spec field b); subst
           end; cbn; try reflexivity; try congruence.
  - repeat match goal with
           | |- context [String.eqb field ?b] => destruct (String.eqb_spec field b); subst
           end; cbn;
    repeat match goal with
           | |- context [String.eqb key ?b] => destruct (String.eqb_spec key b); subst
           end; cbn; try reflexivity; try congruence.
Qed.

(** ** The analysis handlers beyond the claims *)

(** X14. The guard of [handleAnalysis].  On RecommendCrop without a
    selected file, a signed-in user or loaded weather data, and on
    PredictYield without a selected file or a signed-in user, the
    handler shows one destructive toast titled "Error" and does nothing
    else: no request, no timer, the page state untouched (the busy flag
    is not even raised).  In every other case the first event of the
    handler is the upload to the bucket "soil-reports" of the selected
    file under the path made of the user id, a slash, the clock in
    milliseconds, a dot and what follows the last dot of the file name. *)
Theorem handleAnalysis_guard :
  (forall user env s,
     let r := RecommendCrop.handleAnalysis user env s in
     outcome r = returned tt
     /\ match RecommendCrop.selectedFile s, user, RecommendCrop.weatherData s with
        | Some file, Some u, Some _ =>
            exists rest,
              trace r
              = call (storage_upload "soil-reports"
                        (uid u ++ js "/" ++ of_N (RecommendCrop.now env) ++ js "."
                         ++ split_pop 46 (file_name file)) file) :: rest
        | _, _, _ =>
            final r = s
            /\ trace r
               = [toast {| title := "Error";
                           description :=
                             js "Please upload a soil report and ensure weather data is loaded";
                           variant := Some destructive |}]
        end)
  /\ (forall user env s,
        let r := PredictYield.handleAnalysis user env s in
        outcome r = returned tt
        /\ match PredictYield.selectedFile s, user with
           | Some file, Some u =>
               exists rest,
                 trace r
                 = call (storage_upload "soil-reports"
                           (uid u ++ js "/" ++ of_N (PredictYield.now env) ++ js "."
                            ++ split_pop 46 (file_name file)) file) :: rest
           | _, _ =>
               final r = s
               /\ trace r
                  = [toast {| title := "Error";
                              description :=
                                js "Please select a file and make sure you're logged in";
                              variant := Some destructive |}]
           end).
Proof.
  split; intros user env s r; subst r.
  - destruct env as [now_ms resp draws dberr], s as [[file|] fa [w|] an pr res], user as [u|];
      backend_cases; cbn -[js of_N split_pop]; (split; [reflexivity|]);
      first [ split; reflexivity | eexists; reflexivity ].
  - destruct env as [now_ms resp draws dberr], s as [[file|] up an pr res], user as [u|];
      backend_cases; cbn -[js of_N split_pop]; (split; [reflexivity|]);
      first [ split; reflexivity | eexists; reflexivity ].
Qed.

(** X15. The page after [handleAnalysis], once the guard is passed.
    Busy flags are down again whatever happened; the selected file, the
    farm area and the weather data are never written.  If the upload
    answered without error the progress is 100 and the result is the
    fresh mock result; if it answered with an error or its promise was
    rejected, the progress stays where the upload started (20 on
    RecommendCrop, 10 on PredictYield) until the timer resets it, and the
    result is the one displayed before.  The last event is always the
    one-second timer that resets the progress. *)
Theorem page_after_handleAnalysis :
  (forall file fa w an pr res u env,
     let s := {| RecommendCrop.selectedFile := Some file; RecommendCrop.farmArea := fa;
                 RecommendCrop.weatherData := Some w; RecommendCrop.analyzing := an;
                 RecommendCrop.progress := pr; RecommendCrop.result := res |} in
     let r := RecommendCrop.handleAnalysis (Some u) env s in
     exists analysisResult,
       (forall s0, outcome (RecommendCrop.simulateAnalysis (RecommendCrop.draws env) w s0)
                   = returned analysisResult)
       /\ final r
          = {| RecommendCrop.selectedFile := Some file; RecommendCrop.farmArea := fa;
               RecommendCrop.weatherData := Some w; RecommendCrop.analyzing := false;
               RecommendCrop.progress :=
                 match RecommendCrop.upload_response env with
                 | fulfilled None => 100
                 | _ => 20
                 end;
               RecommendCrop.result :=
                 match RecommendCrop.upload_response env with
                 | fulfilled None => Some analysisResult
                 | _ => res
                 end |}
       /\ last (trace r) = Some (setTimeout reset_progress 1000))
  /\ (forall file up an pr res u env,
        let s := {| PredictYield.selectedFile := Some file; PredictYield.uploading := up;
                    PredictYield.analyzing := an; PredictYield.progress := pr;
                    PredictYield.result := res |} in
        let r := PredictYield.handleAnalysis (Some u) env s in
        exists analysisResult,
          (forall s0, outcome (PredictYield.simulateAnalysis (PredictYield.draws env) s0)
                      = returned analysisResult)
          /\ final r
             = {| PredictYield.selectedFile := Some file; PredictYield.uploading := false;
                  PredictYield.analyzing := false;
                  PredictYield.progress :=
                    match PredictYield.upload_response env with
                    | fulfilled None => 100
                    | _ => 10
                    end;
                  PredictYield.result :=
                    match PredictYield.upload_response env with
                    | fulfilled None => Some analysisResult
                    | _ => res
                    end |}
          /\ last (trace r) = Some (setTimeout reset_progress 1000)).
Proof.
  split.
  - intros file fa w an pr res u [now_ms resp draws dberr] s r.
    cbn [RecommendCrop.upload_response RecommendCrop.draws].
    eexists. split; [intros s0; reflexivity|].
    backend_cases; cbn -[js of_N split_pop]; split; reflexivity.
  - intros file up an pr res u [now_ms resp draws dberr] s r.
    cbn [PredictYield.upload_response PredictYield.draws].
    eexists. split; [intros s0; reflexivity|].
    backend_cases; cbn -[js of_N split_pop]; split; reflexivity.
Qed.

(** X16. What a successful analysis sends.  With the upload accepted,
    the requests are the upload and then one insert, whether or not the
    insert succeeds.  On PredictYield the row has the user's id, the soil
    values and the yield that were drawn, and as [file_url] the very path
    of the upload.  On RecommendCrop the row has the user's id, the
    crops "Rice", "Wheat", "Maize" and, by one draw, "Sugarcane", the two
    fixed fertilizers with the drawn dosages, the fixed pest list, the
    weather data of the page and the parsed farm area of the page; it
    holds nothing taken from the uploaded file. *)
Theorem successful_analysis_requests :
  (forall file fa w an pr res u now_ms draws dbError,
     let s := {| RecommendCrop.selectedFile := Some file; RecommendCrop.farmArea := fa;
                 RecommendCrop.weatherData := Some w; RecommendCrop.analyzing := an;
                 RecommendCrop.progress := pr; RecommendCrop.result := res |} in
     let env := {| RecommendCrop.now := now_ms;
                   RecommendCrop.upload_response := fulfilled None;
                   RecommendCrop.draws := draws;
                   RecommendCrop.dbError := dbError |} in
     let path := uid u ++ js "/" ++ of_N now_ms ++ js "." ++ split_pop 46 (file_name file) in
     calls_of (trace (RecommendCrop.handleAnalysis (Some u) env s))
     = [ storage_upload "soil-reports" path file;
         from_insert "crop_recommendations"
           (crop_recommendations_row
              (uid u)
              (["Rice"%string; "Wheat"%string; "Maize"%string]
               ++ (if RecommendCrop.one_more_crop draws then ["Sugarcane"%string] else []))
              [ {| fertilizer_type := "NPK (10:26:26)";
                   dosage := RecommendCrop.npk_dosage draws;
                   applicationTime := "At sowing and flowering" |};
                {| fertilizer_type := "Organic Compost";
                   dosage := RecommendCrop.compost_dosage draws;
                   applicationTime := "Before land preparation" |} ]
              {| commonPests := ["Aphids"; "Stem borer"; "Leaf roller"; "Thrips"]%string;
                 preventiveMeasures :=
                   ["Regular field monitoring"; "Use of pheromone traps";
                    "Biological pest control"; "Crop rotation practices"]%string |}
              w
              (parseFloat fa)) ])
  /\ (forall file up an pr res u now_ms draws dbError,
        let s := {| PredictYield.selectedFile := Some file; PredictYield.uploading := up;
                    PredictYield.analyzing := an; PredictYield.progress := pr;
                    PredictYield.result := res |} in
        let env := {| PredictYield.now := now_ms;
                      PredictYield.upload_response := fulfilled None;
                      PredictYield.draws := draws;
                      PredictYield.dbError := dbError |} in
        let path := uid u ++ js "/" ++ of_N now_ms ++ js "." ++ split_pop 46 (file_name file) in
        calls_of (trace (PredictYield.handleAnalysis (Some u) env s))
        = [ storage_upload "soil-reports" path file;
            from_insert "yield_predictions"
              (yield_predictions_row (uid u) (PredictYield.soil_draw draws)
                                     (PredictYield.yield_draw draws) path) ]).
Proof.
  split.
  - intros file fa w an pr res u now_ms draws dbError s env path.
    destruct draws as [[|] crop_draw npk compost], dbError; reflexivity.
  - intros file up an pr res u now_ms draws dbError s env path.
    destruct dbError; reflexivity.
Qed.

(** ** The path of an upload *)

Lemma split_pop_no_sep (sep : N) (s : jsstring) :
  existsb (N.eqb sep) (split_pop sep s) = false.
Proof.
  induction s as [|c s IH]; [reflexivity|]. cbn [split_pop].
  destruct (existsb (N.eqb sep) s) eqn:E; [exact IH|].
  destruct (N.eqb_spec c sep) as [->|Hne]; [exact E|].
  cbn [existsb]. rewrite E, orb_false_r. apply N.eqb_neq. congruence.
Qed.

Lemma split_pop_suffix (sep : N) (s : jsstring) :
  if existsb (N.eqb sep) s
  then exists stem, s = stem ++ sep :: split_pop sep s
  else split_pop sep s = s.
Proof.
  induction s as [|c s IH]; [reflexivity|]. cbn [existsb split_pop].
  destruct (existsb (N.eqb sep) s) eqn:E.
  - rewrite orb_true_r. destruct IH as (stem & Hs).
    exists (c :: stem). cbn [app]. now rewrite <- Hs.
  - rewrite orb_false_r. destruct (N.eqb_spec sep c) as [->|Hne].
    + rewrite N.eqb_refl. exists []. reflexivity.
    + destruct (N.eqb_spec c sep); [congruence | reflexivity].
Qed.

(** X17. The extension in the upload path, [name.split('.').pop()].  It
    never contains a dot.  For a file name with a dot it is what follows
    the last dot (empty when the name ends with a dot); for a name
    without any dot it is the whole name, which then appears after the
    dot of the path. *)
Theorem upload_extension (name : jsstring) :
  let fileExt := split_pop 46 name in
  existsb (N.eqb 46) fileExt = false
  /\ (if existsb (N.eqb 46) name
      then exists stem, name = stem ++ js "." ++ fileExt
      else fileExt = name).
Proof.
  intros fileExt. split; [apply split_pop_no_sep|].
  exact (split_pop_suffix 46 name).
Qed.

Example upload_extension_examples :
  split_pop 46 (js "soil.report.PDF") = js "PDF"
  /\ split_pop 46 (js "README") = js "README"
  /\ split_pop 46 (js "scan.") = [].
Proof. vm_compute. repeat split. Qed.

(** ** The requests against the policies of the migration *)

Lemma parts_nonempty (sep : N) (s : jsstring) : Migration.parts sep s <> [].
Proof.
  destruct s as [|c s]; cbn [Migration.parts]; [discriminate|].
  destruct (c =? sep); [discriminate|].
  destruct (Migration.parts sep s); discriminate.
Qed.

Lemma parts_first (sep : N) (u rest : jsstring) :
  existsb (N.eqb sep) u = false ->
  Migration.parts sep (u ++ sep :: rest) = u :: Migration.parts sep rest.
Proof.
  induction u as [|c u IH]; intros H; cbn [app Migration.parts].
  - now rewrite N.eqb_refl.
  - cbn [existsb] in H. apply orb_false_iff in H as [Hc Hu].
    rewrite N.eqb_sym in Hc. rewrite Hc, (IH Hu). reflexivity.
Qed.

Lemma foldername_first (u rest : jsstring) :
  existsb (N.eqb 47) u = false ->
  exists folders, Migration.foldername (u ++ js "/" ++ rest) = u :: folders.
Proof.
  intros H. unfold Migration.foldername, Migration.string_to_array.
  change (js "/" ++ rest) with (47 :: rest).
  assert (E : Migration.parts 47 (u ++ 47 :: rest) = u :: Migration.parts 47 rest)
    by now apply parts_first.
  destruct (u ++ 47 :: rest) as [|x xs] eqn:X; [now destruct u|].
  rewrite E. pose proof (parts_nonempty 47 rest) as NE.
  destruct (Migration.parts 47 rest) as [|p ps]; [congruence|].
  cbn [removelast]. eexists. reflexivity.
Qed.

Lemma upload_check_path (auth_uid : option Migration.uuid) (u rest : jsstring) :
  existsb (N.eqb 47) u = false ->
  Migration.upload_check auth_uid "soil-reports" (u ++ js "/" ++ rest)
  = match auth_uid with
    | Some a => str_eqb (Migration.uuid_out a) u
    | None => false
    end.
Proof.
  intros H. unfold Migration.upload_check.
  destruct (foldername_first u rest H) as (folders & ->).
  destruct auth_uid; reflexivity.
Qed.

(** *** Texts and values of [uuid] *)

Lemma hex_value_bound (c h : N) : Migration.hex_value c = Some h -> h < 16 /\ c <> 47.
Proof.
  unfold Migration.hex_value. intros H.
  destruct (N.leb_spec 48 c), (N.leb_spec c 57); cbn [andb] in H;
    [injection H as <-; lia | | |];
    (destruct (N.leb_spec 97 c), (N.leb_spec c 102); cbn [andb] in H;
     [injection H as <-; lia | | |];
     (destruct (N.leb_spec 65 c), (N.leb_spec c 70); cbn [andb] in H;
      [injection H as <-; lia | | |]; discriminate H)).
Qed.

Lemma hex_value_hex_digit (d : N) :
  d < 16 -> Migration.hex_value (Migration.hex_digit d) = Some d.
Proof.
  intros H. unfold Migration.hex_digit, Migration.hex_value.
  destruct (N.ltb_spec d 10).
  - destruct (N.leb_spec 48 (48 + d)); [|lia].
    destruct (N.leb_spec (48 + d) 57); [|lia]. cbn [andb]. f_equal. lia.
  - destruct (N.leb_spec (87 + d) 57); [lia|]. rewrite andb_false_r.
    destruct (N.leb_spec 97 (87 + d)); [|lia].
    destruct (N.leb_spec (87 + d) 102); [|lia]. cbn [andb]. f_equal. lia.
Qed.

Lemma hex_digit_not_hyphen (d : N) : (Migration.hex_digit d =? 45) = false.
Proof.
  unfold Migration.hex_digit. apply N.eqb_neq. destruct (d <? 10); lia.
Qed.

Lemma skip_hyphen_uuid_text (i : N) (bs : list N) :
  Migration.skip_hyphen i (Migration.uuid_text (i + 1) bs)
  = if ((i + 1 =? 4) || (i + 1 =? 6) || (i + 1 =? 8) || (i + 1 =? 10))
    then tail (Migration.uuid_text (i + 1) bs)
    else Migration.uuid_text (i + 1) bs.
Proof.
  destruct bs as [|b bs]; cbn [Migration.uuid_text Migration.skip_hyphen tail].
  - now destruct (_ || _).
  - destruct ((i + 1 =? 4) || (i + 1 =? 6) || (i + 1 =? 8) || (i + 1 =? 10)) eqn:E;
      cbn [app Migration.skip_hyphen tail].
    + rewrite N.eqb_refl. cbn [andb].
      replace (N.odd i && (i <? 15)) with true; [reflexivity|].
      repeat (apply orb_true_iff in E as [E|E]); apply N.eqb_eq in E;
        (replace i with (N.pred (i + 1)) by lia); rewrite E; reflexivity.
    + now rewrite hex_digit_not_hyphen.
Qed.

Lemma uuid_bytes_uuid_text (bs : list N) : forall i,
  forallb (fun b => b <? 256) bs = true ->
  Migration.uuid_bytes (length bs) i
    (if ((i =? 4) || (i =? 6) || (i =? 8) || (i =? 10))
     then tail (Migration.uuid_text i bs)
     else Migration.uuid_text i bs)
  = Some (bs, []).
Proof.
  induction bs as [|b bs IH]; intros i H.
  - cbn. now destruct (_ || _).
  - cbn [forallb] in H. apply andb_true_iff in H as [Hb Hbs]. apply N.ltb_lt in Hb.
    assert (E : @eq jsstring
                  (if ((i =? 4) || (i =? 6) || (i =? 8) || (i =? 10))
                   then tail (Migration.uuid_text i (b :: bs))
                   else Migration.uuid_text i (b :: bs))
                  (Migration.hex_digit (b / 16) :: Migration.hex_digit (b mod 16)
                   :: Migration.uuid_text (i + 1) bs)).
    { cbn [Migration.uuid_text]. now destruct (_ || _). }
    rewrite E. cbn [length Migration.uuid_bytes].
    rewrite !hex_value_hex_digit.
    + rewrite skip_hyphen_uuid_text, (IH (i + 1) Hbs).
      do 3 f_equal. pose proof (N.div_mod b 16). lia.
    + apply N.mod_lt. lia.
    + apply N.Div0.div_lt_upper_bound. lia.
Qed.

Lemma uuid_text_not_brace (bs : list N) :
  forallb (fun b => b <? 256) bs = true ->
  match Migration.uuid_text 0 bs with
  | c :: _ => c <> 123
  | [] => True
  end.
Proof.
  destruct bs as [|b bs]; [intros _; exact I|].
  cbn [forallb]. intros H. apply andb_true_iff in H as [H _]. apply N.ltb_lt in H.
  cbn [Migration.uuid_text N.eqb orb app].
  assert (b / 16 < 16) by (apply N.Div0.div_lt_upper_bound; lia).
  unfold Migration.hex_digit. destruct (N.ltb_spec (b / 16) 10); lia.
Qed.

Lemma uuid_in_uuid_out (a : Migration.uuid) :
  Migration.uuid_wf a = true -> Migration.uuid_in (Migration.uuid_out a) = Some a.
Proof.
  unfold Migration.uuid_wf, Migration.uuid_out, Migration.uuid_in. intros H.
  apply andb_true_iff in H as [Hl Hb]. apply Nat.eqb_eq in Hl.
  pose proof (uuid_bytes_uuid_text a 0 Hb) as E. rewrite Hl in E. cbn [N.eqb orb] in E.
  pose proof (uuid_text_not_brace a Hb) as NB.
  destruct (Migration.uuid_text 0 a) as [|c t].
  - now rewrite E.
  - destruct (N.eqb_spec c 123) as [->|Hne]; [contradiction|]. now rewrite E.
Qed.

Lemma uuid_bytes_shape (n : nat) : forall i src bs rest,
  Migration.uuid_bytes n i src = Some (bs, rest) ->
  length bs = n
  /\ forallb (fun b => b <? 256) bs = true
  /\ exists used, src = used ++ rest /\ existsb (N.eqb 47) used = false.
Proof.
  induction n as [|n IH]; intros i src bs rest H; cbn [Migration.uuid_bytes] in H.
  - injection H as <- <-. repeat split. now exists [].
  - destruct src as [|hi [|lo more]]; try discriminate H.
    destruct (Migration.hex_value hi) as [h|] eqn:Hh; [|discriminate H].
    destruct (Migration.hex_value lo) as [l|] eqn:Hl; [|discriminate H].
    destruct (Migration.uuid_bytes n (i + 1) (Migration.skip_hyphen i more))
      as [[bs' rest']|] eqn:R; [|discriminate H].
    injection H as <- <-.
    destruct (IH _ _ _ _ R) as (L & B & used & U & S).
    apply hex_value_bound in Hh as [Hh Hh']. apply hex_value_bound in Hl as [Hl Hl'].
    split; [cbn; now rewrite L|]. split.
    + cbn [forallb]. rewrite B, andb_true_r. apply N.ltb_lt. lia.
    + assert (M : more = used ++ rest' \/ more = 45 :: used ++ rest').
      { unfold Migration.skip_hyphen in U. destruct more as [|c more']; [now left|].
        destruct (N.eqb_spec c 45) as [->|]; cbn [andb] in U; [|now left].
        destruct (N.odd i && (i <? 15)); [right; now rewrite U | now left]. }
      assert (F : forall c, c <> 47 -> (47 =? c) = false)
        by (intros c Hc; apply N.eqb_neq; congruence).
      destruct M as [->| ->].
      * exists (hi :: lo :: used). split; [reflexivity|].
        cbn [existsb]. now rewrite (F hi), (F lo), S.
      * exists (hi :: lo :: 45 :: used). split; [reflexivity|].
        cbn [existsb]. now rewrite (F hi), (F lo), S.
Qed.

Lemma uuid_in_shape (s : jsstring) (a : Migration.uuid) :
  Migration.uuid_in s = Some a ->
  Migration.uuid_wf a = true /\ existsb (N.eqb 47) s = false.
Proof.
  unfold Migration.uuid_in, Migration.uuid_wf.
  set (braces := match s with c :: _ => c =? 123 | [] => false end).
  intros H.
  destruct (Migration.uuid_bytes 16 0 (if braces then tail s else s))
    as [[bs rest]|] eqn:R; [|discriminate H].
  destruct (str_eqb rest (if braces then [125] else [])) eqn:T; [|discriminate H].
  injection H as <-. apply str_eqb_eq in T.
  destruct (uuid_bytes_shape _ _ _ _ _ R) as (L & B & used & U & S).
  split; [now rewrite L, B|].
  subst braces. destruct s as [|c s'].
  - reflexivity.
  - destruct (N.eqb_spec c 123) as [->|Hne].
    + cbn [tail] in U. subst s' rest. cbn [existsb].
      rewrite existsb_app, S. reflexivity.
    + subst rest. rewrite app_nil_r in U. now rewrite U.
Qed.

Lemma uuid_out_inj (a b : Migration.uuid) :
  Migration.uuid_wf a = true -> Migration.uuid_wf b = true ->
  Migration.uuid_out a = Migration.uuid_out b -> a = b.
Proof.
  intros Ha Hb E. apply uuid_in_uuid_out in Ha, Hb. congruence.
Qed.

Lemma uuid_eqb_eq (a b : Migration.uuid) : Migration.uuid_eqb a b = true <-> a = b.
Proof. unfold Migration.uuid_eqb. apply bool_decide_eq_true. Qed.

Lemma insert_check_iff (auth_uid : option Migration.uuid) (table : string) (row : Row)
  (v : Migration.uuid) :
  Migration.uuid_in (Migration.user_id_of row) = Some v ->
  (String.eqb table "profiles" || String.eqb table "yield_predictions"
   || String.eqb table "crop_recommendations") = true ->
  Migration.insert_check auth_uid table row = true <-> auth_uid = Some v.
Proof.
  intros Hv Ht. unfold Migration.insert_check. rewrite Ht, Hv. cbn [andb].
  destruct auth_uid as [a|]; [|split; discriminate].
  rewrite uuid_eqb_eq. split; congruence.
Qed.

Lemma upload_check_iff (auth_uid : option Migration.uuid) (u rest : jsstring) :
  existsb (N.eqb 47) u = false ->
  Migration.upload_check auth_uid "soil-reports" (u ++ js "/" ++ rest) = true
  <-> option_map Migration.uuid_out auth_uid = Some u.
Proof.
  intros H. rewrite (upload_check_path _ _ _ H).
  destruct auth_uid as [a|]; cbn [option_map]; [|split; discriminate].
  rewrite str_eqb_eq. split; congruence.
Qed.

Lemma write_allowed_insert (auth_uid : option Migration.uuid) (table : string) (row : Row)
  (v : Migration.uuid) :
  Migration.uuid_in (Migration.user_id_of row) = Some v ->
  (String.eqb table "profiles" || String.eqb table "yield_predictions"
   || String.eqb table "crop_recommendations") = true ->
  Migration.write_allowed auth_uid (from_insert table row) = true <-> auth_uid = Some v.
Proof. exact (insert_check_iff auth_uid table row v). Qed.

Lemma write_allowed_upload (auth_uid : option Migration.uuid) (u rest : jsstring)
  (f : File) (v : Migration.uuid) :
  Migration.uuid_in u = Some v ->
  u = Migration.uuid_out v ->
  match auth_uid with
  | Some a => Migration.uuid_wf a = true
  | None => True
  end ->
  Migration.write_allowed auth_uid (storage_upload "soil-reports" (u ++ js "/" ++ rest) f)
  = true
  <-> auth_uid = Some v.
Proof.
  intros Hv Hc Ha. destruct (uuid_in_shape _ _ Hv) as [Wv NS].
  cbn [Migration.write_allowed]. rewrite (upload_check_iff _ _ _ NS).
  destruct auth_uid as [a|]; cbn [option_map]; [|split; discriminate].
  split.
  - intros E. injection E as E. rewrite Hc in E.
    f_equal. now apply uuid_out_inj.
  - intros E. injection E as ->. now rewrite Hc.
Qed.

(** X18. The requests of an analysis against the policies of the
    migration, for a signed-in user whose id is a text of the uuid [v].
    The row that [handleAnalysis] inserts satisfies the [WITH CHECK] of
    its table exactly when the acting identity is [v], however the id is
    spelled.  The upload satisfies the [WITH CHECK] of the bucket exactly
    when the text of the acting identity is the id itself, the first
    folder of the object path.  So when the id is spelled as the database
    prints [v], every request of the analysis is allowed for the acting
    identity [v] and refused for every other one, and without one. *)
Theorem analysis_requests_fit_policies (u : User) (v : Migration.uuid) :
  Migration.uuid_in (uid u) = Some v ->
  (forall file fa w an pr res env,
     let s := {| RecommendCrop.selectedFile := Some file; RecommendCrop.farmArea := fa;
                 RecommendCrop.weatherData := Some w; RecommendCrop.analyzing := an;
                 RecommendCrop.progress := pr; RecommendCrop.result := res |} in
     let calls := calls_of (trace (RecommendCrop.handleAnalysis (Some u) env s)) in
     (forall auth_uid table row, In (from_insert table row) calls ->
        (Migration.insert_check auth_uid table row = true <-> auth_uid = Some v))
     /\ (forall auth_uid bucket path f, In (storage_upload bucket path f) calls ->
           (Migration.upload_check auth_uid bucket path = true
            <-> option_map Migration.uuid_out auth_uid = Some (uid u)))
     /\ (uid u = Migration.uuid_out v ->
         forall auth_uid,
           match auth_uid with
           | Some a => Migration.uuid_wf a = true
           | None => True
           end ->
           Forall (fun c => Migration.write_allowed auth_uid c = true
                            <-> auth_uid = Some v) calls))
  /\ (forall file up an pr res env,
        let s := {| PredictYield.selectedFile := Some file; PredictYield.uploading := up;
                    PredictYield.analyzing := an; PredictYield.progress := pr;
                    PredictYield.result := res |} in
        let calls := calls_of (trace (PredictYield.handleAnalysis (Some u) env s)) in
        (forall auth_uid table row, In (from_insert table row) calls ->
           (Migration.insert_check auth_uid table row = true <-> auth_uid = Some v))
        /\ (forall auth_uid bucket path f, In (storage_upload bucket path f) calls ->
              (Migration.upload_check auth_uid bucket path = true
               <-> option_map Migration.uuid_out auth_uid = Some (uid u)))
        /\ (uid u = Migration.uuid_out v ->
            forall auth_uid,
              match auth_uid with
              | Some a => Migration.uuid_wf a = true
              | None => True
              end ->
              Forall (fun c => Migration.write_allowed auth_uid c = true
                               <-> auth_uid = Some v) calls)).
Proof.
  intros Hv. destruct (uuid_in_shape _ _ Hv) as [Wv NS].
  split.
  - intros file fa w an pr res [now_ms resp draws dberr] s calls. subst calls s.
    backend_cases; cbn -[js of_N split_pop Migration.write_allowed];
      (split; [intros a table row H; cbn -[js of_N split_pop] in H;
               repeat (destruct H as [H|H]); try discriminate H; try contradiction;
               try (injection H as <- <-; apply insert_check_iff;
                    [exact Hv | reflexivity]) |
       split; [intros a bucket path f H; cbn -[js of_N split_pop] in H;
               repeat (destruct H as [H|H]); try discriminate H; try contradiction;
               try (injection H as <- <- <-; apply upload_check_iff; exact NS) |
       intros Hc a Ha;
       repeat (constructor;
               [first [ apply write_allowed_upload; assumption
                      | apply write_allowed_insert; [exact Hv | reflexivity] ] |]);
       try constructor]]).
  - intros file up an pr res [now_ms resp draws dberr] s calls. subst calls s.
    backend_cases; cbn -[js of_N split_pop Migration.write_allowed];
      (split; [intros a table row H; cbn -[js of_N split_pop] in H;
               repeat (destruct H as [H|H]); try discriminate H; try contradiction;
               try (injection H as <- <-; apply insert_check_iff;
                    [exact Hv | reflexivity]) |
       split; [intros a bucket path f H; cbn -[js of_N split_pop] in H;
               repeat (destruct H as [H|H]); try discriminate H; try contradiction;
               try (injection H as <- <- <-; apply upload_check_iff; exact NS) |
       intros Hc a Ha;
       repeat (constructor;
               [first [ apply write_allowed_upload; assumption
                      | apply write_allowed_insert; [exact Hv | reflexivity] ] |]);
       try constructor]]).
Qed.

(** X18 for a user with a printed uuid as id, on the yield page: the
    upload and the insert are both sent and both allowed for that user. *)
Lemma analysis_requests_fit_policies_witness :
  let v := [160; 238; 188; 153; 156; 11; 78; 248; 187; 109; 107; 185; 189; 56; 10; 17] in
  let calls := calls_of (trace (PredictYield.handleAnalysis (Some Sample.a_farmer)
                                  (Sample.yield_env (fulfilled None) None)
                                  (Sample.yield_page None))) in
  Migration.uuid_in (uid Sample.a_farmer) = Some v
  /\ uid Sample.a_farmer = Migration.uuid_out v
  /\ length calls = 2%nat
  /\ Forall (fun c => Migration.write_allowed (Some v) c = true) calls.
Proof.
  intros v calls.
  assert (Hv : Migration.uuid_in (uid Sample.a_farmer) = Some v)
    by (vm_compute; reflexivity).
  assert (Hc : uid Sample.a_farmer = Migration.uuid_out v) by (vm_compute; reflexivity).
  split; [exact Hv|]. split; [exact Hc|]. split; [reflexivity|].
  refine (List.Forall_impl _ _
            (proj2 (proj2 (proj2 (analysis_requests_fit_policies Sample.a_farmer v Hv)
                             Sample.a_file false false 0 None
                             (Sample.yield_env (fulfilled None) None)))
                   Hc (Some v) eq_refl)).
  intros c H. apply H. reflexivity.
Defined.

(** The same uuid in another spelling, upper case and in braces: the
    row is accepted for the same acting identity, since the column holds
    the value; the upload is refused, since the folder is compared with
    the printed text. *)
Example another_spelling_of_the_id :
  let v := [160; 238; 188; 153; 156; 11; 78; 248; 187; 109; 107; 185; 189; 56; 10; 17] in
  let shouting := {| uid := js "{A0EEBC99-9C0B-4EF8-BB6D-6BB9BD380A11}" |} in
  let calls := calls_of (trace (PredictYield.handleAnalysis (Some shouting)
                                  (Sample.yield_env (fulfilled None) None)
                                  (Sample.yield_page None))) in
  Migration.uuid_in (uid shouting) = Some v
  /\ Migration.uuid_in (js "a0ee-bc99-9c0b-4ef8-bb6d-6bb9-bd38-0a11") = Some v
  /\ Migration.uuid_in (js "a0eebc999c0b4ef8bb6d6bb9bd380a11") = Some v
  /\ Migration.uuid_in (js "a0eebc99-9c0b-4ef8-bb6d-6bb9bd380a1") = None
  /\ Migration.uuid_in (js "7d7c1f0e") = None
  /\ List.map (Migration.write_allowed (Some v)) calls = [false; true].
Proof. vm_compute. repeat split. Qed.

(** ** The mount effect of RecommendCrop *)

(** X19. [fetchUserData].  Without a signed-in user it does nothing.
    With one it sends a single query for the [farm_area] of the user's
    profile, then always installs weather data whose season is "Summer"
    for months 2 to 5 (March to June), "Monsoon" for months 6 to 9 and
    "Winter" for the other four, and writes the farm-area field only
    when a profile row came back; the rest of the page is untouched.  It
    never shows a toast and never throws. *)
Theorem fetchUserData_characterised
  (user : option User) (env : RecommendCropPage.FetchEnv) (s : RecommendCrop.State) :
  let r := RecommendCropPage.fetchUserData user env s in
  outcome r = returned tt
  /\ toasts_of (trace r) = []
  /\ match user with
     | None => final r = s /\ trace r = []
     | Some u =>
         trace r = [call (from_select_single "profiles" "farm_area" "user_id" (uid u))]
         /\ final r
            = {| RecommendCrop.selectedFile := RecommendCrop.selectedFile s;
                 RecommendCrop.farmArea :=
                   match RecommendCropPage.profile_farm_area env with
                   | Some text => text
                   | None => RecommendCrop.farmArea s
                   end;
                 RecommendCrop.weatherData :=
                   Some {| temperature := RecommendCropPage.temperature_draw env;
                           humidity := RecommendCropPage.humidity_draw env;
                           rainfall := RecommendCropPage.rainfall_draw env;
                           season :=
                             RecommendCropPage.getCurrentSeason
                               (RecommendCropPage.month env) |};
                 RecommendCrop.analyzing := RecommendCrop.analyzing s;
                 RecommendCrop.progress := RecommendCrop.progress s;
                 RecommendCrop.result := RecommendCrop.result s |}
     end
  /\ (forall month,
        (RecommendCropPage.getCurrentSeason month = "Summer"%string <-> 2 <= month <= 5)
        /\ (RecommendCropPage.getCurrentSeason month = "Monsoon"%string <-> 6 <= month <= 9)
        /\ (RecommendCropPage.getCurrentSeason month = "Winter"%string
            <-> month < 2 \/ 9 < month)).
Proof.
  intros r. subst r.
  split; [|split; [|split]].
  - destruct user, env as [m [t|] td hd rd]; reflexivity.
  - destruct user, env as [m [t|] td hd rd]; reflexivity.
  - destruct user, env as [m [t|] td hd rd]; split; reflexivity.
  - intros month. unfold RecommendCropPage.getCurrentSeason.
    destruct (N.leb_spec 2 month), (N.leb_spec month 5), (N.leb_spec 6 month),
      (N.leb_spec month 9); cbn [andb];
      repeat split; intros; try discriminate; try lia; reflexivity.
Qed.

(** X20. From mount to saved row on RecommendCrop.  Start from the empty
    page with a signed-in user, let the mount effect run, offer a file
    that passes the two guards and start the analysis with the upload
    accepted.  The button is enabled, the guard is passed, and the row
    inserted in [crop_recommendations] has as [farm_area] the parsed text
    of the profile's farm area, and NaN when the profile lookup returned
    no row: the farm-area field is then still empty and
    [parseFloat('')] is what gets saved.  The season in the row is that
    of the month of the mount. *)
Theorem mount_select_analyse
  (u : User) (fenv : RecommendCropPage.FetchEnv) (file : File)
  (now_ms : N) (draws : RecommendCrop.Draws) (dbError : option Error) :
  passes_guards file = true ->
  let s1 := final (RecommendCropPage.fetchUserData (Some u) fenv RecommendCropPage.initial) in
  let s2 := final (RecommendCrop.handleFileSelect (Some file) s1) in
  let env := {| RecommendCrop.now := now_ms;
                RecommendCrop.upload_response := fulfilled None;
                RecommendCrop.draws := draws;
                RecommendCrop.dbError := dbError |} in
  let r := RecommendCrop.handleAnalysis (Some u) env s2 in
  RecommendCropPage.button_disabled s2 = false
  /\ exists path crops fertilizers pests weather,
       calls_of (trace r)
       = [ storage_upload "soil-reports" path file;
           from_insert "crop_recommendations"
             (crop_recommendations_row (uid u) crops fertilizers pests weather
                match RecommendCropPage.profile_farm_area fenv with
                | Some text => parseFloat text
                | None => NaN
                end) ]
       /\ season weather
          = RecommendCropPage.getCurrentSeason (RecommendCropPage.month fenv).
Proof.
  intros G s1 s2 env r.
  pose proof (RecommendCrop_handleFileSelect_cases file s1) as C.
  rewrite G in C. destruct C as [_ C]. fold s2 in C.
  destruct fenv as [m prof td hd rd].
  split.
  - rewrite C. subst s1. destruct prof; reflexivity.
  - subst r. rewrite C. subst s1 env.
    destruct prof as [text|], dbError; cbn -[js of_N split_pop parseFloat];
      do 5 eexists; split; reflexivity.
Qed.

Lemma mount_select_analyse_witness :
  let fenv := {| RecommendCropPage.month := 6;
                 RecommendCropPage.profile_farm_area := None;
                 RecommendCropPage.temperature_draw := Finite false 31 0;
                 RecommendCropPage.humidity_draw := Finite false 74 0;
                 RecommendCropPage.rainfall_draw := Finite false 120 0 |} in
  passes_guards Sample.a_file = true
  /\ RecommendCropPage.button_disabled
       (final (RecommendCrop.handleFileSelect (Some Sample.a_file)
                 (final (RecommendCropPage.fetchUserData (Some Sample.a_user) fenv
                           RecommendCropPage.initial)))) = false.
Proof.
  intros fenv.
  assert (G : passes_guards Sample.a_file = true) by (vm_compute; reflexivity).
  split; [exact G|].
  exact (proj1 (mount_select_analyse Sample.a_user fenv Sample.a_file 1730000000000
                  {| RecommendCrop.one_more_crop := false;
                     RecommendCrop.crop_draw := fun _ => (Finite false 80 0, [], []);
                     RecommendCrop.npk_dosage := []; RecommendCrop.compost_dosage := [] |}
                  None G)).
Defined.

(** ** Offered files and the button *)

Lemma last_cons_option {A} (x : A) (l : list A) :
  last (x :: l) = match last l with Some y => Some y | None => Some x end.
Proof.
  revert x. induction l as [|y l IH]; intros x; [reflexivity|].
  change (last (x :: y :: l)) with (last (y :: l)).
  rewrite (IH y). destruct (last l); reflexivity.
Qed.

Lemma PredictYield_after_offers (offers : list (option File)) (s : PredictYield.State) :
  let s' := fold_left (fun s f => final (PredictYield.handleFileSelect f s)) offers s in
  PredictYield.selectedFile s'
  = match last (List.filter passes_guards (omap id offers)) with
    | Some f => Some f
    | None => PredictYield.selectedFile s
    end
  /\ (PredictYield.result s = None -> PredictYield.result s' = None).
Proof.
  revert s. induction offers as [|[f|] offers IH]; intros s; cbn [fold_left].
  - split; [reflexivity | auto].
  - specialize (IH (final (PredictYield.handleFileSelect (Some f) s))).
    cbn zeta in IH. destruct IH as [IHs IHr].
    pose proof (PredictYield_handleFileSelect_cases f s) as C. cbn zeta in C.
    change (omap id (Some f :: offers)) with (f :: omap id offers).
    cbn [List.filter]. destruct (passes_guards f) eqn:G; rewrite ?G.
    + destruct C as [_ C]. rewrite last_cons_option. split.
      * rewrite IHs, C. cbn [PredictYield.selectedFile].
        destruct (last _); reflexivity.
      * intros _. apply IHr. rewrite C. reflexivity.
    + destruct C as [C _]. rewrite C in IHs, IHr |- *. split; assumption.
  - change (omap id (None :: offers)) with (omap id offers). apply IH.
Qed.

Lemma RecommendCrop_after_offers (offers : list (option File)) (s : RecommendCrop.State) :
  let s' := fold_left (fun s f => final (RecommendCrop.handleFileSelect f s)) offers s in
  RecommendCrop.selectedFile s'
  = match last (List.filter passes_guards (omap id offers)) with
    | Some f => Some f
    | None => RecommendCrop.selectedFile s
    end
  /\ (RecommendCrop.result s = None -> RecommendCrop.result s' = None).
Proof.
  revert s. induction offers as [|[f|] offers IH]; intros s; cbn [fold_left].
  - split; [reflexivity | auto].
  - specialize (IH (final (RecommendCrop.handleFileSelect (Some f) s))).
    cbn zeta in IH. destruct IH as [IHs IHr].
    pose proof (RecommendCrop_handleFileSelect_cases f s) as C. cbn zeta in C.
    change (omap id (Some f :: offers)) with (f :: omap id offers).
    cbn [List.filter]. destruct (passes_guards f) eqn:G; rewrite ?G.
    + destruct C as [_ C]. rewrite last_cons_option. split.
      * rewrite IHs, C. cbn [RecommendCrop.selectedFile].
        destruct (last _); reflexivity.
      * intros _. apply IHr. rewrite C. reflexivity.
    + destruct C as [C _]. rewrite C in IHs, IHr |- *. split; assumption.
  - change (omap id (None :: offers)) with (omap id offers). apply IH.
Qed.

Lemma PredictYield_uploads_selected user env s bucket path file :
  In (call (storage_upload bucket path file)) (trace (PredictYield.handleAnalysis user env s)) ->
  PredictYield.selectedFile s = Some file.
Proof.
  destruct env as [now_ms resp draws dberr], s as [[f|] up an pr res], user as [u|];
    backend_cases; cbn -[js of_N split_pop]; intros H;
    repeat (destruct H as [H|H]; [try discriminate H; injection H as _ _ <-; reflexivity |]);
    destruct H.
Qed.

Lemma RecommendCrop_uploads_selected user env s bucket path file :
  In (call (storage_upload bucket path file)) (trace (RecommendCrop.handleAnalysis user env s)) ->
  RecommendCrop.selectedFile s = Some file.
Proof.
  destruct env as [now_ms resp draws dberr], s as [[f|] fa [w|] an pr res], user as [u|];
    backend_cases; cbn -[js of_N split_pop]; intros H;
    repeat (destruct H as [H|H]; [try discriminate H; injection H as _ _ <-; reflexivity |]);
    destruct H.
Qed.

(** X21. Only an accepted file is ever selected or uploaded.  After any
    sequence of offers to the file input of a fresh page (an offer may
    be empty), the selected file is the last offered file that passes
    the type and size guards, or none if no offer did, and no result is
    displayed.  A file that [handleAnalysis] then uploads is that file,
    so it is of an allowed type and of at most 5,242,880 bytes. *)
Theorem only_accepted_files_are_uploaded (offers : list (option File)) :
  let accepted := List.filter passes_guards (omap id offers) in
  (let s := fold_left (fun s f => final (PredictYield.handleFileSelect f s))
                      offers PredictYieldPage.initial in
   PredictYield.selectedFile s = last accepted
   /\ PredictYield.result s = None
   /\ forall user env bucket path file,
        In (call (storage_upload bucket path file))
           (trace (PredictYield.handleAnalysis user env s)) ->
        last accepted = Some file /\ Spec.acceptable file)
  /\ (let s := fold_left (fun s f => final (RecommendCrop.handleFileSelect f s))
                         offers RecommendCropPage.initial in
      RecommendCrop.selectedFile s = last accepted
      /\ RecommendCrop.result s = None
      /\ forall user env bucket path file,
           In (call (storage_upload bucket path file))
              (trace (RecommendCrop.handleAnalysis user env s)) ->
           last accepted = Some file /\ Spec.acceptable file).
Proof.
  intros accepted.
  assert (A : forall file, last accepted = Some file -> Spec.acceptable file).
  { intros file L. apply passes_guards_acceptable.
    apply last_Some in L as (l' & L).
    assert (In file accepted) by (rewrite L; apply in_or_app; right; now left).
    subst accepted. apply filter_In in H. tauto. }
  split.
  - intros s.
    destruct (PredictYield_after_offers offers PredictYieldPage.initial) as [Hs Hr].
    cbn zeta in Hs, Hr. fold s accepted in Hs, Hr.
    assert (S : PredictYield.selectedFile s = last accepted).
    { rewrite Hs. cbn [PredictYield.selectedFile PredictYieldPage.initial].
      destruct (last accepted); reflexivity. }
    split; [exact S|]. split; [now apply Hr|].
    intros user env bucket path file H.
    apply PredictYield_uploads_selected in H. rewrite S in H. auto.
  - intros s.
    destruct (RecommendCrop_after_offers offers RecommendCropPage.initial) as [Hs Hr].
    cbn zeta in Hs, Hr. fold s accepted in Hs, Hr.
    assert (S : RecommendCrop.selectedFile s = last accepted).
    { rewrite Hs. cbn [RecommendCrop.selectedFile RecommendCropPage.initial].
      destruct (last accepted); reflexivity. }
    split; [exact S|]. split; [now apply Hr|].
    intros user env bucket path file H.
    apply RecommendCrop_uploads_selected in H. rewrite S in H. auto.
Qed.

(** X22. The button of PredictYield and the guard of its handler.  The
    page shows the button only to a signed-in user and enables it only
    with a selected file and no work in progress; so with the button
    enabled the handler passes its guard and its first event is the
    upload: the toast "Please select a file and make sure you're logged
    in" cannot be produced by a click.  On RecommendCrop an enabled
    button still meets the guard when the weather data is missing. *)
Theorem enabled_button_passes_guard (u : User) :
  (forall env s,
     if PredictYieldPage.button_disabled s then True
     else exists file rest,
            PredictYield.selectedFile s = Some file
            /\ trace (PredictYield.handleAnalysis (Some u) env s)
               = call (storage_upload "soil-reports"
                         (uid u ++ js "/" ++ of_N (PredictYield.now env) ++ js "."
                          ++ split_pop 46 (file_name file)) file) :: rest)
  /\ (forall env s,
        if RecommendCropPage.button_disabled s then True
        else match RecommendCrop.weatherData s with
             | None =>
                 calls_of (trace (RecommendCrop.handleAnalysis (Some u) env s)) = []
                 /\ failure_toast (trace (RecommendCrop.handleAnalysis (Some u) env s))
             | Some _ =>
                 exists file rest,
                   RecommendCrop.selectedFile s = Some file
                   /\ trace (RecommendCrop.handleAnalysis (Some u) env s)
                      = call (storage_upload "soil-reports"
                                (uid u ++ js "/" ++ of_N (RecommendCrop.now env) ++ js "."
                                 ++ split_pop 46 (file_name file)) file) :: rest
             end).
Proof.
  split.
  - intros [now_ms resp draws dberr] [[file|] up an pr res];
      unfold PredictYieldPage.button_disabled; cbn [PredictYield.selectedFile]; [|exact I].
    destruct (PredictYield.uploading _ || PredictYield.analyzing _); [exact I|].
    backend_cases; cbn -[js of_N split_pop]; do 2 eexists; split; reflexivity.
  - intros [now_ms resp draws dberr] [[file|] fa [w|] an pr res];
      unfold RecommendCropPage.button_disabled;
      cbn [RecommendCrop.selectedFile RecommendCrop.analyzing RecommendCrop.weatherData];
      try exact I; destruct an; try exact I.
    + backend_cases; cbn -[js of_N split_pop]; do 2 eexists; split; reflexivity.
    + split; [reflexivity|]. apply failure_toast_yes. reflexivity.
Qed.
